(** * The realtime subscription manager of [useSupabaseSubscription.ts]

    A shallow embedding of the React hook [useSupabaseSubscription]: its
    React state ([retryCount], [isConnected]), its three refs, the browser
    timer table it drives through [window.setTimeout] / [window.setInterval],
    the channels it opens on the supabase client, and the toasts and console
    lines it emits.  Callbacks are defunctionalised: a registered callback is
    stored as the data it closes over.  The client calls back into the hook:
    removing a channel hands CLOSED to that channel's status listener. *)

From Stdlib Require Import ZArith Lia.
From stdpp Require Import base option gmap strings pretty.

Open Scope string_scope.
Open Scope nat_scope.

(** ** Constants (lines 6-8) *)

Definition INITIAL_RETRY_DELAY : Z := 1000.
Definition MAX_RETRY_DELAY : Z := 30000.
Definition MAX_RETRY_ATTEMPTS : nat := 5.
(** The literal period of the heartbeat interval (line 69). *)
Definition HEARTBEAT_PERIOD : Z := 30000.

(** ** Data *)

(** What the callbacks of one render close over: [useCallback] keeps
    [handleReconnection] (deps [sessionId, retryCount]) and
    [setupSubscription] (deps [handleReconnection]) of the render in which
    these two values last changed, so every callback installed through them
    reads the [sessionId] prop and the [retryCount] state of that render. *)
Record Closure := {
  cl_sessionId : option string;   (* string | null *)
  cl_retryCount : nat
}.

(** The status values handed to the callback of [subscribe]. *)
Inductive Status := SUBSCRIBED | TIMED_OUT | CLOSED | CHANNEL_ERROR.

Definition status_name (st : Status) : string :=
  match st with
  | SUBSCRIBED => "SUBSCRIBED"
  | TIMED_OUT => "TIMED_OUT"
  | CLOSED => "CLOSED"
  | CHANNEL_ERROR => "CHANNEL_ERROR"
  end.

(** A channel object: its topic, the filter of its INSERT listener, and the
    render its three listeners were created in. *)
Record Channel := {
  ch_topic : string;
  ch_filter : string;
  ch_closure : Closure
}.

(** An entry of the browser's table of active timers.  [Timeout] is the
    arrow function of lines 39-47, [Interval] the one of lines 53-69. *)
Inductive Timer :=
| Timeout (cl : Closure) (sid : string) (delay : Z)
| Interval (cl : Closure) (channel : positive) (period : Z).

Definition is_timeout (t : Timer) : bool :=
  match t with Timeout _ _ _ => true | Interval _ _ _ => false end.
Definition is_interval (t : Timer) : bool :=
  match t with Timeout _ _ _ => false | Interval _ _ _ => true end.

Inductive ToastKind := ToastError | ToastSuccess.
Record Toast := {
  t_kind : ToastKind;
  t_message : string;
  t_description : option string
}.

Inductive Level := LogLevel | WarnLevel | ErrorLevel.

(** React state and refs of one hook instance (lines 11-15).  Timer handles
    are positive integers, hence always truthy when present. *)
Record Hook := {
  retryCount : nat;
  isConnected : bool;
  channelRef : option positive;            (* RealtimeChannel | null *)
  timeoutRef : option positive;            (* number | undefined *)
  heartbeatIntervalRef : option positive   (* number | undefined *)
}.

(** The browser: one table and one handle counter shared by timeouts and
    intervals. *)
Record Window := {
  timers : gmap positive Timer;
  next_timer : positive
}.

(** The supabase client: every channel object created so far, the set of
    channels it currently holds (not yet removed), and the heartbeat
    broadcasts handed to [send]. *)
Record Client := {
  channels : gmap positive Channel;
  registry : gset positive;
  next_channel : positive;
  sent : list positive
}.

Record State := {
  hook : Hook;
  window : Window;
  supabase : Client;
  toasts : list Toast;
  console : list (Level * string)
}.

Definition init : State :=
  {| hook := {| retryCount := 0; isConnected := false; channelRef := None;
                timeoutRef := None; heartbeatIntervalRef := None |};
     window := {| timers := ∅; next_timer := 1 |};
     supabase := {| channels := ∅; registry := ∅; next_channel := 1; sent := [] |};
     toasts := [];
     console := [] |}.

(** ** Primitive effects *)

Definition on_hook (f : Hook → Hook) (s : State) : State :=
  {| hook := f (hook s); window := window s; supabase := supabase s;
     toasts := toasts s; console := console s |}.
Definition on_window (f : Window → Window) (s : State) : State :=
  {| hook := hook s; window := f (window s); supabase := supabase s;
     toasts := toasts s; console := console s |}.
Definition on_supabase (f : Client → Client) (s : State) : State :=
  {| hook := hook s; window := window s; supabase := f (supabase s);
     toasts := toasts s; console := console s |}.

Definition setRetryCount (f : nat → nat) : State → State :=
  on_hook (λ h, {| retryCount := f (retryCount h); isConnected := isConnected h;
                   channelRef := channelRef h; timeoutRef := timeoutRef h;
                   heartbeatIntervalRef := heartbeatIntervalRef h |}).
Definition setIsConnected (b : bool) : State → State :=
  on_hook (λ h, {| retryCount := retryCount h; isConnected := b;
                   channelRef := channelRef h; timeoutRef := timeoutRef h;
                   heartbeatIntervalRef := heartbeatIntervalRef h |}).
Definition set_channelRef (c : option positive) : State → State :=
  on_hook (λ h, {| retryCount := retryCount h; isConnected := isConnected h;
                   channelRef := c; timeoutRef := timeoutRef h;
                   heartbeatIntervalRef := heartbeatIntervalRef h |}).
Definition set_timeoutRef (t : option positive) : State → State :=
  on_hook (λ h, {| retryCount := retryCount h; isConnected := isConnected h;
                   channelRef := channelRef h; timeoutRef := t;
                   heartbeatIntervalRef := heartbeatIntervalRef h |}).
Definition set_heartbeatIntervalRef (t : option positive) : State → State :=
  on_hook (λ h, {| retryCount := retryCount h; isConnected := isConnected h;
                   channelRef := channelRef h; timeoutRef := timeoutRef h;
                   heartbeatIntervalRef := t |}).

(** [console.log] / [console.warn] / [console.error]: the message text;
    object arguments (the payload, the error) are not recorded. *)
Definition emit (l : Level) (msg : string) (s : State) : State :=
  {| hook := hook s; window := window s; supabase := supabase s;
     toasts := toasts s; console := console s ++ [(l, msg)] |}.
(** [toast.error] / [toast.success] of sonner. *)
Definition toast (t : Toast) (s : State) : State :=
  {| hook := hook s; window := window s; supabase := supabase s;
     toasts := toasts s ++ [t]; console := console s |}.

(** [clearTimeout] and [clearInterval] are the same operation on the
    browser's table; clearing a handle that is not active does nothing. *)
Definition clearTimer (id : positive) : State → State :=
  on_window (λ w, {| timers := delete id (timers w); next_timer := next_timer w |}).

(** [window.setTimeout] / [window.setInterval]: a fresh handle. *)
Definition addTimer (t : Timer) (s : State) : positive * State :=
  let id := next_timer (window s) in
  (id, on_window (λ w, {| timers := <[id := t]> (timers w);
                          next_timer := Pos.succ id |}) s).

(** The client forgets a channel: its part of [supabase.removeChannel],
    which then notifies the channel's status listener (see [removeChannel]
    below). *)
Definition unregister (ch : positive) : State → State :=
  on_supabase (λ c, {| channels := channels c; registry := registry c ∖ {[ch]};
                       next_channel := next_channel c; sent := sent c |}).

(** [supabase.channel(topic).on(...).on(...).subscribe(...)]: a new channel
    object held by the client. *)
Definition openChannel (c : Channel) (s : State) : positive * State :=
  let ch := next_channel (supabase s) in
  (ch, on_supabase (λ k, {| channels := <[ch := c]> (channels k);
                            registry := {[ch]} ∪ registry k;
                            next_channel := Pos.succ ch; sent := sent k |}) s).

(** [channel.send({type: 'broadcast', event: 'heartbeat', ...})]. *)
Definition send (ch : positive) : State → State :=
  on_supabase (λ c, {| channels := channels c; registry := registry c;
                       next_channel := next_channel c; sent := sent c ++ [ch] |}).

(** JavaScript truthiness of a [string | null]: [null] and the empty string
    are falsy. *)
Definition truthy (sid : option string) : option string :=
  match sid with
  | Some "" => None
  | Some s => Some s
  | None => None
  end.

(** ** The hook's functions, in source order *)

(** Lines 17-22. *)
Definition clearHeartbeat (s : State) : State :=
  match heartbeatIntervalRef (hook s) with
  | Some id => set_heartbeatIntervalRef None (clearTimer id s)
  | None => s
  end.

(** The backoff expression of line 31. *)
Definition retryDelay (n : nat) : Z :=
  Z.min (INITIAL_RETRY_DELAY * 2 ^ Z.of_nat n) MAX_RETRY_DELAY.

Definition refresh_toast : Toast :=
  {| t_kind := ToastError;
     t_message := "Unable to maintain connection. Please refresh the page.";
     t_description := None |}.

(** Lines 24-48.  The arrow function handed to [setTimeout] is stored as
    [Timeout cl sid delay]; its body is [reconnectionTimeout] below. *)
Definition handleReconnection (cl : Closure) (s : State) : State :=
  match truthy (cl_sessionId cl) with
  | Some sid =>
      if bool_decide (MAX_RETRY_ATTEMPTS ≤ cl_retryCount cl)%nat then
        toast refresh_toast
          (emit ErrorLevel "Max retry attempts reached or no session ID" s)
      else
        let delay := retryDelay (cl_retryCount cl) in
        let s := emit LogLevel
                   ("Attempting reconnection in " +:+ pretty delay +:+
                    "ms (attempt " +:+ pretty (cl_retryCount cl + 1)%nat +:+ ")") s in
        let s := match timeoutRef (hook s) with
                 | Some id => clearTimer id s
                 | None => s
                 end in
        let '(id, s) := addTimer (Timeout cl sid delay) s in
        set_timeoutRef (Some id) s
  | None =>
      toast refresh_toast
        (emit ErrorLevel "Max retry attempts reached or no session ID" s)
  end.

(** Lines 50-70, without the body of the interval callback. *)
Definition startHeartbeat (cl : Closure) (channel : positive) (s : State) : State :=
  let s := clearHeartbeat s in
  let '(id, s) := addTimer (Interval cl channel HEARTBEAT_PERIOD) s in
  set_heartbeatIntervalRef (Some id) s.

(** Lines 54-62: one tick of the interval; [closed] is what
    [channel.state === 'closed'] evaluates to at that moment. *)
Definition heartbeatTick (channel : positive) (closed : bool) (s : State) : State :=
  if closed then clearHeartbeat s else send channel s.

(** Lines 63-68: the [catch] handler of a rejected heartbeat [send]. *)
Definition heartbeatFailed (cl : Closure) (s : State) : State :=
  let s := emit ErrorLevel "Heartbeat failed:" s in
  let s := clearHeartbeat s in
  let s := setIsConnected false s in
  handleReconnection cl s.

(** The three listeners of lines 92-129 come first: the client runs the
    status callback when a channel is removed. *)

(** The part of an INSERT payload the listener reads: [payload.new.role]. *)
Record InsertPayload := { new_role : string }.

Definition allowed_roles : list string := ["user"; "assistant"; "owner"].

(** Lines 92-99: the [postgres_changes] listener. *)
Definition onInsert (payload : InsertPayload) (s : State) : State :=
  let s := emit LogLevel "Real-time message received:" s in
  if negb (bool_decide (new_role payload ∈ allowed_roles)) then
    emit WarnLevel ("Invalid role in payload: " +:+ new_role payload) s
  else s.

Definition connection_lost_toast : Toast :=
  {| t_kind := ToastError;
     t_message := "Connection lost. Attempting to reconnect...";
     t_description := Some "Please wait while we restore your connection." |}.

Definition connection_error_toast : Toast :=
  {| t_kind := ToastError;
     t_message := "Connection error";
     t_description :=
       Some "There was a problem with the chat connection. Attempting to reconnect..." |}.

(** Lines 101-108: the [system] error listener. *)
Definition onSystemError (cl : Closure) (s : State) : State :=
  let s := emit ErrorLevel "Subscription error:" s in
  let s := setIsConnected false s in
  let s := toast connection_lost_toast s in
  handleReconnection cl s.

(** Lines 109-129: the callback of [subscribe]. *)
Definition onStatus (cl : Closure) (channel : positive) (status : Status)
    (s : State) : State :=
  let s := emit LogLevel ("Subscription status: " +:+ status_name status) s in
  match status with
  | SUBSCRIBED =>
      let s := emit LogLevel "Successfully subscribed to real-time updates" s in
      let s := setIsConnected true s in
      let s := setRetryCount (λ _, 0) s in
      startHeartbeat cl channel s
  | CLOSED =>
      let s := emit LogLevel "Subscription closed, attempting to reconnect..." s in
      let s := setIsConnected false s in
      handleReconnection cl s
  | CHANNEL_ERROR =>
      let s := emit ErrorLevel "Channel error occurred" s in
      let s := setIsConnected false s in
      let s := toast connection_error_toast s in
      handleReconnection cl s
  | TIMED_OUT => s
  end.

(** [supabase.removeChannel(channel)]: the client drops the channel and,
    before it returns, calls the callback the channel was subscribed with
    (lines 109-129) with [CLOSED].  That callback belongs to the render the
    channel was created in. *)
Definition removeChannel (ch : positive) (s : State) : State :=
  let s := unregister ch s in
  match channels (supabase s) !! ch with
  | Some c => onStatus (ch_closure c) ch CLOSED s
  | None => s
  end.

Arguments removeChannel : simpl never.

(** Lines 72-133, without the bodies of the three listeners (above). *)
Definition setupSubscription (cl : Closure) (sid : string) (s : State)
  : positive * State :=
  let s := match channelRef (hook s) with
           | Some old =>
               let s := emit WarnLevel "Subscription already exists, cleaning up first" s in
               let s := removeChannel old s in
               let s := set_channelRef None s in
               clearHeartbeat s
           | None => s
           end in
  let s := emit LogLevel ("Setting up subscription for session: " +:+ sid) s in
  let '(channel, s) :=
    openChannel {| ch_topic := "chat_messages_" +:+ sid;
                   ch_filter := "session_id=eq." +:+ sid;
                   ch_closure := cl |} s in
  (channel, set_channelRef (Some channel) s).

(** Lines 39-47: the body of the reconnection timeout. *)
Definition reconnectionTimeout (cl : Closure) (sid : string) (s : State) : State :=
  let s := setRetryCount (λ prev, (prev + 1)%nat) s in
  let s := match channelRef (hook s) with
           | Some old =>
               let s := emit LogLevel "Removing existing channel before reconnection" s in
               let s := removeChannel old s in
               set_channelRef None s
           | None => s
           end in
  (setupSubscription cl sid s).2.

Definition reconnecting_toast : Toast :=
  {| t_kind := ToastSuccess;
     t_message := "Attempting to reconnect...";
     t_description := Some "Please wait while we restore your connection." |}.

(** Lines 135-150. *)
Definition reconnect (cl : Closure) (s : State) : State :=
  match truthy (cl_sessionId cl) with
  | None => s
  | Some sid =>
      let s := emit LogLevel "Manual reconnection requested" s in
      let s := setRetryCount (λ _, 0) s in
      let s := setIsConnected false s in
      let s := match channelRef (hook s) with
               | Some old => set_channelRef None (removeChannel old s)
               | None => s
               end in
      let s := clearHeartbeat s in
      let s := (setupSubscription cl sid s).2 in
      toast reconnecting_toast s
  end.

(** Lines 153-165: the cleanup function of the unmount effect. *)
Definition cleanup (s : State) : State :=
  let s := emit LogLevel "Cleaning up subscription" s in
  let s := match timeoutRef (hook s) with
           | Some id => clearTimer id s
           | None => s
           end in
  let s := clearHeartbeat s in
  match channelRef (hook s) with
  | Some old => set_channelRef None (removeChannel old s)
  | None => s
  end.

(** ** Events

    What can happen to a hook instance: the UI calls one of the two
    functions the hook returns (taken from some render, hence a [Closure]),
    the component unmounts, the transport invokes a listener of a channel
    object, a timer of the browser's table fires, or a heartbeat [send]
    is rejected.  A listener of a channel that was already removed may still
    be invoked: the source has no guard against it.  The CLOSED status the
    client hands to a channel while removing it is not an event of its own:
    it is part of [removeChannel].  The [catch] handler of
    a heartbeat [send] on a channel closes over the render of that channel's
    listeners, since [startHeartbeat] is only called from its status
    listener. *)
Inductive Event :=
| CallSetup (cl : Closure) (sid : string)
| CallReconnect (cl : Closure)
| Unmount
| RowInserted (channel : positive) (payload : InsertPayload)
| SystemError (channel : positive)
| StatusChange (channel : positive) (status : Status)
| TimeoutFires (id : positive)
| IntervalTicks (id : positive) (closed : bool)
| SendRejected (channel : positive).

Definition step (s : State) (e : Event) : State :=
  match e with
  | CallSetup cl sid => (setupSubscription cl sid s).2
  | CallReconnect cl => reconnect cl s
  | Unmount => cleanup s
  | RowInserted ch payload =>
      match channels (supabase s) !! ch with
      | Some _ => onInsert payload s
      | None => s
      end
  | SystemError ch =>
      match channels (supabase s) !! ch with
      | Some c => onSystemError (ch_closure c) s
      | None => s
      end
  | StatusChange ch status =>
      match channels (supabase s) !! ch with
      | Some c => onStatus (ch_closure c) ch status s
      | None => s
      end
  | TimeoutFires id =>
      match timers (window s) !! id with
      | Some (Timeout cl sid _) => reconnectionTimeout cl sid (clearTimer id s)
      | _ => s
      end
  | IntervalTicks id closed =>
      match timers (window s) !! id with
      | Some (Interval _ ch _) => heartbeatTick ch closed s
      | _ => s
      end
  | SendRejected ch =>
      match channels (supabase s) !! ch with
      | Some c => heartbeatFailed (ch_closure c) s
      | None => s
      end
  end.

Definition run (s : State) (evs : list Event) : State := foldl step s evs.

(** ** Observations *)

(** The pending scheduled reconnections and the active heartbeat timers. *)
Definition reconnect_timers (s : State) : gmap positive Timer :=
  filter (λ kv, is_timeout kv.2 = true) (timers (window s)).
Definition heartbeat_timers (s : State) : gmap positive Timer :=
  filter (λ kv, is_interval kv.2 = true) (timers (window s)).

(** The closure of the render that is current in state [s] when the
    [sessionId] prop is [sid]. *)
Definition render (sid : option string) (s : State) : Closure :=
  {| cl_sessionId := sid; cl_retryCount := retryCount (hook s) |}.

(** How often [setupSubscription] ran, read off the console: line 80 is
    its only unconditional log line and no other line of the hook starts
    with these words. *)
Definition is_setup_line (e : Level * string) : bool :=
  String.prefix "Setting up subscription for session: " e.2.
Definition setup_invocations (s : State) : nat :=
  length (filter (λ e, is_setup_line e = true) (console s)).

(** Everything but the console. *)
Definition silence (s : State) : State :=
  {| hook := hook s; window := window s; supabase := supabase s;
     toasts := toasts s; console := [] |}.

(** ** The ownership invariant

    Every pending reconnection timeout is the one [timeoutRef] names, every
    active heartbeat interval is the one [heartbeatIntervalRef] names, every
    channel the client still holds is the one [channelRef] names; the handles
    stored in the refs were handed out by the browser (resp. the client)
    earlier, and the two timer refs never hold the same handle. *)
Record Inv (s : State) : Prop := {
  inv_timeout : ∀ id t, timers (window s) !! id = Some t → is_timeout t = true →
                        timeoutRef (hook s) = Some id;
  inv_interval : ∀ id t, timers (window s) !! id = Some t → is_interval t = true →
                         heartbeatIntervalRef (hook s) = Some id;
  inv_channel : ∀ ch, ch ∈ registry (supabase s) → channelRef (hook s) = Some ch;
  inv_timers_fresh : ∀ id t, timers (window s) !! id = Some t →
                             (id < next_timer (window s))%positive;
  inv_timeoutRef_fresh : ∀ id, timeoutRef (hook s) = Some id →
                               (id < next_timer (window s))%positive;
  inv_heartbeatRef_fresh : ∀ id, heartbeatIntervalRef (hook s) = Some id →
                                 (id < next_timer (window s))%positive;
  inv_refs_distinct : ∀ id, timeoutRef (hook s) = Some id →
                            heartbeatIntervalRef (hook s) ≠ Some id;
  inv_channelRef_fresh : ∀ ch, channelRef (hook s) = Some ch →
                               (ch < next_channel (supabase s))%positive
}.

(** ** Auxiliary definitions *)

(** The guard of line 25: [!sessionId || retryCount >= MAX_RETRY_ATTEMPTS]. *)
Definition gives_up (cl : Closure) : Prop :=
  truthy (cl_sessionId cl) = None ∨ MAX_RETRY_ATTEMPTS ≤ cl_retryCount cl.

(** The two halves of [setupSubscription]: lines 73-78 and lines 80-132. *)
Definition setup_teardown (s : State) : State :=
  match channelRef (hook s) with
  | Some old =>
      let s := emit WarnLevel "Subscription already exists, cleaning up first" s in
      let s := removeChannel old s in
      let s := set_channelRef None s in
      clearHeartbeat s
  | None => s
  end.

Definition setup_open (cl : Closure) (sid : string) (s : State) : positive * State :=
  let s := emit LogLevel ("Setting up subscription for session: " +:+ sid) s in
  let '(channel, s) :=
    openChannel {| ch_topic := "chat_messages_" +:+ sid;
                   ch_filter := "session_id=eq." +:+ sid;
                   ch_closure := cl |} s in
  (channel, set_channelRef (Some channel) s).

(** The state in which [cleanup] reaches its last statement: lines
    155-159, the clearing of both timers. *)
Definition cleanup_clear (s : State) : State :=
  let s := emit LogLevel "Cleaning up subscription" s in
  let s := match timeoutRef (hook s) with
           | Some id => clearTimer id s
           | None => s
           end in
  clearHeartbeat s.

(** The state the timer callback hands to [setupSubscription]: lines
    40-45. *)
Definition timeout_teardown (s : State) : State :=
  let s := setRetryCount (λ prev, (prev + 1)%nat) s in
  match channelRef (hook s) with
  | Some old =>
      let s := emit LogLevel "Removing existing channel before reconnection" s in
      let s := removeChannel old s in
      set_channelRef None s
  | None => s
  end.

(** The state [reconnect] hands to [setupSubscription]: lines 138-145. *)
Definition reconnect_teardown (s : State) : State :=
  let s := emit LogLevel "Manual reconnection requested" s in
  let s := setRetryCount (λ _, 0) s in
  let s := setIsConnected false s in
  let s := match channelRef (hook s) with
           | Some old => set_channelRef None (removeChannel old s)
           | None => s
           end in
  clearHeartbeat s.

(** ** A concrete history

    One mount with session [s1], then five failures in a row, each followed
    by the firing of the reconnection it scheduled, and never a SUBSCRIBED
    status.  Every firing removes the channel that failed, whose CLOSED
    callback schedules a further reconnection at once (timers 2, 4, 6, 8,
    10); the next failure replaces it (timers 3, 5, 7, 9).  The state counter
    ends at 5 and the sixth channel is open. *)
Definition five_failures : list Event :=
  [CallSetup {| cl_sessionId := Some "s1"; cl_retryCount := 0 |} "s1";
   StatusChange 1 CHANNEL_ERROR; TimeoutFires 1;
   StatusChange 2 CHANNEL_ERROR; TimeoutFires 3;
   StatusChange 3 CHANNEL_ERROR; TimeoutFires 5;
   StatusChange 4 CHANNEL_ERROR; TimeoutFires 7;
   StatusChange 5 CHANNEL_ERROR; TimeoutFires 9].

(** ** What the hook's timers and channels look like

    A timeout was scheduled by a handler that did not give up, with the
    backoff delay of its counter; an interval is a heartbeat of a channel of
    the client, created with that channel's render. *)
Definition timer_wf (s : State) (t : Timer) : Prop :=
  match t with
  | Timeout cl sid delay =>
      truthy (cl_sessionId cl) = Some sid ∧
      cl_retryCount cl < MAX_RETRY_ATTEMPTS ∧
      delay = retryDelay (cl_retryCount cl)
  | Interval cl ch period =>
      period = HEARTBEAT_PERIOD ∧
      ∃ c, channels (supabase s) !! ch = Some c ∧ ch_closure c = cl
  end.

(** The naming convention of lines 83 and 90. *)
Definition channel_wf (c : Channel) : Prop :=
  ∃ sid, ch_topic c = "chat_messages_" +:+ sid ∧
         ch_filter c = "session_id=eq." +:+ sid.

Record WellFormed (s : State) : Prop := {
  wf_timers : ∀ id t, timers (window s) !! id = Some t → timer_wf s t;
  wf_channels : ∀ ch c, channels (supabase s) !! ch = Some c →
                        channel_wf c ∧ (ch < next_channel (supabase s))%positive;
  wf_registry : ∀ ch, ch ∈ registry (supabase s) →
                      is_Some (channels (supabase s) !! ch);
  wf_sent : ∀ ch, ch ∈ sent (supabase s) → is_Some (channels (supabase s) !! ch)
}.

(** The events that only write to the console. *)
Definition transparent (e : Event) : bool :=
  match e with
  | RowInserted _ _ => true
  | StatusChange _ TIMED_OUT => true
  | _ => false
  end.

(** The timeout firings of a history. *)
Definition is_firing (e : Event) : bool :=
  match e with TimeoutFires _ => true | _ => false end.
Definition fired (evs : list Event) : nat :=
  length (filter (λ e, is_firing e = true) evs).

(** ** The session check of [ProtectedRoute]

    [checkSession], lines 58-118 of [types/chat.ts], as the trace of its
    calls and the way its promise settles, given what the awaited calls
    answer. *)

(** A value an awaited call rejects with: [undefined] or [null], or a value
    off which [message] can be read (an [Error], any other object, a
    primitive); that [message] may be missing or empty. *)
Inductive Thrown :=
| Nullish
| WithMessage (message : option string).

(** The result of an awaited call: a value, or an exception. *)
Inductive Awaited (A : Type) :=
| Resolves (a : A)
| Throws (e : Thrown).
Arguments Resolves {A} a.
Arguments Throws {A} e.

(** The part of a session the check reads: [expires_at?: number], in
    seconds. *)
Record AuthSession := { expires_at : option Z }.

(** [{ data: { session }, error }] as returned by [getSession] and
    [refreshSession]; of [error] only its presence is read. *)
Record SessionResponse := {
  resp_session : option AuthSession;
  resp_error : bool
}.

(** What the auth client and the clock answer during one run of
    [checkSession]: [signOut n] is the outcome of the [n]-th call of
    [supabase.auth.signOut()] (counted from 0), [date_now] is
    [Date.now()], in milliseconds. *)
Record AuthEnv := {
  getSession : Awaited SessionResponse;
  refreshSession : Awaited SessionResponse;
  signOut : nat → Awaited unit;
  date_now : Z
}.

Inductive AuthAction :=
| CallGetSession
| CallRefreshSession
| CallSignOut
| LogError (msg : string)
| LogInfo (msg : string)
| DestructiveToast (title description : string)
| NavigateTo (path : string).

(** How the promise returned by [checkSession] settles: it is fulfilled,
    or rejected with the value [signOut] threw inside the [catch] block, or
    rejected with the [TypeError] that reading [error.message] (line 113)
    raises when the caught value is [undefined] or [null]. *)
Inductive Settled :=
| Fulfilled
| RejectedWith (e : Thrown)
| RejectedWithTypeError.

(** The [catch] block (lines 107-117) for the caught value [error];
    [calls] is the number of [signOut] calls made so far.  The argument of
    [toast] is evaluated before the call: when [error.message] throws,
    neither the toast nor the navigation happens. *)
Definition checkSession_catch (env : AuthEnv) (calls : nat) (error : Thrown)
  : list AuthAction * Settled :=
  match signOut env calls with
  | Throws e => ([LogError "Auth check error:"; CallSignOut], RejectedWith e)
  | Resolves _ =>
      match error with
      | Nullish =>
          ([LogError "Auth check error:"; CallSignOut], RejectedWithTypeError)
      | WithMessage message =>
          ([LogError "Auth check error:"; CallSignOut;
            DestructiveToast "Authentication Error"
              (default "Please try logging in again" (truthy message));
            NavigateTo "/login"], Fulfilled)
      end
  end.

(** [await supabase.auth.signOut(); toast(...); navigate('/login')] inside
    the [try] block: an exception of [signOut] lands in the [catch] block. *)
Definition signOut_and_leave (env : AuthEnv) (title : string)
  : list AuthAction * Settled :=
  match signOut env 0 with
  | Throws m =>
      let '(acts, r) := checkSession_catch env 1 m in (CallSignOut :: acts, r)
  | Resolves _ =>
      ([CallSignOut;
        DestructiveToast title "Please log in again to continue";
        NavigateTo "/login"], Fulfilled)
  end.

(** [expiresAt && (expiresAt - now) < fiveMinutes] with
    [now = Math.floor(Date.now() / 1000)] (lines 87-91). *)
Definition about_to_expire (cur : AuthSession) (date_now : Z) : bool :=
  match expires_at cur with
  | None => false
  | Some e => negb (e =? 0)%Z && (e - date_now / 1000 <? 5 * 60)%Z
  end.

(** [!x] for an object or [null]. *)
Definition missing {A} (x : option A) : bool :=
  match x with None => true | Some _ => false end.

Definition prepend (acts : list AuthAction) (r : list AuthAction * Settled)
  : list AuthAction * Settled :=
  ((acts ++ r.1)%list, r.2).

(** Lines 58-118. *)
Definition checkSession (env : AuthEnv) : list AuthAction * Settled :=
  match getSession env with
  | Throws m => prepend [CallGetSession] (checkSession_catch env 0 m)
  | Resolves r =>
      if resp_error r then
        prepend [CallGetSession; LogError "Session error:"]
          (signOut_and_leave env "Session Error")
      else
        match resp_session r with
        | None =>
            ([CallGetSession; LogInfo "No active session found";
              DestructiveToast "Session expired" "Please log in again to continue";
              NavigateTo "/login"], Fulfilled)
        | Some cur =>
            if about_to_expire cur (date_now env) then
              match refreshSession env with
              | Throws m =>
                  prepend [CallGetSession;
                           LogInfo "Session about to expire, attempting refresh";
                           CallRefreshSession]
                    (checkSession_catch env 0 m)
              | Resolves rr =>
                  if resp_error rr || missing (resp_session rr) then
                    prepend [CallGetSession;
                             LogInfo "Session about to expire, attempting refresh";
                             CallRefreshSession;
                             LogError "Failed to refresh session:"]
                      (signOut_and_leave env "Session Expired")
                  else
                    ([CallGetSession;
                      LogInfo "Session about to expire, attempting refresh";
                      CallRefreshSession], Fulfilled)
              end
            else ([CallGetSession], Fulfilled)
        end
  end.

Definition is_toast (a : AuthAction) : bool :=
  match a with DestructiveToast _ _ => true | _ => false end.
Definition is_navigation (a : AuthAction) : bool :=
  match a with NavigateTo _ => true | _ => false end.
Definition is_signOut (a : AuthAction) : bool :=
  match a with CallSignOut => true | _ => false end.
Definition is_refresh (a : AuthAction) : bool :=
  match a with CallRefreshSession => true | _ => false end.
Definition count_actions (p : AuthAction → bool) (l : list AuthAction) : nat :=
  length (filter (λ a, p a = true) l).

(** The trace ends with a destructive toast followed by the navigation to
    [/login]. *)
Definition announces_leaving (acts : list AuthAction) : bool :=
  match reverse acts with
  | NavigateTo path :: DestructiveToast _ _ :: _ => String.eqb path "/login"
  | _ => false
  end.

(** ** The two forms: [DomainSection] and [ChatInput]

    Lines 273-278 and 357 of [types/chat.ts]. *)

(** A JavaScript string as its UTF-16 code units. *)
Definition JsString := list N.

(** ECMAScript [WhiteSpace] and [LineTerminator] code points, the ones
    [String.prototype.trim] strips; all lie in the basic plane. *)
Definition is_js_space (c : N) : bool :=
  bool_decide (c ∈ [0x9; 0xA; 0xB; 0xC; 0xD; 0x20; 0xA0; 0x1680; 0x2028; 0x2029;
                    0x202F; 0x205F; 0x3000; 0xFEFF]%N)
  || ((0x2000 <=? c)%N && (c <=? 0x200A)%N).

Fixpoint trimStart (s : JsString) : JsString :=
  match s with
  | [] => []
  | c :: r => if is_js_space c then trimStart r else s
  end.

Fixpoint trimEnd (s : JsString) : JsString :=
  match s with
  | [] => []
  | c :: r =>
      match trimEnd r with
      | [] => if is_js_space c then [] else [c]
      | r' => c :: r'
      end
  end.

(** [s.trim()]. *)
Definition trim (s : JsString) : JsString := trimEnd (trimStart s).

(** Truthiness of a string: it is not empty. *)
Definition nonempty (s : JsString) : bool :=
  match s with [] => false | _ => true end.

Inductive FormAction :=
| PreventDefault
| Mutate (newDomain : JsString).

(** [handleSubmit] of [DomainSection] (lines 273-278), with [customDomain]
    the current input. *)
Definition handleSubmit (customDomain : JsString) : list FormAction :=
  PreventDefault ::
  (if nonempty (trim customDomain) then [Mutate (trim customDomain)] else []).

(** The [disabled] attribute of the send button of [ChatInput] (line 357). *)
Definition send_disabled (isLoading : bool) (inputMessage : JsString) : bool :=
  isLoading || negb (nonempty (trim inputMessage)).

(** * Proofs *)

(** ** Tactics for goals about the timer table and the registry *)

Ltac lookups :=
  repeat (match goal with
  | H : context [<[_ := _]> _ !! _] |- _ => rewrite lookup_insert in H
  | H : context [delete _ _ !! _] |- _ => rewrite lookup_delete in H
  | H : context [decide (?a = ?b)] |- _ => destruct (decide (a = b))
  end; simplify_eq/=).

Ltac learn H :=
  let T := type of H in
  lazymatch goal with
  | _ : T |- _ => fail
  | _ => pose proof H
  end.

Ltac saturate :=
  repeat match goal with
  | H : ∀ id t, _ → _ → _, L : _ !! _ = Some ?t, K : _ ?t = true |- _ =>
      learn (H _ _ L K)
  | H : ∀ id t, _ → _, L : _ !! _ = Some _ |- _ => learn (H _ _ L)
  | H : ∀ id : positive, _ = Some id → _, L : _ = Some _ |- _ => learn (H _ L)
  | H : ∀ ch : positive, ch ∈ _ → _, L : _ ∈ _ |- _ => learn (H _ L)
  end.

Ltac sets :=
  repeat match goal with
  | H : _ ∈ _ ∖ _ |- _ => apply elem_of_difference in H as [? ?]
  | H : _ ∈ _ ∪ _ |- _ => apply elem_of_union in H as [?|?]
  | H : _ ∈ {[_]} |- _ => apply elem_of_singleton in H
  | H : _ ∉ {[_]} |- _ => rewrite not_elem_of_singleton in H
  | E : ?X = ∅, H : _ ∈ ?X |- _ => rewrite E in H; apply elem_of_empty in H
  end.

Ltac inv_step :=
  intros [H1 H2 H3 H4 H5 H6 H7 H8]; split; simpl in *; intros;
  try (intros ?); sets; lookups; simpl in *;
  saturate; simplify_eq/=; try done; try lia; try congruence.

(** Case analysis over the bodies of the hook's functions. *)
Ltac crush_hook :=
  unfold reconnect, cleanup, reconnectionTimeout, setupSubscription, removeChannel,
    onStatus, onSystemError, onInsert, heartbeatFailed, heartbeatTick, startHeartbeat,
    handleReconnection, clearHeartbeat;
  repeat (simpl; case_match); simpl.

Lemma Inv_init : Inv init.
Proof. split; simpl; intros; try done. Qed.

Lemma Inv_emit l m s : Inv s → Inv (emit l m s).
Proof. intros [ ]; by split. Qed.
Lemma Inv_toast t s : Inv s → Inv (toast t s).
Proof. intros [ ]; by split. Qed.
Lemma Inv_setIsConnected b s : Inv s → Inv (setIsConnected b s).
Proof. intros [ ]; by split. Qed.
Lemma Inv_setRetryCount f s : Inv s → Inv (setRetryCount f s).
Proof. intros [ ]; by split. Qed.
Lemma Inv_send c s : Inv s → Inv (send c s).
Proof. intros [ ]; by split. Qed.

Lemma Inv_clearHeartbeat s : Inv s → Inv (clearHeartbeat s).
Proof.
  unfold clearHeartbeat. destruct (heartbeatIntervalRef (hook s)) as [h|] eqn:Hh; [|done].
  inv_step.
Qed.

Lemma Inv_clearTimer id s : Inv s → Inv (clearTimer id s).
Proof. inv_step. Qed.

Lemma Inv_handleReconnection cl s : Inv s → Inv (handleReconnection cl s).
Proof.
  unfold handleReconnection.
  destruct (truthy (cl_sessionId cl)) as [sid|]; [case_bool_decide|];
    try (intros; by apply Inv_toast, Inv_emit).
  simpl. destruct (timeoutRef (hook s)) as [r|] eqn:Hr; inv_step.
Qed.

Lemma Inv_startHeartbeat cl ch s : Inv s → Inv (startHeartbeat cl ch s).
Proof.
  unfold startHeartbeat, clearHeartbeat.
  destruct (heartbeatIntervalRef (hook s)) as [h|] eqn:Hh; inv_step.
Qed.

(** What [clearHeartbeat] leaves alone. *)
Lemma clearHeartbeat_frame s :
  let s' := clearHeartbeat s in
  heartbeatIntervalRef (hook s') = None ∧
  isConnected (hook s') = isConnected (hook s) ∧
  retryCount (hook s') = retryCount (hook s) ∧
  timeoutRef (hook s') = timeoutRef (hook s) ∧
  channelRef (hook s') = channelRef (hook s) ∧
  next_timer (window s') = next_timer (window s) ∧
  supabase s' = supabase s ∧
  toasts s' = toasts s ∧
  console s' = console s.
Proof.
  unfold clearHeartbeat.
  by destruct (heartbeatIntervalRef (hook s)) eqn:E.
Qed.

Lemma Inv_onStatus cl ch st s : Inv s → Inv (onStatus cl ch st s).
Proof.
  intros HI. destruct st; simpl.
  - by apply Inv_startHeartbeat, Inv_setRetryCount, Inv_setIsConnected, Inv_emit, Inv_emit.
  - by apply Inv_emit.
  - by apply Inv_handleReconnection, Inv_setIsConnected, Inv_emit, Inv_emit.
  - by apply Inv_handleReconnection, Inv_toast, Inv_setIsConnected, Inv_emit, Inv_emit.
Qed.

Lemma Inv_unregister ch s : Inv s → Inv (unregister ch s).
Proof. inv_step. Qed.

(** [removeChannel] is the client's bookkeeping followed by the CLOSED
    callback of the removed channel. *)
Lemma removeChannel_unfold ch s :
  removeChannel ch s =
  match channels (supabase s) !! ch with
  | Some c => onStatus (ch_closure c) ch CLOSED (unregister ch s)
  | None => unregister ch s
  end.
Proof. done. Qed.

Lemma Inv_removeChannel ch s : Inv s → Inv (removeChannel ch s).
Proof.
  intros HI. rewrite removeChannel_unfold.
  destruct (channels (supabase s) !! ch); [apply Inv_onStatus|]; by apply Inv_unregister.
Qed.

(** What reconnection handling never touches. *)
Lemma handleReconnection_frame cl s :
  let s' := handleReconnection cl s in
  retryCount (hook s') = retryCount (hook s) ∧
  isConnected (hook s') = isConnected (hook s) ∧
  channelRef (hook s') = channelRef (hook s) ∧
  heartbeatIntervalRef (hook s') = heartbeatIntervalRef (hook s) ∧
  supabase s' = supabase s.
Proof.
  unfold handleReconnection.
  destruct (truthy (cl_sessionId cl)); [case_bool_decide|]; simpl; try done.
  by destruct (timeoutRef (hook s)).
Qed.

Lemma removeChannel_frame ch s :
  let s' := removeChannel ch s in
  retryCount (hook s') = retryCount (hook s) ∧
  channelRef (hook s') = channelRef (hook s) ∧
  heartbeatIntervalRef (hook s') = heartbeatIntervalRef (hook s) ∧
  channels (supabase s') = channels (supabase s) ∧
  registry (supabase s') = registry (supabase s) ∖ {[ch]} ∧
  next_channel (supabase s') = next_channel (supabase s) ∧
  sent (supabase s') = sent (supabase s).
Proof.
  simpl. rewrite removeChannel_unfold.
  destruct (channels (supabase s) !! ch) as [c|]; [|done].
  unfold onStatus.
  match goal with
  | |- context [handleReconnection ?cl ?x] =>
      destruct (handleReconnection_frame cl x) as (-> & _ & -> & -> & ->)
  end.
  done.
Qed.

Lemma registry_torn_down s old :
  Inv s → channelRef (hook s) = Some old → registry (supabase s) ∖ {[old]} = ∅.
Proof.
  intros HI Hold. apply set_eq; intros x.
  rewrite elem_of_difference, elem_of_singleton, elem_of_empty.
  split; [|done]. intros [Hx Hne]. pose proof (inv_channel s HI x Hx). congruence.
Qed.

Lemma Inv_release s :
  Inv s → registry (supabase s) = ∅ → Inv (set_channelRef None s).
Proof. intros HI Hreg; revert HI; inv_step. Qed.

Lemma Inv_teardown old s :
  Inv s → channelRef (hook s) = Some old →
  Inv (set_channelRef None (removeChannel old s)).
Proof.
  intros HI Hc. apply Inv_release; [by apply Inv_removeChannel|].
  destruct (removeChannel_frame old s) as (_ & _ & _ & _ & -> & _).
  by apply registry_torn_down.
Qed.

(** [setupSubscription] is its teardown followed by the opening of the new
    channel. *)
Lemma setupSubscription_unfold cl sid s :
  setupSubscription cl sid s = setup_open cl sid (setup_teardown s).
Proof. done. Qed.

Lemma Inv_setup_teardown s :
  Inv s → Inv (setup_teardown s) ∧ channelRef (hook (setup_teardown s)) = None.
Proof.
  intros HI. unfold setup_teardown.
  destruct (channelRef (hook s)) as [old|] eqn:Hc; [|done].
  match goal with
  | |- context [clearHeartbeat ?x] =>
      assert (Inv x) as HI1 by (apply Inv_teardown; [by apply Inv_emit|done]);
      destruct (clearHeartbeat_frame x) as (_ & _ & _ & _ & Hch & _)
  end.
  split; [by apply Inv_clearHeartbeat|]. by rewrite Hch.
Qed.

Lemma Inv_setup_open cl sid s :
  Inv s → channelRef (hook s) = None → Inv (setup_open cl sid s).2.
Proof. intros HI Hc; revert HI; unfold setup_open; inv_step. Qed.

Lemma Inv_setupSubscription cl sid s : Inv s → Inv (setupSubscription cl sid s).2.
Proof.
  intros HI. rewrite setupSubscription_unfold.
  destruct (Inv_setup_teardown s HI) as [HI1 Hc]. by apply Inv_setup_open.
Qed.

Lemma Inv_reconnectionTimeout cl sid s : Inv s → Inv (reconnectionTimeout cl sid s).
Proof.
  intros HI. unfold reconnectionTimeout. apply Inv_setupSubscription.
  simpl. destruct (channelRef (hook s)) as [old|] eqn:Hc.
  - apply Inv_teardown; [by apply Inv_emit, Inv_setRetryCount|done].
  - by apply Inv_setRetryCount.
Qed.

Lemma Inv_reconnect_teardown s : Inv s → Inv (reconnect_teardown s).
Proof.
  intros HI. apply Inv_clearHeartbeat. simpl.
  destruct (channelRef (hook s)) as [old|] eqn:Hold.
  - apply Inv_teardown; [|done].
    by apply Inv_setIsConnected, Inv_setRetryCount, Inv_emit.
  - by apply Inv_setIsConnected, Inv_setRetryCount, Inv_emit.
Qed.

Lemma Inv_reconnect cl s : Inv s → Inv (reconnect cl s).
Proof.
  intros HI. unfold reconnect. destruct (truthy (cl_sessionId cl)) as [sid|]; [|done].
  apply Inv_toast, Inv_setupSubscription. by apply (Inv_reconnect_teardown s).
Qed.

Lemma Inv_cleanup s : Inv s → Inv (cleanup s).
Proof.
  intros HI. unfold cleanup.
  set (s1 := clearHeartbeat _).
  assert (Inv s1) as HI1.
  { apply Inv_clearHeartbeat. simpl.
    destruct (timeoutRef (hook s)); [apply Inv_clearTimer|]; by apply Inv_emit. }
  destruct (channelRef (hook s1)) as [old|] eqn:Hc; [|done].
  by apply Inv_teardown.
Qed.

Lemma Inv_step s e : Inv s → Inv (step s e).
Proof.
  intros HI. destruct e as [cl sid|cl| |ch p|ch|ch st|id|id closed|ch]; simpl.
  - by apply Inv_setupSubscription.
  - by apply Inv_reconnect.
  - by apply Inv_cleanup.
  - destruct (channels (supabase s) !! ch); [|done].
    unfold onInsert. destruct (negb _); by repeat apply Inv_emit.
  - destruct (channels (supabase s) !! ch); [|done].
    by apply Inv_handleReconnection, Inv_toast, Inv_setIsConnected, Inv_emit.
  - destruct (channels (supabase s) !! ch); [|done]. by apply Inv_onStatus.
  - destruct (timers (window s) !! id) as [[cl sid d|]|]; try done.
    by apply Inv_reconnectionTimeout, Inv_clearTimer.
  - destruct (timers (window s) !! id) as [[|cl ch p]|]; try done.
    unfold heartbeatTick. destruct closed; [by apply Inv_clearHeartbeat|by apply Inv_send].
  - destruct (channels (supabase s) !! ch); [|done].
    by apply Inv_handleReconnection, Inv_setIsConnected, Inv_clearHeartbeat, Inv_emit.
Qed.

Lemma Inv_run evs : ∀ s, Inv s → Inv (run s evs).
Proof.
  induction evs as [|e evs IH]; intros s HI; [done|].
  apply IH, Inv_step, HI.
Qed.

(** ** At most one of each resource *)

Lemma map_size_le_1 {A} (m : gmap positive A) :
  (∀ i j x y, m !! i = Some x → m !! j = Some y → i = j) → size m ≤ 1.
Proof.
  intros Huniq. destruct (map_choose_or_empty m) as [(i & x & Hi)| ->].
  - assert (m = {[i := x]}) as ->; [|by rewrite map_size_singleton].
    apply map_eq; intros j. destruct (decide (i = j)) as [<-|Hne].
    + by rewrite lookup_singleton_eq.
    + rewrite lookup_singleton_ne by done.
      destruct (m !! j) as [y|] eqn:Hj; [|done].
      by destruct Hne; apply (Huniq i j x y).
  - rewrite map_size_empty; lia.
Qed.

Lemma set_size_le_1 (X : gset positive) :
  (∀ x y, x ∈ X → y ∈ X → x = y) → size X ≤ 1.
Proof.
  intros Huniq. destruct (set_choose_or_empty X) as [[x Hx]|HX].
  - assert (X = {[x]}) as ->; [|by rewrite size_singleton].
    apply set_eq; intros y. rewrite elem_of_singleton. split.
    + intros Hy. by apply Huniq.
    + by intros ->.
  - apply leibniz_equiv in HX as ->. rewrite size_empty; lia.
Qed.

Lemma reconnect_timers_lookup s id t :
  reconnect_timers s !! id = Some t ↔
  timers (window s) !! id = Some t ∧ is_timeout t = true.
Proof. unfold reconnect_timers. by rewrite map_lookup_filter_Some. Qed.

Lemma heartbeat_timers_lookup s id t :
  heartbeat_timers s !! id = Some t ↔
  timers (window s) !! id = Some t ∧ is_interval t = true.
Proof. unfold heartbeat_timers. by rewrite map_lookup_filter_Some. Qed.

Lemma one_pending_reconnection s : Inv s → size (reconnect_timers s) ≤ 1.
Proof.
  intros HI. apply map_size_le_1; intros i j x y.
  rewrite !reconnect_timers_lookup. intros [Hi Hx] [Hj Hy].
  pose proof (inv_timeout s HI i x Hi Hx). pose proof (inv_timeout s HI j y Hj Hy).
  congruence.
Qed.

Lemma one_heartbeat s : Inv s → size (heartbeat_timers s) ≤ 1.
Proof.
  intros HI. apply map_size_le_1; intros i j x y.
  rewrite !heartbeat_timers_lookup. intros [Hi Hx] [Hj Hy].
  pose proof (inv_interval s HI i x Hi Hx). pose proof (inv_interval s HI j y Hj Hy).
  congruence.
Qed.

Lemma one_channel s : Inv s → size (registry (supabase s)) ≤ 1.
Proof.
  intros HI. apply set_size_le_1; intros x y Hx Hy.
  pose proof (inv_channel s HI x Hx). pose proof (inv_channel s HI y Hy).
  congruence.
Qed.

Lemma handleReconnection_gives_up cl s :
  gives_up cl →
  handleReconnection cl s =
  toast refresh_toast (emit ErrorLevel "Max retry attempts reached or no session ID" s).
Proof.
  unfold handleReconnection. intros [->| Hmax]; [done|].
  destruct (truthy (cl_sessionId cl)); [|done]. by rewrite bool_decide_eq_true_2.
Qed.

Lemma handleReconnection_schedules cl sid s :
  truthy (cl_sessionId cl) = Some sid → cl_retryCount cl < MAX_RETRY_ATTEMPTS →
  let id := next_timer (window s) in
  let s' := handleReconnection cl s in
  timers (window s') =
    <[id := Timeout cl sid (retryDelay (cl_retryCount cl))]>
      (match timeoutRef (hook s) with
       | Some old => delete old (timers (window s))
       | None => timers (window s)
       end) ∧
  next_timer (window s') = Pos.succ id ∧
  timeoutRef (hook s') = Some id ∧
  retryCount (hook s') = retryCount (hook s) ∧
  isConnected (hook s') = isConnected (hook s) ∧
  channelRef (hook s') = channelRef (hook s) ∧
  heartbeatIntervalRef (hook s') = heartbeatIntervalRef (hook s) ∧
  supabase s' = supabase s ∧
  toasts s' = toasts s.
Proof.
  intros Hsid Hlt. unfold handleReconnection. rewrite Hsid.
  rewrite bool_decide_eq_false_2 by lia. simpl.
  by destruct (timeoutRef (hook s)).
Qed.

Lemma reconnect_timers_scheduled cl sid s :
  Inv s → truthy (cl_sessionId cl) = Some sid → cl_retryCount cl < MAX_RETRY_ATTEMPTS →
  reconnect_timers (handleReconnection cl s) =
  {[ next_timer (window s) := Timeout cl sid (retryDelay (cl_retryCount cl)) ]}.
Proof.
  intros HI Hsid Hlt.
  destruct (handleReconnection_schedules cl sid s Hsid Hlt) as (Ht & _).
  apply map_eq; intros i. apply option_eq; intros t.
  rewrite reconnect_timers_lookup, Ht, lookup_singleton_Some.
  pose proof (inv_timeout s HI i t) as Hone.
  destruct (timeoutRef (hook s)) as [old|] eqn:Hold;
    rewrite lookup_insert; case_decide; subst; try rewrite lookup_delete;
    try case_decide; subst;
    intuition (simplify_eq/=; try congruence).
Qed.

Lemma heartbeat_timers_scheduled cl s :
  Inv s → heartbeat_timers (handleReconnection cl s) = heartbeat_timers s.
Proof.
  intros HI. unfold handleReconnection.
  destruct (truthy (cl_sessionId cl)) as [sid|]; [case_bool_decide|]; try done.
  apply map_eq; intros i. apply option_eq; intros t.
  rewrite !heartbeat_timers_lookup. simpl.
  pose proof (inv_timers_fresh s HI i t) as Hfresh.
  pose proof (inv_interval s HI i t) as Hint.
  pose proof (inv_refs_distinct s HI) as Hne.
  destruct (timeoutRef (hook s)) as [old|] eqn:Hold; simpl;
    rewrite lookup_insert; case_decide; subst; try rewrite lookup_delete;
    try case_decide; subst;
    intuition (simplify_eq/=; try congruence; try lia; try (by exfalso; eauto)).
Qed.

(** ** Reachable states *)

(** Every state reached from [init] satisfies the invariant. *)
Lemma Inv_reachable evs : Inv (run init evs).
Proof. apply Inv_run, Inv_init. Qed.

(** ** Frame properties of the hook's functions *)

Lemma clearHeartbeat_idle s :
  heartbeatIntervalRef (hook s) = None → clearHeartbeat s = s.
Proof. intros Hnone. unfold clearHeartbeat. by rewrite Hnone. Qed.

Lemma heartbeat_timers_cleared s : Inv s → heartbeat_timers (clearHeartbeat s) = ∅.
Proof.
  intros HI. apply map_eq; intros i. apply option_eq; intros t.
  rewrite heartbeat_timers_lookup, lookup_empty.
  pose proof (inv_interval s HI i t) as Hint. unfold clearHeartbeat.
  destruct (heartbeatIntervalRef (hook s)) as [h|] eqn:Hh; simpl;
    try rewrite lookup_delete; try case_decide; subst;
    intuition (simplify_eq/=; try congruence).
Qed.

Lemma reconnect_timers_clearHeartbeat s :
  Inv s → reconnect_timers (clearHeartbeat s) = reconnect_timers s.
Proof.
  intros HI. apply map_eq; intros i. apply option_eq; intros t.
  rewrite !reconnect_timers_lookup.
  pose proof (inv_timeout s HI i t) as Hto.
  pose proof (inv_refs_distinct s HI i) as Hne. unfold clearHeartbeat.
  destruct (heartbeatIntervalRef (hook s)) as [h|] eqn:Hh; simpl;
    try rewrite lookup_delete; try case_decide; subst;
    intuition (simplify_eq/=; try congruence).
Qed.

Lemma heartbeat_timers_idle s :
  Inv s → heartbeatIntervalRef (hook s) = None → heartbeat_timers s = ∅.
Proof.
  intros HI Hnone. rewrite <- (clearHeartbeat_idle s Hnone) at 1.
  by apply heartbeat_timers_cleared.
Qed.

Lemma registry_without_handle s :
  Inv s → channelRef (hook s) = None → registry (supabase s) = ∅.
Proof.
  intros HI Hnone. apply set_eq; intros x. rewrite elem_of_empty.
  split; [|done]. intros Hx. pose proof (inv_channel s HI x Hx). congruence.
Qed.

(** *** The CLOSED callback the client runs inside [removeChannel] *)

Lemma removeChannel_known ch c s :
  channels (supabase s) !! ch = Some c →
  removeChannel ch s = onStatus (ch_closure c) ch CLOSED (unregister ch s).
Proof. intros Hch. by rewrite removeChannel_unfold, Hch. Qed.

Lemma removeChannel_disconnects ch s :
  isConnected (hook s) = false → isConnected (hook (removeChannel ch s)) = false.
Proof.
  intros Hc. rewrite removeChannel_unfold.
  destruct (channels (supabase s) !! ch) as [c|]; [|done].
  unfold onStatus.
  match goal with
  | |- context [handleReconnection ?cl ?x] =>
      by destruct (handleReconnection_frame cl x) as (_ & -> & _)
  end.
Qed.

Lemma heartbeat_timers_removeChannel ch s :
  Inv s → heartbeat_timers (removeChannel ch s) = heartbeat_timers s.
Proof.
  intros HI. rewrite removeChannel_unfold.
  destruct (channels (supabase s) !! ch) as [c|]; [|done].
  unfold onStatus. rewrite heartbeat_timers_scheduled; [done|].
  by apply Inv_setIsConnected, Inv_emit, Inv_emit, Inv_unregister.
Qed.

(** The removed channel's handler does not give up: exactly the
    reconnection it schedules is pending afterwards. *)
Lemma removeChannel_rearms ch c sid s :
  Inv s → channels (supabase s) !! ch = Some c →
  truthy (cl_sessionId (ch_closure c)) = Some sid →
  cl_retryCount (ch_closure c) < MAX_RETRY_ATTEMPTS →
  let s' := removeChannel ch s in
  reconnect_timers s' =
    {[ next_timer (window s) :=
         Timeout (ch_closure c) sid (retryDelay (cl_retryCount (ch_closure c))) ]} ∧
  timeoutRef (hook s') = Some (next_timer (window s)) ∧
  next_timer (window s') = Pos.succ (next_timer (window s)) ∧
  isConnected (hook s') = false ∧
  toasts s' = toasts s.
Proof.
  intros HI Hch Hsid Hlt. simpl. rewrite (removeChannel_known ch c) by done.
  unfold onStatus.
  set (s1 := setIsConnected false _).
  assert (Inv s1) as HI1 by by apply Inv_setIsConnected, Inv_emit, Inv_emit, Inv_unregister.
  destruct (handleReconnection_schedules (ch_closure c) sid s1 Hsid Hlt)
    as (_ & Hn & Href & _ & Hc & _ & _ & _ & Ht).
  rewrite (reconnect_timers_scheduled (ch_closure c) sid) by done.
  by rewrite Hn, Href, Hc, Ht.
Qed.

(** The removed channel's handler gives up: the refresh toast, and the
    timers as they were. *)
Lemma removeChannel_gives_up ch c s :
  channels (supabase s) !! ch = Some c → gives_up (ch_closure c) →
  let s' := removeChannel ch s in
  window s' = window s ∧
  timeoutRef (hook s') = timeoutRef (hook s) ∧
  isConnected (hook s') = false ∧
  toasts s' = (toasts s ++ [refresh_toast])%list.
Proof.
  intros Hch Hg. simpl. rewrite (removeChannel_known ch c) by done.
  unfold onStatus. by rewrite handleReconnection_gives_up.
Qed.

(** *** Counting setup lines *)

Lemma setup_invocations_emit l m s :
  setup_invocations (emit l m s) =
  setup_invocations s + (if is_setup_line (l, m) then 1 else 0).
Proof.
  unfold setup_invocations. simpl. rewrite filter_app, length_app. f_equal.
  rewrite filter_cons, filter_nil. by destruct (is_setup_line (l, m)).
Qed.

Lemma setup_invocations_console s s' :
  console s' = console s → setup_invocations s' = setup_invocations s.
Proof. unfold setup_invocations. by intros ->. Qed.

Lemma setup_invocations_clearHeartbeat s :
  setup_invocations (clearHeartbeat s) = setup_invocations s.
Proof. apply setup_invocations_console, clearHeartbeat_frame. Qed.

Lemma setup_invocations_handleReconnection cl s :
  setup_invocations (handleReconnection cl s) = setup_invocations s.
Proof.
  assert (∃ l m, is_setup_line (l, m) = false ∧
                 console (handleReconnection cl s) = console (emit l m s))
    as (l & m & Hl & Hcon).
  { unfold handleReconnection.
    destruct (truthy (cl_sessionId cl)); [case_bool_decide|];
      try (by exists ErrorLevel, "Max retry attempts reached or no session ID").
    exists LogLevel,
      ("Attempting reconnection in " +:+ pretty (retryDelay (cl_retryCount cl)) +:+
       "ms (attempt " +:+ pretty (cl_retryCount cl + 1)%nat +:+ ")").
    split; [done|]. simpl. by destruct (timeoutRef (hook s)). }
  rewrite (setup_invocations_console _ _ Hcon), setup_invocations_emit, Hl. lia.
Qed.

Lemma setup_invocations_onStatus_closed cl ch s :
  setup_invocations (onStatus cl ch CLOSED s) = setup_invocations s.
Proof.
  unfold onStatus. rewrite setup_invocations_handleReconnection.
  transitivity (setup_invocations
                  (emit LogLevel "Subscription closed, attempting to reconnect..."
                     (emit LogLevel ("Subscription status: " +:+ status_name CLOSED) s)));
    [done|].
  rewrite !setup_invocations_emit. simpl. lia.
Qed.

Lemma setup_invocations_removeChannel ch s :
  setup_invocations (removeChannel ch s) = setup_invocations s.
Proof.
  rewrite removeChannel_unfold.
  destruct (channels (supabase s) !! ch); [|done].
  by rewrite setup_invocations_onStatus_closed.
Qed.

(** *** [setupSubscription] *)

Lemma setup_teardown_frame s :
  let s1 := setup_teardown s in
  retryCount (hook s1) = retryCount (hook s) ∧
  channels (supabase s1) = channels (supabase s) ∧
  next_channel (supabase s1) = next_channel (supabase s) ∧
  sent (supabase s1) = sent (supabase s) ∧
  setup_invocations s1 = setup_invocations s.
Proof.
  unfold setup_teardown. destruct (channelRef (hook s)) as [old|]; [|done]. simpl.
  match goal with
  | |- context [clearHeartbeat ?x] =>
      destruct (clearHeartbeat_frame x) as (_ & _ & -> & _ & _ & _ & -> & _);
      rewrite (setup_invocations_clearHeartbeat x)
  end.
  match goal with
  | |- context [removeChannel old ?x] =>
      destruct (removeChannel_frame old x) as (Hr & _ & _ & Hch & _ & Hn & Hs);
      pose proof (setup_invocations_removeChannel old x) as Hcount
  end.
  split; [exact Hr|]. split; [exact Hch|]. split; [exact Hn|]. split; [exact Hs|].
  etrans; [exact Hcount|]. rewrite setup_invocations_emit. simpl. lia.
Qed.

Lemma setup_teardown_idle s :
  channelRef (hook s) = None → setup_teardown s = s.
Proof. intros Hc. unfold setup_teardown. by rewrite Hc. Qed.

Lemma setup_open_fields cl sid s :
  let r := setup_open cl sid s in
  r.1 = next_channel (supabase s) ∧
  retryCount (hook r.2) = retryCount (hook s) ∧
  isConnected (hook r.2) = isConnected (hook s) ∧
  channelRef (hook r.2) = Some (next_channel (supabase s)) ∧
  timeoutRef (hook r.2) = timeoutRef (hook s) ∧
  heartbeatIntervalRef (hook r.2) = heartbeatIntervalRef (hook s) ∧
  window r.2 = window s ∧
  channels (supabase r.2) =
    <[next_channel (supabase s) :=
        {| ch_topic := "chat_messages_" +:+ sid;
           ch_filter := "session_id=eq." +:+ sid;
           ch_closure := cl |}]> (channels (supabase s)) ∧
  registry (supabase r.2) = {[next_channel (supabase s)]} ∪ registry (supabase s) ∧
  next_channel (supabase r.2) = Pos.succ (next_channel (supabase s)) ∧
  sent (supabase r.2) = sent (supabase s) ∧
  toasts r.2 = toasts s ∧
  setup_invocations r.2 = setup_invocations s + 1.
Proof.
  repeat split.
  transitivity (setup_invocations
                  (emit LogLevel ("Setting up subscription for session: " +:+ sid) s));
    [done|].
  rewrite setup_invocations_emit. f_equal.
  unfold is_setup_line. simpl. by destruct sid.
Qed.

Lemma setupSubscription_frame cl sid s :
  let s' := (setupSubscription cl sid s).2 in
  retryCount (hook s') = retryCount (hook s) ∧
  next_channel (supabase s') = Pos.succ (next_channel (supabase s)) ∧
  sent (supabase s') = sent (supabase s).
Proof.
  cbv zeta. rewrite setupSubscription_unfold.
  destruct (setup_open_fields cl sid (setup_teardown s))
    as (_ & -> & _ & _ & _ & _ & _ & _ & _ & -> & -> & _).
  by destruct (setup_teardown_frame s) as (-> & _ & -> & -> & _).
Qed.

(** With no channel held, [setupSubscription] only opens the new channel. *)
Lemma setupSubscription_fresh cl sid s :
  channelRef (hook s) = None →
  let s' := (setupSubscription cl sid s).2 in
  isConnected (hook s') = isConnected (hook s) ∧
  timeoutRef (hook s') = timeoutRef (hook s) ∧
  heartbeatIntervalRef (hook s') = heartbeatIntervalRef (hook s) ∧
  window s' = window s ∧
  toasts s' = toasts s.
Proof.
  intros Hc. cbv zeta. rewrite setupSubscription_unfold, setup_teardown_idle by done.
  by destruct (setup_open_fields cl sid s)
    as (_ & _ & -> & _ & -> & -> & -> & _ & _ & _ & _ & -> & _).
Qed.

(** The timer callback is where the retry counter grows. *)
Lemma reconnectionTimeout_retryCount cl sid s :
  retryCount (hook (reconnectionTimeout cl sid s)) = retryCount (hook s) + 1.
Proof.
  unfold reconnectionTimeout.
  match goal with
  | |- context [setupSubscription cl sid ?x] =>
      destruct (setupSubscription_frame cl sid x) as (-> & _)
  end.
  simpl. destruct (channelRef (hook s)) as [old|]; [|done]. simpl.
  match goal with
  | |- context [removeChannel old ?x] =>
      by destruct (removeChannel_frame old x) as (-> & _)
  end.
Qed.

(** After [setupSubscription] the client holds the new channel only. *)
Lemma registry_after_setup cl sid s :
  Inv s →
  let r := setupSubscription cl sid s in
  r.1 = next_channel (supabase s) ∧
  registry (supabase r.2) = {[ r.1 ]} ∧
  channelRef (hook r.2) = Some r.1 ∧
  channels (supabase r.2) !! r.1 =
    Some {| ch_topic := "chat_messages_" +:+ sid;
            ch_filter := "session_id=eq." +:+ sid;
            ch_closure := cl |} ∧
  (∀ old, channelRef (hook s) = Some old → old ∉ registry (supabase r.2)).
Proof.
  intros HI r. unfold r. rewrite setupSubscription_unfold.
  destruct (Inv_setup_teardown s HI) as [HI1 Hc1].
  destruct (setup_teardown_frame s) as (_ & _ & Hn & _).
  destruct (setup_open_fields cl sid (setup_teardown s))
    as (-> & _ & _ & -> & _ & _ & _ & -> & -> & _).
  rewrite (registry_without_handle _ HI1 Hc1), union_empty_r_L, Hn, lookup_insert_eq.
  split; [done|]. split; [done|]. split; [done|]. split; [done|].
  intros old Hold. rewrite ?union_empty_r_L, elem_of_singleton. intros ->.
  pose proof (inv_channelRef_fresh s HI _ Hold). lia.
Qed.

Lemma setup_invocations_setup cl sid s :
  setup_invocations (setupSubscription cl sid s).2 = setup_invocations s + 1.
Proof.
  rewrite setupSubscription_unfold.
  destruct (setup_open_fields cl sid (setup_teardown s))
    as (_ & _ & _ & _ & _ & _ & _ & _ & _ & _ & _ & _ & ->).
  by destruct (setup_teardown_frame s) as (_ & _ & _ & _ & ->).
Qed.

(** *** [reconnect] *)

(** [reconnect] is its teardown, one [setupSubscription], one toast. *)
Lemma reconnect_unfold cl sid s :
  truthy (cl_sessionId cl) = Some sid →
  reconnect cl s =
  toast reconnecting_toast (setupSubscription cl sid (reconnect_teardown s)).2.
Proof. intros Hsid. unfold reconnect. by rewrite Hsid. Qed.

Lemma reconnect_teardown_frame s :
  let s1 := reconnect_teardown s in
  retryCount (hook s1) = 0 ∧ isConnected (hook s1) = false ∧
  channelRef (hook s1) = None ∧ heartbeatIntervalRef (hook s1) = None ∧
  next_channel (supabase s1) = next_channel (supabase s) ∧
  setup_invocations s1 = setup_invocations s.
Proof.
  unfold reconnect_teardown. simpl.
  match goal with
  | |- context [clearHeartbeat ?x] =>
      destruct (clearHeartbeat_frame x) as (-> & -> & -> & _ & -> & _ & -> & _);
      rewrite (setup_invocations_clearHeartbeat x)
  end.
  destruct (channelRef (hook s)) as [old|] eqn:Hold; simpl.
  - match goal with
    | |- context [removeChannel old ?x] =>
        destruct (removeChannel_frame old x) as (-> & _ & _ & _ & _ & -> & _);
        rewrite (removeChannel_disconnects old x) by done;
        rewrite (setup_invocations_console (removeChannel old x)) by done;
        rewrite (setup_invocations_removeChannel old x)
    end.
    repeat split.
    transitivity (setup_invocations (emit LogLevel "Manual reconnection requested" s));
      [done|].
    rewrite setup_invocations_emit. simpl. lia.
  - repeat split; [done|].
    transitivity (setup_invocations (emit LogLevel "Manual reconnection requested" s));
      [done|].
    rewrite setup_invocations_emit. simpl. lia.
Qed.

Lemma registry_after_reconnect cl sid s :
  Inv s → truthy (cl_sessionId cl) = Some sid →
  registry (supabase (reconnect cl s)) = {[ next_channel (supabase s) ]}.
Proof.
  intros HI Hsid. rewrite (reconnect_unfold cl sid) by done.
  destruct (reconnect_teardown_frame s) as (_ & _ & _ & _ & Hn & _).
  destruct (registry_after_setup cl sid (reconnect_teardown s)
              (Inv_reconnect_teardown s HI)) as (Hid & Hreg & _).
  transitivity (registry (supabase (setupSubscription cl sid (reconnect_teardown s)).2));
    [done|].
  by rewrite Hreg, Hid, Hn.
Qed.

(** *** The unmount cleanup *)

Lemma cleanup_clear_frame s :
  let s1 := cleanup_clear s in
  retryCount (hook s1) = retryCount (hook s) ∧
  isConnected (hook s1) = isConnected (hook s) ∧
  channelRef (hook s1) = channelRef (hook s) ∧
  timeoutRef (hook s1) = timeoutRef (hook s) ∧
  heartbeatIntervalRef (hook s1) = None ∧
  next_timer (window s1) = next_timer (window s) ∧
  supabase s1 = supabase s ∧
  toasts s1 = toasts s.
Proof.
  unfold cleanup_clear. simpl.
  match goal with
  | |- context [clearHeartbeat ?x] =>
      destruct (clearHeartbeat_frame x) as (-> & -> & -> & -> & -> & -> & -> & -> & _)
  end.
  by destruct (timeoutRef (hook s)) eqn:Ht.
Qed.

Lemma Inv_cleanup_clear s : Inv s → Inv (cleanup_clear s).
Proof.
  intros HI. apply Inv_clearHeartbeat. simpl.
  destruct (timeoutRef (hook s)); [apply Inv_clearTimer|]; by apply Inv_emit.
Qed.

Lemma timer_kind t : is_timeout t = true ∨ is_interval t = true.
Proof. destruct t; [by left|by right]. Qed.

Lemma cleanup_clear_timers s : Inv s → timers (window (cleanup_clear s)) = ∅.
Proof.
  intros HI. apply map_eq; intros i. rewrite lookup_empty.
  destruct (timers (window (cleanup_clear s)) !! i) as [t|] eqn:Hi; [exfalso|done].
  revert Hi. unfold cleanup_clear, clearHeartbeat. simpl.
  pose proof (inv_timeout s HI i t) as Hto.
  pose proof (inv_interval s HI i t) as Hint.
  destruct (timer_kind t) as [Hk|Hk];
    destruct (timeoutRef (hook s)) eqn:Ht; simpl;
    destruct (heartbeatIntervalRef (hook s)) eqn:Hh; simpl;
    intros Hi; lookups; try specialize (Hto Hi Hk); try specialize (Hint Hi Hk);
    congruence.
Qed.

(** [cleanup] is the clearing of the two timers followed by the removal of
    the channel. *)
Lemma cleanup_unfold s :
  cleanup s =
  match channelRef (hook s) with
  | Some old => set_channelRef None (removeChannel old (cleanup_clear s))
  | None => cleanup_clear s
  end.
Proof.
  destruct (cleanup_clear_frame s) as (_ & _ & Hc & _).
  transitivity (match channelRef (hook (cleanup_clear s)) with
                | Some old => set_channelRef None (removeChannel old (cleanup_clear s))
                | None => cleanup_clear s
                end); [done|].
  by rewrite Hc.
Qed.

Lemma cleanup_released s :
  Inv s →
  channelRef (hook (cleanup s)) = None ∧
  heartbeatIntervalRef (hook (cleanup s)) = None ∧
  registry (supabase (cleanup s)) = ∅ ∧
  heartbeat_timers (cleanup s) = ∅.
Proof.
  intros HI. pose proof (Inv_cleanup s HI) as HI'.
  assert (channelRef (hook (cleanup s)) = None ∧
          heartbeatIntervalRef (hook (cleanup s)) = None) as [Hc Hh].
  { rewrite cleanup_unfold.
    destruct (cleanup_clear_frame s) as (_ & _ & Hc & _ & Hh & _).
    destruct (channelRef (hook s)) as [old|]; [|by rewrite Hc, Hh].
    simpl. by destruct (removeChannel_frame old (cleanup_clear s)) as (_ & _ & -> & _). }
  split; [done|]. split; [done|].
  split; [by apply registry_without_handle|by apply heartbeat_timers_idle].
Qed.

(** With no channel held, [cleanup] leaves no timer at all. *)
Lemma cleanup_idle s :
  Inv s → channelRef (hook s) = None → timers (window (cleanup s)) = ∅.
Proof.
  intros HI Hc. rewrite cleanup_unfold, Hc. by apply cleanup_clear_timers.
Qed.

(** ** Shape of timers and channels in reachable states *)

Lemma WF_init : WellFormed init.
Proof.
  split; simpl.
  - intros id t Hl. by rewrite lookup_empty in Hl.
  - intros ch c Hl. by rewrite lookup_empty in Hl.
  - intros ch Hch. by apply elem_of_empty in Hch.
  - intros ch Hch. by apply elem_of_nil in Hch.
Qed.

Lemma WF_same s s' :
  timers (window s') = timers (window s) → supabase s' = supabase s →
  WellFormed s → WellFormed s'.
Proof.
  intros Ht Hs [H1 H2 H3 H4]. split; rewrite ?Ht, ?Hs; try done.
  intros id t Hl. specialize (H1 id t Hl). unfold timer_wf in *. by rewrite Hs.
Qed.

Lemma WF_emit l m s : WellFormed s → WellFormed (emit l m s).
Proof. by apply WF_same. Qed.
Lemma WF_toast t s : WellFormed s → WellFormed (toast t s).
Proof. by apply WF_same. Qed.
Lemma WF_on_hook f s : WellFormed s → WellFormed (on_hook f s).
Proof. by apply WF_same. Qed.

Lemma WF_clearTimer id s : WellFormed s → WellFormed (clearTimer id s).
Proof.
  intros [H1 H2 H3 H4]. split; try done. simpl. intros i t Hl.
  apply lookup_delete_Some in Hl as [_ Hl]. by apply (H1 i t).
Qed.

Lemma WF_addTimer t s :
  timer_wf s t → WellFormed s → WellFormed (addTimer t s).2.
Proof.
  intros Ht [H1 H2 H3 H4]. split; try done. simpl. intros i t' Hl.
  apply lookup_insert_Some in Hl as [[_ <-]|[_ Hl]]; [done|]. by apply (H1 i t').
Qed.

Lemma WF_unregister ch s : WellFormed s → WellFormed (unregister ch s).
Proof.
  intros [H1 H2 H3 H4]. split; try done. simpl. intros c Hc.
  apply elem_of_difference in Hc as [Hc _]. by apply H3.
Qed.

Lemma WF_send ch s :
  is_Some (channels (supabase s) !! ch) → WellFormed s → WellFormed (send ch s).
Proof.
  intros Hch [H1 H2 H3 H4]. split; try done. simpl. intros c Hc.
  apply elem_of_app in Hc as [Hc|Hc]; [by apply H4|].
  apply list_elem_of_singleton in Hc as ->. done.
Qed.

Lemma openChannel_fields c s :
  let s' := (openChannel c s).2 in
  channels (supabase s') = <[next_channel (supabase s) := c]> (channels (supabase s)) ∧
  registry (supabase s') = {[next_channel (supabase s)]} ∪ registry (supabase s) ∧
  next_channel (supabase s') = Pos.succ (next_channel (supabase s)) ∧
  sent (supabase s') = sent (supabase s) ∧
  timers (window s') = timers (window s).
Proof. done. Qed.

Lemma WF_openChannel c s :
  channel_wf c → WellFormed s → WellFormed (openChannel c s).2.
Proof.
  intros Hc [H1 H2 H3 H4].
  destruct (openChannel_fields c s) as (Hchs & Hreg & Hnext & Hsent & Htim).
  assert (∀ ch c', channels (supabase s) !! ch = Some c' →
                   channels (supabase (openChannel c s).2) !! ch = Some c')
    as Hmono.
  { intros ch c' Hch. rewrite Hchs, lookup_insert_ne; [done|].
    intros <-. destruct (H2 _ _ Hch) as [_ Hlt]. lia. }
  split.
  - rewrite Htim. intros id t Hl. specialize (H1 id t Hl).
    destruct t as [|cl ch p]; [done|].
    destruct H1 as (Hp & c' & Hch & Hcl). split; [done|]. exists c'. split; [|done].
    by apply Hmono.
  - rewrite Hchs, Hnext. intros ch c' Hl.
    apply lookup_insert_Some in Hl as [[<- <-]|[_ Hl]].
    + split; [done|lia].
    + destruct (H2 _ _ Hl) as [Hwf Hlt]. split; [done|lia].
  - rewrite Hreg. intros ch Hch. apply elem_of_union in Hch as [Hch|Hch].
    + apply elem_of_singleton in Hch as ->. rewrite Hchs, lookup_insert_eq. by eexists.
    + destruct (H3 _ Hch) as [c' Hc']. exists c'. by apply Hmono.
  - rewrite Hsent. intros ch Hch.
    destruct (H4 _ Hch) as [c' Hc']. exists c'. by apply Hmono.
Qed.

Lemma WF_clearHeartbeat s : WellFormed s → WellFormed (clearHeartbeat s).
Proof.
  intros HW. unfold clearHeartbeat. destruct (heartbeatIntervalRef (hook s)); [|done].
  by apply WF_on_hook, WF_clearTimer.
Qed.

Lemma WF_handleReconnection cl s : WellFormed s → WellFormed (handleReconnection cl s).
Proof.
  intros HW. unfold handleReconnection.
  destruct (truthy (cl_sessionId cl)) as [sid|] eqn:Hsid;
    [case_bool_decide|]; try by apply WF_toast, WF_emit.
  simpl. apply WF_on_hook.
  match goal with
  | |- WellFormed (on_window _ ?x) =>
      apply (WF_addTimer (Timeout cl sid (retryDelay (cl_retryCount cl))) x)
  end.
  - repeat split; [done|lia].
  - destruct (timeoutRef (hook s)); [apply WF_clearTimer|]; by apply WF_emit.
Qed.

Lemma WF_removeChannel ch s : WellFormed s → WellFormed (removeChannel ch s).
Proof.
  intros HW. rewrite removeChannel_unfold.
  destruct (channels (supabase s) !! ch); [|by apply WF_unregister].
  by apply WF_handleReconnection, WF_on_hook, WF_emit, WF_emit, WF_unregister.
Qed.

Lemma WF_startHeartbeat c ch s :
  channels (supabase s) !! ch = Some c →
  WellFormed s → WellFormed (startHeartbeat (ch_closure c) ch s).
Proof.
  intros Hch HW. unfold startHeartbeat. simpl. apply WF_on_hook.
  match goal with
  | |- WellFormed (on_window _ ?x) =>
      apply (WF_addTimer (Interval (ch_closure c) ch HEARTBEAT_PERIOD) x)
  end.
  - split; [done|]. exists c. split; [|done].
    unfold clearHeartbeat. by destruct (heartbeatIntervalRef (hook s)).
  - by apply WF_clearHeartbeat.
Qed.

Lemma WF_setupSubscription cl sid s :
  WellFormed s → WellFormed (setupSubscription cl sid s).2.
Proof.
  intros HW. rewrite setupSubscription_unfold. unfold setup_open. simpl. apply WF_on_hook.
  match goal with
  | |- WellFormed (on_supabase _ ?x) =>
      apply (WF_openChannel {| ch_topic := "chat_messages_" +:+ sid;
                               ch_filter := "session_id=eq." +:+ sid;
                               ch_closure := cl |} x)
  end.
  - by exists sid.
  - apply WF_emit. unfold setup_teardown. destruct (channelRef (hook s)); [|done].
    by apply WF_clearHeartbeat, WF_on_hook, WF_removeChannel, WF_emit.
Qed.

Lemma WF_reconnectionTimeout cl sid s :
  WellFormed s → WellFormed (reconnectionTimeout cl sid s).
Proof.
  intros HW. unfold reconnectionTimeout. apply WF_setupSubscription. simpl.
  destruct (channelRef (hook s)).
  - by apply WF_on_hook, WF_removeChannel, WF_emit, WF_on_hook.
  - by apply WF_on_hook.
Qed.

Lemma WF_reconnect cl s : WellFormed s → WellFormed (reconnect cl s).
Proof.
  intros HW. unfold reconnect. destruct (truthy (cl_sessionId cl)); [|done].
  apply WF_toast, WF_setupSubscription, WF_clearHeartbeat. simpl.
  destruct (channelRef (hook s)).
  - by apply WF_on_hook, WF_removeChannel, WF_on_hook, WF_on_hook, WF_emit.
  - by apply WF_on_hook, WF_on_hook, WF_emit.
Qed.

Lemma WF_cleanup s : WellFormed s → WellFormed (cleanup s).
Proof.
  intros HW. unfold cleanup.
  set (s1 := clearHeartbeat _).
  assert (WellFormed s1) as HW1.
  { apply WF_clearHeartbeat. simpl.
    destruct (timeoutRef (hook s)); [apply WF_clearTimer|]; by apply WF_emit. }
  destruct (channelRef (hook s1)); [|done].
  by apply WF_on_hook, WF_removeChannel.
Qed.

Lemma WF_step s e : WellFormed s → WellFormed (step s e).
Proof.
  intros HW. destruct e as [cl sid|cl| |ch p|ch|ch st|id|id closed|ch]; simpl.
  - by apply WF_setupSubscription.
  - by apply WF_reconnect.
  - by apply WF_cleanup.
  - destruct (channels (supabase s) !! ch); [|done].
    unfold onInsert. destruct (negb _); by repeat apply WF_emit.
  - destruct (channels (supabase s) !! ch); [|done].
    by apply WF_handleReconnection, WF_toast, WF_on_hook, WF_emit.
  - destruct (channels (supabase s) !! ch) as [c|] eqn:Hch; [|done].
    destruct st; simpl.
    + apply WF_startHeartbeat; [done|].
      by apply WF_on_hook, WF_on_hook, WF_emit, WF_emit.
    + by apply WF_emit.
    + by apply WF_handleReconnection, WF_on_hook, WF_emit, WF_emit.
    + by apply WF_handleReconnection, WF_toast, WF_on_hook, WF_emit, WF_emit.
  - destruct (timers (window s) !! id) as [[cl sid d|]|]; try done.
    by apply WF_reconnectionTimeout, WF_clearTimer.
  - destruct (timers (window s) !! id) as [[|cl ch p]|] eqn:Hid; try done.
    unfold heartbeatTick. destruct closed; [by apply WF_clearHeartbeat|].
    apply WF_send; [|done].
    destruct (wf_timers s HW id _ Hid) as (_ & c & Hc & _). by eexists.
  - destruct (channels (supabase s) !! ch); [|done].
    by apply WF_handleReconnection, WF_on_hook, WF_clearHeartbeat, WF_emit.
Qed.

Lemma WF_run evs : ∀ s, WellFormed s → WellFormed (run s evs).
Proof.
  induction evs as [|e evs IH]; intros s HW; [done|].
  apply IH, WF_step, HW.
Qed.

Lemma WF_reachable evs : WellFormed (run init evs).
Proof. apply WF_run, WF_init. Qed.

(** ** The channel [channelRef] names *)

Lemma reconnectionTimeout_channel cl sid s :
  Inv s →
  let s' := reconnectionTimeout cl sid s in
  registry (supabase s') = {[ next_channel (supabase s) ]} ∧
  channelRef (hook s') = Some (next_channel (supabase s)) ∧
  channels (supabase s') !! next_channel (supabase s) =
    Some {| ch_topic := "chat_messages_" +:+ sid;
            ch_filter := "session_id=eq." +:+ sid;
            ch_closure := cl |}.
Proof.
  intros HI s'. unfold s', reconnectionTimeout.
  set (s1 := match channelRef (hook (setRetryCount _ s)) with
             | Some _ => _ | None => _ end).
  assert (Inv s1 ∧ next_channel (supabase s1) = next_channel (supabase s)) as [HI1 Hn].
  { unfold s1. simpl. destruct (channelRef (hook s)) as [old|] eqn:Hold.
    - split.
      + apply Inv_teardown; [|done]. by apply Inv_emit, Inv_setRetryCount.
      + simpl.
        match goal with
        | |- context [removeChannel old ?x] =>
            by destruct (removeChannel_frame old x) as (_ & _ & _ & _ & _ & -> & _)
        end.
    - split; [|done]. by apply Inv_setRetryCount. }
  destruct (registry_after_setup cl sid s1 HI1) as (Hid & Hreg & Href & Hlook & _).
  rewrite Hid, Hn in Hreg, Href, Hlook. by rewrite Hreg, Href, Hlook.
Qed.

Lemma reconnect_handle cl sid s :
  Inv s → truthy (cl_sessionId cl) = Some sid →
  channelRef (hook (reconnect cl s)) = Some (next_channel (supabase s)) ∧
  registry (supabase (reconnect cl s)) = {[ next_channel (supabase s) ]}.
Proof.
  intros HI Hsid. split; [|by apply (registry_after_reconnect cl sid)].
  rewrite (reconnect_unfold cl sid) by done.
  destruct (reconnect_teardown_frame s) as (_ & _ & _ & _ & Hn & _).
  destruct (registry_after_setup cl sid (reconnect_teardown s)
              (Inv_reconnect_teardown s HI)) as (Hid & _ & Href & _).
  transitivity (channelRef (hook (setupSubscription cl sid (reconnect_teardown s)).2));
    [done|].
  by rewrite Href, Hid, Hn.
Qed.

Lemma step_keeps_handle s e :
  match e with
  | CallSetup _ _ | CallReconnect _ | Unmount | TimeoutFires _ => True
  | _ => channelRef (hook (step s e)) = channelRef (hook s) ∧
         registry (supabase (step s e)) = registry (supabase s)
  end.
Proof. destruct e; try done; unfold step; crush_hook; done. Qed.

(** A channel that [channelRef] names is held by the client. *)
Lemma held_step s e :
  Inv s →
  (∀ ch, channelRef (hook s) = Some ch → ch ∈ registry (supabase s)) →
  ∀ ch, channelRef (hook (step s e)) = Some ch → ch ∈ registry (supabase (step s e)).
Proof.
  intros HI Hheld ch. pose proof (step_keeps_handle s e) as Hkeep.
  destruct e as [cl sid|cl| |c p|c|c st|id|id closed|c].
  - change (step s (CallSetup cl sid)) with (setupSubscription cl sid s).2.
    destruct (registry_after_setup cl sid s HI) as (_ & -> & -> & _).
    intros [= <-]. by apply elem_of_singleton.
  - change (step s (CallReconnect cl)) with (reconnect cl s).
    destruct (truthy (cl_sessionId cl)) as [sid|] eqn:Hsid.
    + destruct (reconnect_handle cl sid s HI Hsid) as [-> ->].
      intros [= <-]. by apply elem_of_singleton.
    + unfold reconnect. rewrite Hsid. by apply Hheld.
  - change (step s Unmount) with (cleanup s).
    by destruct (cleanup_released s HI) as (-> & _).
  - destruct Hkeep as [-> ->]. by apply Hheld.
  - destruct Hkeep as [-> ->]. by apply Hheld.
  - destruct Hkeep as [-> ->]. by apply Hheld.
  - simpl. destruct (timers (window s) !! id) as [[cl sid d|]|]; try by apply Hheld.
    destruct (reconnectionTimeout_channel cl sid (clearTimer id s))
      as (-> & -> & _); [by apply Inv_clearTimer|].
    intros [= <-]. by apply elem_of_singleton.
  - destruct Hkeep as [-> ->]. by apply Hheld.
  - destruct Hkeep as [-> ->]. by apply Hheld.
Qed.

Lemma held_run evs : ∀ s,
  Inv s →
  (∀ ch, channelRef (hook s) = Some ch → ch ∈ registry (supabase s)) →
  ∀ ch, channelRef (hook (run s evs)) = Some ch → ch ∈ registry (supabase (run s evs)).
Proof.
  induction evs as [|e evs IH]; intros s HI Hheld; [done|].
  apply IH; [by apply Inv_step|by apply held_step].
Qed.

(** In a reachable state the channel [channelRef] names is one this hook
    opened. *)
Lemma held_channel_known evs old :
  channelRef (hook (run init evs)) = Some old →
  ∃ c, channels (supabase (run init evs)) !! old = Some c.
Proof.
  intros Hold. apply (wf_registry _ (WF_reachable evs)).
  by apply (held_run evs init Inv_init).
Qed.

(** The guard of line 25, decided. *)
Lemma gives_up_cases cl :
  gives_up cl ∨
  ∃ sid, truthy (cl_sessionId cl) = Some sid ∧ cl_retryCount cl < MAX_RETRY_ATTEMPTS.
Proof.
  unfold gives_up. destruct (truthy (cl_sessionId cl)) as [sid|]; [|by left; left].
  destruct (decide (MAX_RETRY_ATTEMPTS ≤ cl_retryCount cl)) as [Hmax|Hlt].
  - by left; right.
  - right. exists sid. split; [done|lia].
Qed.

(** ** Removing a channel inside the hook's functions *)

Lemma reconnect_timers_window s s' :
  window s' = window s → reconnect_timers s' = reconnect_timers s.
Proof. unfold reconnect_timers. by intros ->. Qed.

Lemma heartbeat_timers_window s s' :
  window s' = window s → heartbeat_timers s' = heartbeat_timers s.
Proof. unfold heartbeat_timers. by intros ->. Qed.

(** The two timer tables partition the browser's table. *)
Lemma timers_only_reconnections s :
  heartbeat_timers s = ∅ → timers (window s) = reconnect_timers s.
Proof.
  intros Hnone. apply map_eq; intros i. apply option_eq; intros t.
  rewrite reconnect_timers_lookup. split; [|by intros [? _]].
  intros Hi. split; [done|]. destruct (timer_kind t) as [Hk|Hk]; [done|].
  assert (heartbeat_timers s !! i = Some t) as Hh by by apply heartbeat_timers_lookup.
  by rewrite Hnone, lookup_empty in Hh.
Qed.

(** With no channel held nothing is removed. *)
Lemma reconnect_teardown_idle s :
  Inv s → channelRef (hook s) = None →
  let s1 := reconnect_teardown s in
  reconnect_timers s1 = reconnect_timers s ∧
  timeoutRef (hook s1) = timeoutRef (hook s) ∧
  toasts s1 = toasts s.
Proof.
  intros HI Hc. unfold reconnect_teardown. simpl. rewrite Hc.
  match goal with
  | |- context [clearHeartbeat ?x] =>
      destruct (clearHeartbeat_frame x) as (_ & _ & _ & -> & _ & _ & _ & -> & _);
      rewrite (reconnect_timers_clearHeartbeat x)
        by by apply Inv_setIsConnected, Inv_setRetryCount, Inv_emit
  end.
  done.
Qed.

(** The timer callback is its teardown followed by [setupSubscription],
    which then finds no channel to remove. *)
Lemma reconnectionTimeout_unfold cl sid s :
  reconnectionTimeout cl sid s = (setupSubscription cl sid (timeout_teardown s)).2.
Proof. done. Qed.

Lemma timeout_teardown_frame s :
  let s1 := timeout_teardown s in
  channelRef (hook s1) = None ∧
  heartbeatIntervalRef (hook s1) = heartbeatIntervalRef (hook s) ∧
  (Inv s → Inv s1 ∧ heartbeat_timers s1 = heartbeat_timers s).
Proof.
  unfold timeout_teardown. simpl. destruct (channelRef (hook s)) as [old|] eqn:Hold.
  - simpl.
    match goal with
    | |- context [removeChannel old ?x] =>
        destruct (removeChannel_frame old x) as (_ & _ & -> & _);
        pose proof (heartbeat_timers_removeChannel old x) as Ht;
        pose proof (Inv_teardown old x) as HI1
    end.
    split; [done|]. split; [done|]. intros HI.
    assert (Inv (setRetryCount (λ prev, prev + 1) s)) as HIx by by apply Inv_setRetryCount.
    split; [apply HI1; [by apply Inv_emit|done]|]. apply Ht. by apply Inv_emit.
  - split; [done|]. split; [done|]. intros HI. split; [by apply Inv_setRetryCount|done].
Qed.

Lemma reconnectionTimeout_after_teardown cl sid s :
  let s' := reconnectionTimeout cl sid s in
  window s' = window (timeout_teardown s) ∧
  timeoutRef (hook s') = timeoutRef (hook (timeout_teardown s)) ∧
  isConnected (hook s') = isConnected (hook (timeout_teardown s)) ∧
  heartbeatIntervalRef (hook s') = heartbeatIntervalRef (hook s) ∧
  toasts s' = toasts (timeout_teardown s).
Proof.
  cbv zeta. rewrite reconnectionTimeout_unfold.
  destruct (timeout_teardown_frame s) as (Hc & Hh & _).
  by destruct (setupSubscription_fresh cl sid (timeout_teardown s) Hc)
    as (-> & -> & -> & -> & ->).
Qed.

Lemma timeout_teardown_idle s :
  channelRef (hook s) = None →
  let s1 := timeout_teardown s in
  window s1 = window s ∧ timeoutRef (hook s1) = timeoutRef (hook s) ∧
  isConnected (hook s1) = isConnected (hook s) ∧ toasts s1 = toasts s.
Proof. intros Hc. unfold timeout_teardown. simpl. by rewrite Hc. Qed.

Section removal.
Context (s : State) (old : positive) (c : Channel).
Hypothesis HI : Inv s.
Hypothesis Hold : channelRef (hook s) = Some old.
Hypothesis Hch : channels (supabase s) !! old = Some c.

Section rearms.
Context (sid0 : string).
Hypothesis Hsid : truthy (cl_sessionId (ch_closure c)) = Some sid0.
Hypothesis Hlt : cl_retryCount (ch_closure c) < MAX_RETRY_ATTEMPTS.

(** The reconnection the removed channel's handler schedules. *)
Local Abbreviation rearmed :=
  ({[ next_timer (window s) :=
        Timeout (ch_closure c) sid0 (retryDelay (cl_retryCount (ch_closure c))) ]}
   : gmap positive Timer).

Lemma setup_teardown_rearms :
  let s1 := setup_teardown s in
  reconnect_timers s1 = rearmed ∧
  timeoutRef (hook s1) = Some (next_timer (window s)) ∧
  isConnected (hook s1) = false ∧
  toasts s1 = toasts s.
Proof.
  unfold setup_teardown. rewrite Hold. simpl.
  set (x := emit WarnLevel "Subscription already exists, cleaning up first" s).
  assert (Inv x) as HIx by by apply Inv_emit.
  destruct (removeChannel_rearms old c sid0 x HIx Hch Hsid Hlt)
    as (Hrt & Href & _ & Hflag & Htoasts).
  destruct (clearHeartbeat_frame (set_channelRef None (removeChannel old x)))
    as (_ & -> & _ & -> & _ & _ & _ & -> & _).
  rewrite reconnect_timers_clearHeartbeat by by apply Inv_teardown.
  done.
Qed.

Lemma reconnect_teardown_rearms :
  let s1 := reconnect_teardown s in
  reconnect_timers s1 = rearmed ∧
  timeoutRef (hook s1) = Some (next_timer (window s)) ∧
  toasts s1 = toasts s.
Proof.
  unfold reconnect_teardown. simpl. rewrite Hold.
  set (x := setIsConnected false _).
  assert (Inv x) as HIx by by apply Inv_setIsConnected, Inv_setRetryCount, Inv_emit.
  destruct (removeChannel_rearms old c sid0 x HIx Hch Hsid Hlt)
    as (Hrt & Href & _ & _ & Htoasts).
  destruct (clearHeartbeat_frame (set_channelRef None (removeChannel old x)))
    as (_ & _ & _ & -> & _ & _ & _ & -> & _).
  rewrite reconnect_timers_clearHeartbeat by by apply Inv_teardown.
  done.
Qed.

Lemma cleanup_rearms :
  timers (window (cleanup s)) = rearmed ∧
  timeoutRef (hook (cleanup s)) = Some (next_timer (window s)) ∧
  isConnected (hook (cleanup s)) = false ∧
  toasts (cleanup s) = toasts s.
Proof.
  destruct (cleanup_released s HI) as (_ & _ & _ & Hnone).
  rewrite (timers_only_reconnections _ Hnone), cleanup_unfold, Hold.
  destruct (cleanup_clear_frame s) as (_ & _ & _ & _ & _ & Hn & Hs & Ht).
  assert (channels (supabase (cleanup_clear s)) !! old = Some c) as Hch'
    by by rewrite Hs.
  destruct (removeChannel_rearms old c sid0 (cleanup_clear s)
              (Inv_cleanup_clear s HI) Hch' Hsid Hlt)
    as (Hrt & Href & _ & Hflag & Htoasts).
  rewrite Hn in Hrt, Href. by rewrite Ht in Htoasts.
Qed.

Lemma timeout_teardown_rearms :
  let s1 := timeout_teardown s in
  reconnect_timers s1 = rearmed ∧
  timeoutRef (hook s1) = Some (next_timer (window s)) ∧
  isConnected (hook s1) = false ∧
  toasts s1 = toasts s.
Proof.
  unfold timeout_teardown. simpl. rewrite Hold.
  set (x := emit LogLevel "Removing existing channel before reconnection" _).
  assert (Inv x) as HIx by by apply Inv_emit, Inv_setRetryCount.
  by destruct (removeChannel_rearms old c sid0 x HIx Hch Hsid Hlt)
    as (Hrt & Href & _ & Hflag & Htoasts).
Qed.
End rearms.

Section gives_up.
Hypothesis Hg : gives_up (ch_closure c).

Lemma setup_teardown_gives_up :
  let s1 := setup_teardown s in
  reconnect_timers s1 = reconnect_timers s ∧
  timeoutRef (hook s1) = timeoutRef (hook s) ∧
  isConnected (hook s1) = false ∧
  toasts s1 = (toasts s ++ [refresh_toast])%list.
Proof.
  unfold setup_teardown. rewrite Hold. simpl.
  set (x := emit WarnLevel "Subscription already exists, cleaning up first" s).
  assert (Inv x) as HIx by by apply Inv_emit.
  destruct (removeChannel_gives_up old c x Hch Hg) as (Hw & Href & Hflag & Htoasts).
  destruct (clearHeartbeat_frame (set_channelRef None (removeChannel old x)))
    as (_ & -> & _ & -> & _ & _ & _ & -> & _).
  rewrite reconnect_timers_clearHeartbeat by by apply Inv_teardown.
  split; [by apply reconnect_timers_window|done].
Qed.

Lemma reconnect_teardown_gives_up :
  let s1 := reconnect_teardown s in
  reconnect_timers s1 = reconnect_timers s ∧
  timeoutRef (hook s1) = timeoutRef (hook s) ∧
  toasts s1 = (toasts s ++ [refresh_toast])%list.
Proof.
  unfold reconnect_teardown. simpl. rewrite Hold.
  set (x := setIsConnected false _).
  assert (Inv x) as HIx by by apply Inv_setIsConnected, Inv_setRetryCount, Inv_emit.
  destruct (removeChannel_gives_up old c x Hch Hg) as (Hw & Href & _ & Htoasts).
  destruct (clearHeartbeat_frame (set_channelRef None (removeChannel old x)))
    as (_ & _ & _ & -> & _ & _ & _ & -> & _).
  rewrite reconnect_timers_clearHeartbeat by by apply Inv_teardown.
  split; [by apply reconnect_timers_window|done].
Qed.

Lemma cleanup_gives_up :
  timers (window (cleanup s)) = ∅ ∧
  isConnected (hook (cleanup s)) = false ∧
  toasts (cleanup s) = (toasts s ++ [refresh_toast])%list.
Proof.
  rewrite cleanup_unfold, Hold.
  destruct (cleanup_clear_frame s) as (_ & _ & _ & _ & _ & _ & Hs & Ht).
  assert (channels (supabase (cleanup_clear s)) !! old = Some c) as Hch'
    by by rewrite Hs.
  destruct (removeChannel_gives_up old c (cleanup_clear s) Hch' Hg)
    as (Hw & _ & Hflag & Htoasts).
  rewrite Ht in Htoasts. split; [|done].
  transitivity (timers (window (removeChannel old (cleanup_clear s)))); [done|].
  rewrite Hw. by apply cleanup_clear_timers.
Qed.

Lemma timeout_teardown_gives_up :
  let s1 := timeout_teardown s in
  window s1 = window s ∧
  timeoutRef (hook s1) = timeoutRef (hook s) ∧
  isConnected (hook s1) = false ∧
  toasts s1 = (toasts s ++ [refresh_toast])%list.
Proof.
  unfold timeout_teardown. simpl. rewrite Hold.
  set (x := emit LogLevel "Removing existing channel before reconnection" _).
  by destruct (removeChannel_gives_up old c x Hch Hg) as (Hw & Href & Hflag & Htoasts).
Qed.
End gives_up.
End removal.

(** [setupSubscription] leaves the timers and the toasts as its teardown
    left them. *)
Lemma setupSubscription_after_teardown cl sid s :
  Inv s →
  let s' := (setupSubscription cl sid s).2 in
  reconnect_timers s' = reconnect_timers (setup_teardown s) ∧
  timeoutRef (hook s') = timeoutRef (hook (setup_teardown s)) ∧
  isConnected (hook s') = isConnected (hook (setup_teardown s)) ∧
  toasts s' = toasts (setup_teardown s).
Proof.
  intros HI. cbv zeta. rewrite setupSubscription_unfold.
  destruct (setup_open_fields cl sid (setup_teardown s))
    as (_ & _ & -> & _ & -> & _ & Hw & _ & _ & _ & _ & -> & _).
  by rewrite (reconnect_timers_window _ _ Hw).
Qed.

(** [reconnect] leaves the timers as its teardown left them, and adds its
    toast. *)
Lemma reconnect_after_teardown cl sid s :
  Inv s → truthy (cl_sessionId cl) = Some sid →
  let s' := reconnect cl s in
  retryCount (hook s') = 0 ∧
  isConnected (hook s') = false ∧
  heartbeatIntervalRef (hook s') = None ∧
  heartbeat_timers s' = ∅ ∧
  reconnect_timers s' = reconnect_timers (reconnect_teardown s) ∧
  timeoutRef (hook s') = timeoutRef (hook (reconnect_teardown s)) ∧
  toasts s' = (toasts (reconnect_teardown s) ++ [reconnecting_toast])%list.
Proof.
  intros HI Hsid. cbv zeta. rewrite (reconnect_unfold cl sid) by done.
  destruct (reconnect_teardown_frame s) as (Hr & Hc & Hch & Hh & _).
  pose proof (Inv_reconnect_teardown s HI) as HI1.
  destruct (setupSubscription_frame cl sid (reconnect_teardown s)) as (Hr' & _).
  destruct (setupSubscription_fresh cl sid (reconnect_teardown s) Hch)
    as (Hc' & Ht' & Hh' & Hw & Hto).
  set (r := (setupSubscription cl sid (reconnect_teardown s)).2) in *.
  change (hook (toast reconnecting_toast r)) with (hook r).
  change (toasts (toast reconnecting_toast r)) with (toasts r ++ [reconnecting_toast])%list.
  rewrite (reconnect_timers_window r (toast reconnecting_toast r)) by done.
  rewrite (heartbeat_timers_window r (toast reconnecting_toast r)) by done.
  rewrite (reconnect_timers_window _ _ Hw), (heartbeat_timers_window _ _ Hw).
  rewrite (heartbeat_timers_idle _ HI1 Hh).
  split; [congruence|]. split; [congruence|]. split; [congruence|].
  split; [done|]. split; [done|]. split; [done|]. by rewrite Hto.
Qed.

(** ** What each function does to the client, the flag and the counter *)

Lemma removeChannel_flag ch s :
  isConnected (hook (removeChannel ch s)) = true → isConnected (hook s) = true.
Proof.
  rewrite removeChannel_unfold.
  destruct (channels (supabase s) !! ch) as [c|]; [|done].
  unfold onStatus.
  match goal with
  | |- context [handleReconnection ?cl ?x] =>
      by destruct (handleReconnection_frame cl x) as (_ & -> & _)
  end.
Qed.

Lemma setupSubscription_client cl sid s :
  let s' := (setupSubscription cl sid s).2 in
  channels (supabase s') =
    <[next_channel (supabase s) :=
        {| ch_topic := "chat_messages_" +:+ sid;
           ch_filter := "session_id=eq." +:+ sid;
           ch_closure := cl |}]> (channels (supabase s)) ∧
  next_channel (supabase s') = Pos.succ (next_channel (supabase s)) ∧
  (isConnected (hook s') = true → isConnected (hook s) = true).
Proof.
  cbv zeta. rewrite setupSubscription_unfold.
  destruct (setup_open_fields cl sid (setup_teardown s))
    as (_ & _ & -> & _ & _ & _ & _ & -> & _ & -> & _).
  destruct (setup_teardown_frame s) as (_ & -> & -> & _).
  split; [done|]. split; [done|].
  unfold setup_teardown. destruct (channelRef (hook s)) as [old|]; [|done]. simpl.
  match goal with
  | |- context [clearHeartbeat ?x] =>
      destruct (clearHeartbeat_frame x) as (_ & -> & _)
  end.
  intros Hflag. by apply removeChannel_flag in Hflag.
Qed.

Lemma reconnect_teardown_client s :
  channels (supabase (reconnect_teardown s)) = channels (supabase s).
Proof.
  unfold reconnect_teardown. simpl.
  match goal with
  | |- context [clearHeartbeat ?x] =>
      destruct (clearHeartbeat_frame x) as (_ & _ & _ & _ & _ & _ & -> & _)
  end.
  destruct (channelRef (hook s)) as [old|]; [|done]. simpl.
  match goal with
  | |- context [removeChannel old ?x] =>
      by destruct (removeChannel_frame old x) as (_ & _ & _ & -> & _)
  end.
Qed.

Lemma reconnect_client cl s :
  let s' := reconnect cl s in
  (s' = s ∨
   retryCount (hook s') = 0 ∧ isConnected (hook s') = false ∧
   channels (supabase s') =
     <[next_channel (supabase s) :=
         {| ch_topic := "chat_messages_" +:+ default "" (truthy (cl_sessionId cl));
            ch_filter := "session_id=eq." +:+ default "" (truthy (cl_sessionId cl));
            ch_closure := cl |}]> (channels (supabase s)) ∧
   next_channel (supabase s') = Pos.succ (next_channel (supabase s))).
Proof.
  cbv zeta. destruct (truthy (cl_sessionId cl)) as [sid|] eqn:Hsid.
  - right. rewrite (reconnect_unfold cl sid) by done.
    destruct (reconnect_teardown_frame s) as (Hr & Hc & Hch & _ & Hn & _).
    pose proof (reconnect_teardown_client s) as Hchs.
    destruct (setupSubscription_frame cl sid (reconnect_teardown s)) as (Hr' & _).
    destruct (setupSubscription_fresh cl sid (reconnect_teardown s) Hch) as (Hc' & _).
    destruct (setupSubscription_client cl sid (reconnect_teardown s)) as (Hchs' & Hn' & _).
    rewrite Hn, Hchs in Hchs'. rewrite Hn in Hn'.
    set (r := (setupSubscription cl sid (reconnect_teardown s)).2) in *.
    change (hook (toast reconnecting_toast r)) with (hook r).
    change (supabase (toast reconnecting_toast r)) with (supabase r).
    split; [congruence|]. split; [congruence|]. done.
  - left. unfold reconnect. by rewrite Hsid.
Qed.

Lemma cleanup_client s :
  retryCount (hook (cleanup s)) = retryCount (hook s) ∧
  channels (supabase (cleanup s)) = channels (supabase s) ∧
  next_channel (supabase (cleanup s)) = next_channel (supabase s) ∧
  (isConnected (hook (cleanup s)) = true → isConnected (hook s) = true).
Proof.
  rewrite cleanup_unfold.
  destruct (cleanup_clear_frame s) as (Hr & Hc & _ & _ & _ & _ & Hs & _).
  destruct (channelRef (hook s)) as [old|]; [|by rewrite Hr, Hc, Hs]. simpl.
  destruct (removeChannel_frame old (cleanup_clear s))
    as (-> & _ & _ & -> & _ & -> & _).
  rewrite Hr, Hs. repeat split. intros Hflag. rewrite <- Hc. by apply (removeChannel_flag old).
Qed.

Lemma timeout_teardown_client s :
  let s1 := timeout_teardown s in
  channels (supabase s1) = channels (supabase s) ∧
  next_channel (supabase s1) = next_channel (supabase s) ∧
  (isConnected (hook s1) = true → isConnected (hook s) = true).
Proof.
  unfold timeout_teardown. simpl. destruct (channelRef (hook s)) as [old|]; [|done]. simpl.
  match goal with
  | |- context [removeChannel old ?x] =>
      destruct (removeChannel_frame old x) as (_ & _ & _ & -> & _ & -> & _);
      pose proof (removeChannel_flag old x) as Hflag
  end.
  done.
Qed.

Lemma reconnectionTimeout_client cl sid s :
  let s' := reconnectionTimeout cl sid s in
  channels (supabase s') =
    <[next_channel (supabase s) :=
        {| ch_topic := "chat_messages_" +:+ sid;
           ch_filter := "session_id=eq." +:+ sid;
           ch_closure := cl |}]> (channels (supabase s)) ∧
  next_channel (supabase s') = Pos.succ (next_channel (supabase s)) ∧
  (isConnected (hook s') = true → isConnected (hook s) = true).
Proof.
  cbv zeta. rewrite reconnectionTimeout_unfold.
  destruct (setupSubscription_client cl sid (timeout_teardown s)) as (-> & -> & Hflag).
  destruct (timeout_teardown_client s) as (-> & -> & Hflag').
  split; [done|]. split; [done|]. intros Hc. by apply Hflag', Hflag.
Qed.

(** ** States that differ in the console only *)

Lemma silence_eq s1 s2 :
  silence s1 = silence s2 ↔
  hook s1 = hook s2 ∧ window s1 = window s2 ∧ supabase s1 = supabase s2 ∧
  toasts s1 = toasts s2.
Proof.
  destruct s1, s2. unfold silence. simpl. split.
  - by intros [= -> -> -> ->].
  - by intros (-> & -> & -> & ->).
Qed.

Ltac silenced Heq :=
  let Hh := fresh "Hh" in
  let Hw := fresh "Hw" in
  let Hs := fresh "Hs" in
  let Ht := fresh "Ht" in
  apply silence_eq in Heq as (Hh & Hw & Hs & Ht);
  match goal with
  | s1 : State, s2 : State |- _ => destruct s1, s2; simpl in *; subst
  end.

Lemma silenced_emit l m l' m' s1 s2 :
  silence s1 = silence s2 → silence (emit l m s1) = silence (emit l' m' s2).
Proof. intros Heq. by silenced Heq. Qed.

Lemma silenced_toast t s1 s2 :
  silence s1 = silence s2 → silence (toast t s1) = silence (toast t s2).
Proof. intros Heq. by silenced Heq. Qed.

Lemma silenced_on_hook f s1 s2 :
  silence s1 = silence s2 → silence (on_hook f s1) = silence (on_hook f s2).
Proof. intros Heq. by silenced Heq. Qed.

Lemma silenced_on_window f s1 s2 :
  silence s1 = silence s2 → silence (on_window f s1) = silence (on_window f s2).
Proof. intros Heq. by silenced Heq. Qed.

Lemma silenced_on_supabase f s1 s2 :
  silence s1 = silence s2 → silence (on_supabase f s1) = silence (on_supabase f s2).
Proof. intros Heq. by silenced Heq. Qed.

Lemma silenced_clearHeartbeat s1 s2 :
  silence s1 = silence s2 → silence (clearHeartbeat s1) = silence (clearHeartbeat s2).
Proof.
  intros Heq. silenced Heq. unfold clearHeartbeat. simpl.
  by destruct (heartbeatIntervalRef _).
Qed.

Lemma silenced_handleReconnection cl s1 s2 :
  silence s1 = silence s2 →
  silence (handleReconnection cl s1) = silence (handleReconnection cl s2).
Proof.
  intros Heq. silenced Heq. unfold handleReconnection.
  destruct (truthy (cl_sessionId cl)); [case_bool_decide|]; try done.
  simpl. by destruct (timeoutRef _).
Qed.

Lemma silenced_startHeartbeat cl ch s1 s2 :
  silence s1 = silence s2 →
  silence (startHeartbeat cl ch s1) = silence (startHeartbeat cl ch s2).
Proof.
  intros Heq. silenced Heq. unfold startHeartbeat, clearHeartbeat. simpl.
  by destruct (heartbeatIntervalRef _).
Qed.

Lemma silenced_onStatus cl ch st s1 s2 :
  silence s1 = silence s2 →
  silence (onStatus cl ch st s1) = silence (onStatus cl ch st s2).
Proof.
  intros Heq. destruct st; simpl.
  - by apply silenced_startHeartbeat, silenced_on_hook, silenced_on_hook,
      silenced_emit, silenced_emit.
  - by apply silenced_emit.
  - by apply silenced_handleReconnection, silenced_on_hook, silenced_emit, silenced_emit.
  - by apply silenced_handleReconnection, silenced_toast, silenced_on_hook,
      silenced_emit, silenced_emit.
Qed.

Lemma silenced_removeChannel ch s1 s2 :
  silence s1 = silence s2 →
  silence (removeChannel ch s1) = silence (removeChannel ch s2).
Proof.
  intros Heq. rewrite !removeChannel_unfold.
  assert (supabase s1 = supabase s2) as -> by (apply silence_eq in Heq; tauto).
  destruct (channels (supabase s2) !! ch);
    [apply silenced_onStatus|]; by apply silenced_on_supabase.
Qed.

Lemma silenced_setupSubscription cl sid s1 s2 :
  silence s1 = silence s2 →
  silence (setupSubscription cl sid s1).2 = silence (setupSubscription cl sid s2).2.
Proof.
  intros Heq. rewrite !setupSubscription_unfold.
  assert (silence (setup_teardown s1) = silence (setup_teardown s2)) as Heq'.
  { unfold setup_teardown.
    assert (hook s1 = hook s2) as -> by (apply silence_eq in Heq; tauto).
    destruct (channelRef (hook s2)); [|done].
    by apply silenced_clearHeartbeat, silenced_on_hook, silenced_removeChannel,
      silenced_emit. }
  revert Heq'. generalize (setup_teardown s1) (setup_teardown s2).
  intros x1 x2 Heq'. apply silence_eq in Heq' as (Hh & Hw & Hs & Ht).
  destruct x1, x2; simpl in *; by subst.
Qed.

Lemma silenced_reconnect cl s1 s2 :
  silence s1 = silence s2 → silence (reconnect cl s1) = silence (reconnect cl s2).
Proof.
  intros Heq. unfold reconnect. destruct (truthy (cl_sessionId cl)) as [sid|]; [|done].
  fold (reconnect_teardown s1). fold (reconnect_teardown s2).
  apply silenced_toast, silenced_setupSubscription, silenced_clearHeartbeat. simpl.
  assert (hook s1 = hook s2) as -> by (apply silence_eq in Heq; tauto).
  destruct (channelRef (hook s2)).
  - by apply silenced_on_hook, silenced_removeChannel, silenced_on_hook,
      silenced_on_hook, silenced_emit.
  - by apply silenced_on_hook, silenced_on_hook, silenced_emit.
Qed.

Lemma silenced_cleanup s1 s2 :
  silence s1 = silence s2 → silence (cleanup s1) = silence (cleanup s2).
Proof.
  intros Heq. rewrite !cleanup_unfold.
  assert (hook s1 = hook s2) as Hh by (apply silence_eq in Heq; tauto).
  assert (silence (cleanup_clear s1) = silence (cleanup_clear s2)) as Heq'.
  { apply silenced_clearHeartbeat. simpl. rewrite Hh.
    destruct (timeoutRef (hook s2)); [apply silenced_on_window|];
      by apply silenced_emit. }
  rewrite Hh. destruct (channelRef (hook s2)); [|done].
  by apply silenced_on_hook, silenced_removeChannel.
Qed.

Lemma silenced_reconnectionTimeout cl sid s1 s2 :
  silence s1 = silence s2 →
  silence (reconnectionTimeout cl sid s1) = silence (reconnectionTimeout cl sid s2).
Proof.
  intros Heq. rewrite !reconnectionTimeout_unfold.
  apply silenced_setupSubscription. unfold timeout_teardown. simpl.
  assert (hook s1 = hook s2) as -> by (apply silence_eq in Heq; tauto).
  destruct (channelRef (hook s2)).
  - by apply silenced_on_hook, silenced_removeChannel, silenced_emit, silenced_on_hook.
  - by apply silenced_on_hook.
Qed.

(** * The claims *)

(** ** Claim C1 *)

(** C1 (amended).  When [handleReconnection] runs with a session identifier
    known and a retry counter [N] below 5 (the value its render captured,
    here also the current state), it schedules one reconnection whose delay
    is [min (1000 * 2^N) 30000] ms.  Scheduling leaves the retry counter at
    [N]; the counter becomes [N + 1] when the scheduled timer fires (the
    [setRetryCount] call is the first statement of the timer callback). *)
Theorem C1_backoff_delay_and_counter (cl : Closure) (sid : string) (N : nat) (s : State) :
  truthy (cl_sessionId cl) = Some sid →
  cl_retryCount cl = N → retryCount (hook s) = N → N < 5 →
  let s' := handleReconnection cl s in
  let id := next_timer (window s) in
  timers (window s') !! id = Some (Timeout cl sid (Z.min (1000 * 2 ^ Z.of_nat N) 30000)) ∧
  timeoutRef (hook s') = Some id ∧
  retryCount (hook s') = N ∧
  retryCount (hook (step s' (TimeoutFires id))) = N + 1.
Proof.
  intros Hsid HN Hs Hlt s' id.
  destruct (handleReconnection_schedules cl sid s Hsid) as (Ht & _ & Href & Hr & _).
  { by rewrite HN. }
  fold s' in Ht, Href, Hr. fold id in Ht, Href.
  assert (timers (window s') !! id =
          Some (Timeout cl sid (Z.min (1000 * 2 ^ Z.of_nat N) 30000))) as Hlook.
  { by rewrite Ht, lookup_insert_eq, <- HN. }
  repeat split; [done|done|congruence|].
  simpl. rewrite Hlook, reconnectionTimeout_retryCount. simpl. congruence.
Qed.

(** The hypotheses of C1 hold for the handler of a render with counter 2:
    the delay is 4000 ms and the counter reaches 3 only on firing. *)
Lemma C1_witness :
  let cl := {| cl_sessionId := Some "s1"; cl_retryCount := 2 |} in
  let s := setRetryCount (λ _, 2) init in
  truthy (cl_sessionId cl) = Some "s1" ∧ retryCount (hook s) = 2 ∧ 2 < 5 ∧
  timers (window (handleReconnection cl s)) !! 1%positive = Some (Timeout cl "s1" 4000) ∧
  retryCount (hook (handleReconnection cl s)) = 2 ∧
  retryCount (hook (step (handleReconnection cl s) (TimeoutFires 1))) = 3.
Proof.
  intros cl s.
  pose proof (C1_backoff_delay_and_counter cl "s1" 2 s eq_refl eq_refl eq_refl
                ltac:(lia)) as (H1 & _ & H3 & H4).
  split; [reflexivity|]. split; [reflexivity|]. split; [lia|].
  split; [exact H1|]. split; [exact H3|exact H4].
Defined.

(** C1 as stated fails: [setup("s1")], then [CHANNEL_ERROR] while the counter
    is 0.  The reconnection is scheduled with delay 1000 ms, and the counter
    is still 0, not 1. *)
Lemma C1_counter_unchanged_by_scheduling :
  let cl := {| cl_sessionId := Some "s1"; cl_retryCount := 0 |} in
  let s0 := run init [CallSetup cl "s1"] in
  let s1 := step s0 (StatusChange 1 CHANNEL_ERROR) in
  retryCount (hook s0) = 0 ∧
  timers (window s1) !! 1%positive = Some (Timeout cl "s1" 1000) ∧
  retryCount (hook s1) = 0 ∧
  retryCount (hook s1) ≠ 0 + 1.
Proof. vm_compute. repeat split; discriminate. Qed.

(** ** Claim C2 *)

(** C2 (amended).  In every reachable state: a heartbeat tick that finds the
    channel closed cancels the heartbeat timer and does nothing else (the
    connected flag, the pending reconnection and the toasts are untouched).
    A rejected heartbeat send cancels the heartbeat timer, clears the
    connected flag and runs reconnection handling, which is, up to console
    lines, what the CLOSED status callback does after the heartbeat is
    cleared; with a session identifier known and a captured counter below 5
    exactly the reconnection it schedules is pending afterwards. *)
Theorem C2_heartbeat_probe_and_failure (evs : list Event) (cl : Closure) (ch : positive) :
  let s := run init evs in
  (let s' := heartbeatTick ch true s in
   heartbeatIntervalRef (hook s') = None ∧
   heartbeat_timers s' = ∅ ∧
   isConnected (hook s') = isConnected (hook s) ∧
   reconnect_timers s' = reconnect_timers s ∧
   toasts s' = toasts s) ∧
  (let s' := heartbeatFailed cl s in
   heartbeatIntervalRef (hook s') = None ∧
   heartbeat_timers s' = ∅ ∧
   isConnected (hook s') = false ∧
   silence s' = silence (onStatus cl ch CLOSED (clearHeartbeat s)) ∧
   (∀ sid, truthy (cl_sessionId cl) = Some sid →
           cl_retryCount cl < MAX_RETRY_ATTEMPTS →
           reconnect_timers s' =
           {[ next_timer (window s) :=
                Timeout cl sid (retryDelay (cl_retryCount cl)) ]})).
Proof.
  intros s. pose proof (Inv_reachable evs) as HI. fold s in HI.
  destruct (clearHeartbeat_frame s) as (Hh & Hc & _ & _ & _ & Hn & _ & Ht & _).
  split.
  - simpl. by rewrite heartbeat_timers_cleared, reconnect_timers_clearHeartbeat.
  - simpl. unfold heartbeatFailed.
    set (s1 := setIsConnected false (clearHeartbeat (emit ErrorLevel "Heartbeat failed:" s))).
    assert (Inv s1) as HI1 by by apply Inv_setIsConnected, Inv_clearHeartbeat, Inv_emit.
    split; [|split; [|split; [|split]]].
    + unfold handleReconnection.
      destruct (truthy (cl_sessionId cl)); [case_bool_decide|]; simpl;
        try apply (clearHeartbeat_frame (emit _ _ s));
        destruct (timeoutRef _); apply (clearHeartbeat_frame (emit _ _ s)).
    + rewrite heartbeat_timers_scheduled by done.
      apply (heartbeat_timers_cleared (emit ErrorLevel "Heartbeat failed:" s)).
      by apply Inv_emit.
    + unfold handleReconnection.
      destruct (truthy (cl_sessionId cl)); [case_bool_decide|]; simpl; try done.
      by destruct (timeoutRef _).
    + unfold s1, handleReconnection, clearHeartbeat; simpl.
      destruct (truthy (cl_sessionId cl)); [case_bool_decide|]; simpl;
        destruct (heartbeatIntervalRef (hook s)); simpl; try done;
        by destruct (timeoutRef (hook s)).
    + intros sid Hsid Hlt. rewrite (reconnect_timers_scheduled cl sid) by done.
      unfold s1. simpl.
      by destruct (clearHeartbeat_frame (emit ErrorLevel "Heartbeat failed:" s))
        as (_ & _ & _ & _ & _ & -> & _).
Qed.

(** The hypotheses of the last part of C2 hold on a subscribed channel. *)
Lemma C2_witness :
  let cl := {| cl_sessionId := Some "s1"; cl_retryCount := 0 |} in
  let s := run init [CallSetup cl "s1"; StatusChange 1 SUBSCRIBED] in
  truthy (cl_sessionId cl) = Some "s1" ∧ cl_retryCount cl < MAX_RETRY_ATTEMPTS ∧
  heartbeat_timers (heartbeatFailed cl s) = ∅ ∧
  isConnected (hook (heartbeatFailed cl s)) = false ∧
  reconnect_timers (heartbeatFailed cl s) = {[ 2%positive := Timeout cl "s1" 1000 ]}.
Proof.
  intros cl s.
  pose proof (C2_heartbeat_probe_and_failure
                [CallSetup cl "s1"; StatusChange 1 SUBSCRIBED] cl 1)
    as (_ & _ & H2 & H3 & _ & H5).
  split; [reflexivity|]. split; [unfold MAX_RETRY_ATTEMPTS; simpl; lia|].
  split; [exact H2|]. split; [exact H3|].
  exact (H5 "s1" eq_refl ltac:(unfold MAX_RETRY_ATTEMPTS; simpl; lia)).
Defined.

(** C2 as stated fails: on a subscribed channel, a tick that finds the
    channel closed cancels the heartbeat, but the connected flag stays [true]
    and no timer at all is pending afterwards. *)
Lemma C2_closed_probe_schedules_nothing :
  let cl := {| cl_sessionId := Some "s1"; cl_retryCount := 0 |} in
  let s := run init [CallSetup cl "s1"; StatusChange 1 SUBSCRIBED] in
  let s' := step s (IntervalTicks 1 true) in
  timers (window s) !! 1%positive = Some (Interval cl 1 30000) ∧
  isConnected (hook s) = true ∧
  heartbeatIntervalRef (hook s') = None ∧
  isConnected (hook s') = true ∧
  timers (window s') = ∅.
Proof. vm_compute. repeat split. Qed.

(** ** Claim C3 *)

(** C3 (amended).  In every reachable state the CLOSED status callback clears
    the connected flag and runs reconnection handling: with a session
    identifier known and a captured counter below 5 exactly the reconnection
    it schedules is pending afterwards, otherwise nothing is scheduled and
    the page-refresh toast is emitted.  The heartbeat ref and the active
    heartbeat timer are left as they were. *)
Theorem C3_closed_status_keeps_heartbeat (evs : list Event) (cl : Closure) (ch : positive) :
  let s := run init evs in
  let s' := onStatus cl ch CLOSED s in
  isConnected (hook s') = false ∧
  heartbeatIntervalRef (hook s') = heartbeatIntervalRef (hook s) ∧
  heartbeat_timers s' = heartbeat_timers s ∧
  (∀ sid, truthy (cl_sessionId cl) = Some sid →
          cl_retryCount cl < MAX_RETRY_ATTEMPTS →
          reconnect_timers s' =
          {[ next_timer (window s) :=
               Timeout cl sid (retryDelay (cl_retryCount cl)) ]}) ∧
  (gives_up cl →
   reconnect_timers s' = reconnect_timers s ∧
   toasts s' = (toasts s ++ [refresh_toast])%list).
Proof.
  intros s s'. pose proof (Inv_reachable evs) as HI. fold s in HI.
  unfold s', onStatus.
  set (s1 := setIsConnected false _).
  assert (Inv s1) as HI1 by by apply Inv_setIsConnected, Inv_emit, Inv_emit.
  split; [|split; [|split; [|split]]].
  - unfold handleReconnection.
    destruct (truthy (cl_sessionId cl)); [case_bool_decide|]; simpl; try done.
    by destruct (timeoutRef _).
  - unfold handleReconnection.
    destruct (truthy (cl_sessionId cl)); [case_bool_decide|]; simpl; try done.
    by destruct (timeoutRef _).
  - by rewrite heartbeat_timers_scheduled.
  - intros sid Hsid Hlt. by rewrite (reconnect_timers_scheduled cl sid).
  - intros Hg. by rewrite handleReconnection_gives_up.
Qed.

(** The hypotheses of the scheduling part of C3 hold on a subscribed
    channel. *)
Lemma C3_witness :
  let cl := {| cl_sessionId := Some "s1"; cl_retryCount := 0 |} in
  let cl' := {| cl_sessionId := None; cl_retryCount := 0 |} in
  let s := run init [CallSetup cl "s1"; StatusChange 1 SUBSCRIBED] in
  truthy (cl_sessionId cl) = Some "s1" ∧ cl_retryCount cl < MAX_RETRY_ATTEMPTS ∧
  isConnected (hook (onStatus cl 1 CLOSED s)) = false ∧
  heartbeat_timers (onStatus cl 1 CLOSED s) = heartbeat_timers s ∧
  reconnect_timers (onStatus cl 1 CLOSED s) = {[ 2%positive := Timeout cl "s1" 1000 ]} ∧
  gives_up cl' ∧
  toasts (onStatus cl' 1 CLOSED s) = [refresh_toast].
Proof.
  intros cl cl' s.
  pose proof (C3_closed_status_keeps_heartbeat
                [CallSetup cl "s1"; StatusChange 1 SUBSCRIBED] cl 1)
    as (H1 & _ & H3 & H4 & _).
  pose proof (C3_closed_status_keeps_heartbeat
                [CallSetup cl "s1"; StatusChange 1 SUBSCRIBED] cl' 1)
    as (_ & _ & _ & _ & H5).
  split; [reflexivity|]. split; [unfold MAX_RETRY_ATTEMPTS; simpl; lia|].
  split; [exact H1|]. split; [exact H3|].
  split; [exact (H4 "s1" eq_refl ltac:(unfold MAX_RETRY_ATTEMPTS; simpl; lia))|].
  split; [by left|]. exact (proj2 (H5 (or_introl eq_refl))).
Defined.

(** C3 as stated fails: after [setup("s1")] and SUBSCRIBED, a CLOSED status
    clears the connected flag and schedules a reconnection (timer 2), but
    the heartbeat interval (timer 1) is still referenced and still active. *)
Lemma C3_closed_status_leaves_heartbeat_running :
  let cl := {| cl_sessionId := Some "s1"; cl_retryCount := 0 |} in
  let s := run init [CallSetup cl "s1"; StatusChange 1 SUBSCRIBED] in
  let s' := step s (StatusChange 1 CLOSED) in
  isConnected (hook s) = true ∧
  heartbeatIntervalRef (hook s) = Some 1%positive ∧
  isConnected (hook s') = false ∧
  heartbeatIntervalRef (hook s') = Some 1%positive ∧
  timers (window s') !! 1%positive = Some (Interval cl 1 30000) ∧
  timers (window s') !! 2%positive = Some (Timeout cl "s1" 1000).
Proof. vm_compute. repeat split. Qed.

(** ** Claim C4 *)

(** C4, the code at the failing input.  One [setup("s1")] from the first
    render, then [five_failures]: five CHANNEL_ERROR statuses, each followed
    by the firing of the reconnection it scheduled, and no SUBSCRIBED status
    in between.  The retry counter is then 5.  Every channel the timer
    callback opened carries the handler of the first render, which reads the
    counter 0 it captured: on the sixth CHANNEL_ERROR the page-refresh toast
    is not emitted (all six toasts are connection-error toasts) and a further
    reconnection is scheduled after 1000 ms; when it fires the counter
    becomes 6 and a seventh channel is opened. *)
Theorem C4_exhausted_counter_still_retries :
  let cl := {| cl_sessionId := Some "s1"; cl_retryCount := 0 |} in
  let s := run init five_failures in
  let s' := step s (StatusChange 6 CHANNEL_ERROR) in
  let s'' := step s' (TimeoutFires 11) in
  Forall (λ e, ∀ ch, e ≠ StatusChange ch SUBSCRIBED) five_failures ∧
  retryCount (hook s) = 5 ∧
  isConnected (hook s) = false ∧
  channelRef (hook s) = Some 6%positive ∧
  ch_closure <$> channels (supabase s) !! 6%positive = Some cl ∧
  toasts s' = replicate 6 connection_error_toast ∧
  reconnect_timers s' = {[ 11%positive := Timeout cl "s1" 1000 ]} ∧
  timeoutRef (hook s') = Some 11%positive ∧
  retryCount (hook s'') = 6 ∧
  registry (supabase s'') = {[ 7%positive ]}.
Proof.
  split; [repeat constructor; by intros ch|].
  vm_compute. repeat split.
Qed.

(** ** Claim C5 *)

(** C5.  After any sequence of events the client holds at most one channel of
    this hook and at most one heartbeat interval is active; and
    [setupSubscription], called in such a state, leaves exactly the new
    channel in the client: a channel that [channelRef] named before is no
    longer held. *)
Theorem C5_one_handle_one_heartbeat (evs : list Event) :
  let s := run init evs in
  size (registry (supabase s)) ≤ 1 ∧
  size (heartbeat_timers s) ≤ 1 ∧
  (∀ cl sid,
     let r := setupSubscription cl sid s in
     registry (supabase r.2) = {[ r.1 ]} ∧
     channelRef (hook r.2) = Some r.1 ∧
     (∀ old, channelRef (hook s) = Some old → old ∉ registry (supabase r.2)) ∧
     size (heartbeat_timers r.2) ≤ 1).
Proof.
  intros s. pose proof (Inv_reachable evs) as HI. fold s in HI.
  split; [by apply one_channel|]. split; [by apply one_heartbeat|].
  intros cl sid r.
  destruct (registry_after_setup cl sid s HI) as (_ & Hreg & Href & _ & Hold).
  split; [done|]. split; [done|]. split; [done|].
  by apply one_heartbeat, Inv_setupSubscription.
Qed.

(** The inner hypothesis of C5 holds once a channel is open: setting up
    again leaves channel 2 only. *)
Lemma C5_witness :
  let cl := {| cl_sessionId := Some "s1"; cl_retryCount := 0 |} in
  let s := run init [CallSetup cl "s1"; StatusChange 1 SUBSCRIBED] in
  channelRef (hook s) = Some 1%positive ∧
  registry (supabase (setupSubscription cl "s1" s).2) = {[ 2%positive ]} ∧
  (1%positive ∉ registry (supabase (setupSubscription cl "s1" s).2)).
Proof.
  intros cl s.
  pose proof (C5_one_handle_one_heartbeat
                [CallSetup cl "s1"; StatusChange 1 SUBSCRIBED]) as (_ & _ & H).
  destruct (H cl "s1") as (H1 & _ & H3 & _).
  split; [reflexivity|]. split; [exact H1|exact (H3 1%positive eq_refl)].
Defined.

(** ** Claim C6 *)

(** C6.  In every reachable state, [reconnect()] with a session identifier
    known resets the retry counter to 0, clears the connected flag, removes
    the channel [channelRef] named (if any) and clears the heartbeat (no
    heartbeat interval is left), runs [setupSubscription] exactly once (one
    more setup line on the console, one channel allocated, which is the only
    one the client holds and the one [channelRef] names) and emits the
    reconnecting toast as its last toast.  The only other toast it can cause
    is the page-refresh toast of the removed channel's CLOSED callback, when
    that channel's handler gives up.  Without a session identifier it
    returns the state unchanged. *)
Theorem C6_manual_reconnect (evs : list Event) (cl : Closure) :
  let s := run init evs in
  let s' := reconnect cl s in
  (∀ sid, truthy (cl_sessionId cl) = Some sid →
     retryCount (hook s') = 0 ∧
     isConnected (hook s') = false ∧
     (∀ old, channelRef (hook s) = Some old → old ∉ registry (supabase s')) ∧
     heartbeatIntervalRef (hook s') = None ∧
     heartbeat_timers s' = ∅ ∧
     setup_invocations s' = setup_invocations s + 1 ∧
     next_channel (supabase s') = Pos.succ (next_channel (supabase s)) ∧
     registry (supabase s') = {[ next_channel (supabase s) ]} ∧
     channelRef (hook s') = Some (next_channel (supabase s)) ∧
     channels (supabase s') !! next_channel (supabase s) =
       Some {| ch_topic := "chat_messages_" +:+ sid;
               ch_filter := "session_id=eq." +:+ sid;
               ch_closure := cl |} ∧
     last (toasts s') = Some reconnecting_toast ∧
     (channelRef (hook s) = None →
        toasts s' = (toasts s ++ [reconnecting_toast])%list) ∧
     (∀ old, channelRef (hook s) = Some old →
        ∃ c, channels (supabase s) !! old = Some c ∧
             (¬ gives_up (ch_closure c) →
                toasts s' = (toasts s ++ [reconnecting_toast])%list) ∧
             (gives_up (ch_closure c) →
                toasts s' = (toasts s ++ [refresh_toast; reconnecting_toast])%list))) ∧
  (truthy (cl_sessionId cl) = None → s' = s).
Proof.
  intros s s'. pose proof (Inv_reachable evs) as HI. fold s in HI. split.
  - intros sid Hsid.
    destruct (reconnect_after_teardown cl sid s HI Hsid)
      as (Hr & Hc & Hh & Hht & _ & _ & Hto).
    destruct (reconnect_handle cl sid s HI Hsid) as [Href Hreg].
    fold s' in Hr, Hc, Hh, Hht, Hto, Href, Hreg.
    assert (setup_invocations s' = setup_invocations s + 1 ∧
            next_channel (supabase s') = Pos.succ (next_channel (supabase s)) ∧
            channels (supabase s') !! next_channel (supabase s) =
              Some {| ch_topic := "chat_messages_" +:+ sid;
                      ch_filter := "session_id=eq." +:+ sid;
                      ch_closure := cl |}) as (Hcount & Hnext & Hlook).
    { unfold s'. rewrite (reconnect_unfold cl sid) by done.
      destruct (reconnect_teardown_frame s) as (_ & _ & _ & _ & Hn & Hcount).
      destruct (setupSubscription_frame cl sid (reconnect_teardown s)) as (_ & Hn' & _).
      destruct (registry_after_setup cl sid (reconnect_teardown s)
                  (Inv_reconnect_teardown s HI)) as (Hid & _ & _ & Hlook & _).
      pose proof (setup_invocations_setup cl sid (reconnect_teardown s)) as Hcount'.
      rewrite Hid, Hn in Hlook. rewrite Hn in Hn'. rewrite Hcount in Hcount'.
      set (r := (setupSubscription cl sid (reconnect_teardown s)).2) in *.
      change (supabase (toast reconnecting_toast r)) with (supabase r).
      change (setup_invocations (toast reconnecting_toast r))
        with (setup_invocations r).
      done. }
    split; [done|]. split; [done|]. split.
    { intros old Hold. rewrite Hreg, elem_of_singleton. intros ->.
      pose proof (inv_channelRef_fresh s HI _ Hold). lia. }
    split; [done|]. split; [done|]. split; [done|]. split; [done|].
    split; [done|]. split; [done|]. split; [done|].
    split; [by rewrite Hto, last_snoc|]. split.
    + intros Hnone. rewrite Hto.
      by destruct (reconnect_teardown_idle s HI Hnone) as (_ & _ & ->).
    + intros old Hold. destruct (held_channel_known evs old Hold) as [c Hch].
      fold s in Hch. exists c. split; [done|]. split.
      * intros Hng. destruct (gives_up_cases (ch_closure c)) as [Hg|(sid0 & Hs0 & Hlt)];
          [done|].
        rewrite Hto.
        by destruct (reconnect_teardown_rearms s old c HI Hold Hch sid0 Hs0 Hlt)
          as (_ & _ & ->).
      * intros Hg. rewrite Hto.
        destruct (reconnect_teardown_gives_up s old c HI Hold Hch Hg) as (_ & _ & ->).
        by rewrite <- app_assoc.
  - intros Hnone. unfold s', reconnect. by rewrite Hnone.
Qed.

(** The hypothesis of C6 holds for a manual reconnect on a subscribed
    channel: the heartbeat of channel 1 is gone, channel 2 is the only one
    held, and the reconnecting toast is the only toast. *)
Lemma C6_witness :
  let cl := {| cl_sessionId := Some "s1"; cl_retryCount := 0 |} in
  let cl' := {| cl_sessionId := Some ""; cl_retryCount := 0 |} in
  let s := run init [CallSetup cl "s1"; StatusChange 1 SUBSCRIBED] in
  truthy (cl_sessionId cl) = Some "s1" ∧
  channelRef (hook s) = Some 1%positive ∧
  heartbeat_timers s = {[ 1%positive := Interval cl 1 30000 ]} ∧
  retryCount (hook (reconnect cl s)) = 0 ∧
  isConnected (hook (reconnect cl s)) = false ∧
  (1%positive ∉ registry (supabase (reconnect cl s))) ∧
  heartbeat_timers (reconnect cl s) = ∅ ∧
  setup_invocations (reconnect cl s) = setup_invocations s + 1 ∧
  registry (supabase (reconnect cl s)) = {[ 2%positive ]} ∧
  last (toasts (reconnect cl s)) = Some reconnecting_toast ∧
  truthy (cl_sessionId cl') = None ∧
  reconnect cl' s = s.
Proof.
  intros cl cl' s.
  pose proof (C6_manual_reconnect [CallSetup cl "s1"; StatusChange 1 SUBSCRIBED] cl)
    as (H & _).
  pose proof (C6_manual_reconnect [CallSetup cl "s1"; StatusChange 1 SUBSCRIBED] cl')
    as (_ & H').
  destruct (H "s1" eq_refl)
    as (H1 & H2 & H3 & _ & H5 & H6 & _ & H8 & _ & _ & H11 & _).
  split; [reflexivity|]. split; [reflexivity|]. split; [by vm_compute|].
  split; [exact H1|]. split; [exact H2|]. split; [exact (H3 1%positive eq_refl)|].
  split; [exact H5|]. split; [exact H6|]. split; [exact H8|]. split; [exact H11|].
  split; [reflexivity|exact (H' eq_refl)].
Defined.

(** ** Claim C7 *)

(** C7.  After any sequence of events at most one reconnection timeout is
    pending; and a reconnection scheduled in such a state is the only one
    pending afterwards: the one pending before is no longer in the browser's
    timer table. *)
Theorem C7_one_pending_reconnection (evs : list Event) :
  let s := run init evs in
  size (reconnect_timers s) ≤ 1 ∧
  (∀ cl sid,
     truthy (cl_sessionId cl) = Some sid →
     cl_retryCount cl < MAX_RETRY_ATTEMPTS →
     let s' := handleReconnection cl s in
     reconnect_timers s' =
       {[ next_timer (window s) := Timeout cl sid (retryDelay (cl_retryCount cl)) ]} ∧
     (∀ old, is_Some (reconnect_timers s !! old) → timers (window s') !! old = None) ∧
     size (reconnect_timers s') = 1).
Proof.
  intros s. pose proof (Inv_reachable evs) as HI. fold s in HI.
  split; [by apply one_pending_reconnection|].
  intros cl sid Hsid Hlt s'.
  pose proof (reconnect_timers_scheduled cl sid s HI Hsid Hlt) as Hnew.
  fold s' in Hnew. split; [done|]. split.
  - intros old [t Ht]. apply reconnect_timers_lookup in Ht as [Ht Hto].
    pose proof (inv_timeout s HI old t Ht Hto) as Href.
    pose proof (inv_timers_fresh s HI old t Ht) as Hfresh.
    destruct (handleReconnection_schedules cl sid s Hsid Hlt) as (Htab & _).
    fold s' in Htab. rewrite Htab, Href.
    rewrite lookup_insert_ne by lia. apply lookup_delete_eq.
  - rewrite Hnew. apply map_size_singleton.
Qed.

(** The hypotheses of the second part of C7 hold while a reconnection is
    already pending: timer 1 is replaced by timer 2. *)
Lemma C7_witness :
  let cl := {| cl_sessionId := Some "s1"; cl_retryCount := 1 |} in
  let s := run init [CallSetup cl "s1"; StatusChange 1 CHANNEL_ERROR] in
  truthy (cl_sessionId cl) = Some "s1" ∧ cl_retryCount cl < MAX_RETRY_ATTEMPTS ∧
  reconnect_timers s = {[ 1%positive := Timeout cl "s1" 2000 ]} ∧
  reconnect_timers (handleReconnection cl s) = {[ 2%positive := Timeout cl "s1" 2000 ]} ∧
  timers (window (handleReconnection cl s)) !! 1%positive = None ∧
  size (reconnect_timers (handleReconnection cl s)) = 1.
Proof.
  intros cl s.
  assert (cl_retryCount cl < MAX_RETRY_ATTEMPTS) as Hlt
    by (unfold MAX_RETRY_ATTEMPTS; simpl; lia).
  pose proof (C7_one_pending_reconnection
                [CallSetup cl "s1"; StatusChange 1 CHANNEL_ERROR]) as (_ & H).
  destruct (H cl "s1" eq_refl Hlt) as (H1 & H2 & H3).
  split; [reflexivity|]. split; [exact Hlt|]. split; [by vm_compute|].
  split; [exact H1|]. split; [|exact H3].
  apply (H2 1%positive). exists (Timeout cl "s1" 2000). by vm_compute.
Defined.

(** ** Claim C8 *)

(** C8, the code at the failing input.  [setup("s1")] on a fresh hook, the
    SUBSCRIBED status, then the unmount cleanup.  The cleanup clears the
    heartbeat and releases the channel, but the client answers
    [removeChannel] with the CLOSED status of the removed channel, whose
    listener schedules a reconnection after the two timers were cleared:
    when the cleanup returns, one timer is pending (1000 ms) and
    [timeoutRef] names it.  When that timer fires, the unmounted hook opens
    channel 2.  A second cleanup clears the timer, so the cleanup is not
    idempotent either. *)
Theorem C8_cleanup_leaves_reconnection_pending :
  let cl := {| cl_sessionId := Some "s1"; cl_retryCount := 0 |} in
  let s := run init [CallSetup cl "s1"; StatusChange 1 SUBSCRIBED] in
  let s' := cleanup s in
  heartbeat_timers s' = ∅ ∧
  registry (supabase s') = ∅ ∧
  channelRef (hook s') = None ∧
  timers (window s') = {[ 2%positive := Timeout cl "s1" 1000 ]} ∧
  timeoutRef (hook s') = Some 2%positive ∧
  registry (supabase (step s' (TimeoutFires 2))) = {[ 2%positive ]} ∧
  timers (window (cleanup s')) = ∅ ∧
  silence (cleanup s') ≠ silence s'.
Proof. vm_compute. repeat split. discriminate. Qed.

(** ** Claim C9 *)

(** C9.  An INSERT payload whose role is not [user], [assistant] or [owner]
    changes neither the hook's state and refs, nor the timers, nor the
    client, nor the toasts: the listener only writes its two console lines
    (the received line and the invalid-role warning). *)
Theorem C9_invalid_role_dropped (payload : InsertPayload) (s : State) (ch : positive) :
  new_role payload ∉ allowed_roles →
  let s' := onInsert payload s in
  hook s' = hook s ∧ window s' = window s ∧ supabase s' = supabase s ∧
  toasts s' = toasts s ∧
  console s' =
    (console s ++ [(LogLevel, "Real-time message received:");
                   (WarnLevel, "Invalid role in payload: " +:+ new_role payload)])%list ∧
  silence (step s (RowInserted ch payload)) = silence s.
Proof.
  intros Hrole s'. unfold s', onInsert. rewrite bool_decide_eq_false_2 by done. simpl.
  rewrite <- app_assoc. repeat split.
  destruct (channels (supabase s) !! ch); [|done].
  unfold onInsert. rewrite bool_decide_eq_false_2 by done. done.
Qed.

(** The hypothesis of C9 holds for the role [system]. *)
Lemma C9_witness :
  let payload := {| new_role := "system" |} in
  let s := run init [CallSetup {| cl_sessionId := Some "s1"; cl_retryCount := 0 |} "s1";
                     StatusChange 1 SUBSCRIBED] in
  (new_role payload ∉ allowed_roles) ∧
  hook (onInsert payload s) = hook s ∧
  toasts (onInsert payload s) = toasts s ∧
  silence (step s (RowInserted 1 payload)) = silence s.
Proof.
  intros payload s.
  assert (new_role payload ∉ allowed_roles) as Hrole.
  { unfold allowed_roles. simpl. rewrite !not_elem_of_cons.
    repeat split; try discriminate. apply not_elem_of_nil. }
  pose proof (C9_invalid_role_dropped payload s 1 Hrole) as (H1 & _ & _ & H4 & _ & H6).
  split; [exact Hrole|]. split; [exact H1|]. split; [exact H4|exact H6].
Defined.

(** ** Claim C10 *)

(** C10.  Without a session identifier, whatever the retry counter,
    [handleReconnection] emits the page-refresh toast and the error line and
    touches nothing else; it returns the very state the retry-exhaustion
    case returns. *)
Theorem C10_missing_session_takes_exhaustion_branch (cl : Closure) (s : State) :
  truthy (cl_sessionId cl) = None →
  let s' := handleReconnection cl s in
  hook s' = hook s ∧ window s' = window s ∧ supabase s' = supabase s ∧
  toasts s' = (toasts s ++ [refresh_toast])%list ∧
  console s' =
    (console s ++ [(ErrorLevel, "Max retry attempts reached or no session ID")])%list ∧
  (∀ cl', MAX_RETRY_ATTEMPTS ≤ cl_retryCount cl' →
          handleReconnection cl' s = s').
Proof.
  intros Hnone s'. unfold s'.
  rewrite (handleReconnection_gives_up cl) by by left.
  repeat split. intros cl' Hmax.
  by rewrite (handleReconnection_gives_up cl') by by right.
Qed.

(** The hypothesis of C10 holds with the retry counter at 0, below the
    maximum. *)
Lemma C10_witness :
  let cl := {| cl_sessionId := None; cl_retryCount := 0 |} in
  truthy (cl_sessionId cl) = None ∧ cl_retryCount cl < MAX_RETRY_ATTEMPTS ∧
  toasts (handleReconnection cl init) = [refresh_toast] ∧
  window (handleReconnection cl init) = window init ∧
  handleReconnection {| cl_sessionId := Some "s1"; cl_retryCount := 5 |} init =
  handleReconnection cl init.
Proof.
  intros cl.
  pose proof (C10_missing_session_takes_exhaustion_branch cl init eq_refl)
    as (_ & H2 & _ & H4 & _ & H6).
  split; [reflexivity|]. split; [unfold MAX_RETRY_ATTEMPTS; simpl; lia|].
  split; [exact H4|]. split; [exact H2|].
  apply H6. unfold MAX_RETRY_ATTEMPTS. simpl. lia.
Defined.

(** * Further properties *)

(** ** The remaining status branches and the backoff *)

Lemma heartbeat_timers_started cl ch s :
  Inv s →
  heartbeat_timers (startHeartbeat cl ch s) =
  {[ next_timer (window s) := Interval cl ch HEARTBEAT_PERIOD ]}.
Proof.
  intros HI. apply map_eq; intros i. apply option_eq; intros t.
  rewrite heartbeat_timers_lookup, lookup_singleton_Some.
  pose proof (inv_interval s HI i t) as Hint.
  unfold startHeartbeat, clearHeartbeat.
  destruct (heartbeatIntervalRef (hook s)) as [h|] eqn:Hh; simpl;
    rewrite lookup_insert; case_decide; subst; try rewrite lookup_delete;
    try case_decide; subst;
    intuition (simplify_eq/=; try congruence).
Qed.

Lemma reconnect_timers_started cl ch s :
  Inv s → reconnect_timers (startHeartbeat cl ch s) = reconnect_timers s.
Proof.
  intros HI. apply map_eq; intros i. apply option_eq; intros t.
  rewrite !reconnect_timers_lookup.
  pose proof (inv_timers_fresh s HI i t) as Hfresh.
  pose proof (inv_timeout s HI i t) as Hto.
  pose proof (inv_refs_distinct s HI i) as Hne.
  unfold startHeartbeat, clearHeartbeat.
  destruct (heartbeatIntervalRef (hook s)) as [h|] eqn:Hh; simpl;
    rewrite lookup_insert; case_decide; subst; try rewrite lookup_delete;
    try case_decide; subst;
    intuition (simplify_eq/=; try congruence; try lia; try (by exfalso; eauto)).
Qed.

Lemma startHeartbeat_frame cl ch s :
  let s' := startHeartbeat cl ch s in
  heartbeatIntervalRef (hook s') = Some (next_timer (window s)) ∧
  isConnected (hook s') = isConnected (hook s) ∧
  retryCount (hook s') = retryCount (hook s) ∧
  timeoutRef (hook s') = timeoutRef (hook s) ∧
  channelRef (hook s') = channelRef (hook s) ∧
  supabase s' = supabase s ∧ toasts s' = toasts s.
Proof.
  unfold startHeartbeat, clearHeartbeat.
  by destruct (heartbeatIntervalRef (hook s)).
Qed.

(** X1.  In every reachable state the SUBSCRIBED status callback sets the
    connected flag, resets the retry counter to 0 and leaves exactly one
    heartbeat interval, of period 30000 ms, for that channel.  It leaves a
    reconnection that is still pending, and [timeoutRef], as they are. *)
Theorem X1_subscribed_starts_one_heartbeat (evs : list Event) (cl : Closure) (ch : positive) :
  let s := run init evs in
  let s' := onStatus cl ch SUBSCRIBED s in
  isConnected (hook s') = true ∧
  retryCount (hook s') = 0 ∧
  heartbeatIntervalRef (hook s') = Some (next_timer (window s)) ∧
  heartbeat_timers s' = {[ next_timer (window s) := Interval cl ch 30000 ]} ∧
  reconnect_timers s' = reconnect_timers s ∧
  timeoutRef (hook s') = timeoutRef (hook s) ∧
  supabase s' = supabase s ∧
  toasts s' = toasts s.
Proof.
  intros s s'. pose proof (Inv_reachable evs) as HI. fold s in HI.
  unfold s', onStatus.
  set (s1 := setRetryCount _ _).
  assert (Inv s1) as HI1
    by by apply Inv_setRetryCount, Inv_setIsConnected, Inv_emit, Inv_emit.
  destruct (startHeartbeat_frame cl ch s1) as (Hh & Hc & Hr & Ht & _ & Hs & Hto).
  rewrite Hh, Hc, Hr, Ht, Hs, Hto.
  rewrite heartbeat_timers_started, reconnect_timers_started by done.
  done.
Qed.

(** X2.  With a session identifier known and a captured counter below 5, the
    CHANNEL_ERROR status callback and the system error listener each clear
    the connected flag, emit exactly their own error toast and leave exactly
    the reconnection they schedule pending; the heartbeat, the retry counter
    and the client are untouched. *)
Theorem X2_error_callbacks_notify_and_schedule
    (evs : list Event) (cl : Closure) (ch : positive) (sid : string) :
  truthy (cl_sessionId cl) = Some sid →
  cl_retryCount cl < MAX_RETRY_ATTEMPTS →
  let s := run init evs in
  let scheduled : gmap positive Timer :=
    {[ next_timer (window s) := Timeout cl sid (retryDelay (cl_retryCount cl)) ]} in
  (let s' := onStatus cl ch CHANNEL_ERROR s in
   isConnected (hook s') = false ∧
   toasts s' = (toasts s ++ [connection_error_toast])%list ∧
   reconnect_timers s' = scheduled ∧
   heartbeat_timers s' = heartbeat_timers s ∧
   retryCount (hook s') = retryCount (hook s) ∧
   supabase s' = supabase s) ∧
  (let s' := onSystemError cl s in
   isConnected (hook s') = false ∧
   toasts s' = (toasts s ++ [connection_lost_toast])%list ∧
   reconnect_timers s' = scheduled ∧
   heartbeat_timers s' = heartbeat_timers s ∧
   retryCount (hook s') = retryCount (hook s) ∧
   supabase s' = supabase s).
Proof.
  intros Hsid Hlt s scheduled. pose proof (Inv_reachable evs) as HI. fold s in HI.
  split.
  - unfold onStatus.
    set (s1 := toast connection_error_toast _).
    assert (Inv s1) as HI1
      by by apply Inv_toast, Inv_setIsConnected, Inv_emit, Inv_emit.
    destruct (handleReconnection_schedules cl sid s1 Hsid Hlt)
      as (_ & _ & _ & Hr & Hc & _ & _ & Hs & Ht).
    simpl. rewrite Hr, Hc, Hs, Ht.
    rewrite (reconnect_timers_scheduled cl sid), heartbeat_timers_scheduled by done.
    done.
  - unfold onSystemError.
    set (s1 := toast connection_lost_toast _).
    assert (Inv s1) as HI1 by by apply Inv_toast, Inv_setIsConnected, Inv_emit.
    destruct (handleReconnection_schedules cl sid s1 Hsid Hlt)
      as (_ & _ & _ & Hr & Hc & _ & _ & Hs & Ht).
    simpl. rewrite Hr, Hc, Hs, Ht.
    rewrite (reconnect_timers_scheduled cl sid), heartbeat_timers_scheduled by done.
    done.
Qed.

(** The hypotheses of X2 hold on a subscribed channel, counter 3. *)
Lemma X2_witness :
  let cl := {| cl_sessionId := Some "s1"; cl_retryCount := 3 |} in
  let s := run init [CallSetup cl "s1"; StatusChange 1 SUBSCRIBED] in
  truthy (cl_sessionId cl) = Some "s1" ∧ cl_retryCount cl < MAX_RETRY_ATTEMPTS ∧
  toasts (onStatus cl 1 CHANNEL_ERROR s) = [connection_error_toast] ∧
  reconnect_timers (onSystemError cl s) = {[ 2%positive := Timeout cl "s1" 8000 ]}.
Proof.
  intros cl s.
  assert (cl_retryCount cl < MAX_RETRY_ATTEMPTS) as Hlt
    by (unfold MAX_RETRY_ATTEMPTS; simpl; lia).
  pose proof (X2_error_callbacks_notify_and_schedule
                [CallSetup cl "s1"; StatusChange 1 SUBSCRIBED] cl 1 "s1" eq_refl Hlt)
    as ((_ & H1 & _) & (_ & _ & H2 & _)).
  split; [reflexivity|]. split; [exact Hlt|]. split; [exact H1|exact H2].
Defined.

Lemma retryDelay_below_cap n :
  n < MAX_RETRY_ATTEMPTS → retryDelay n = (1000 * 2 ^ Z.of_nat n)%Z.
Proof.
  unfold MAX_RETRY_ATTEMPTS, retryDelay, INITIAL_RETRY_DELAY, MAX_RETRY_DELAY.
  intros Hn. apply Z.min_l.
  assert (2 ^ Z.of_nat n ≤ 2 ^ 4)%Z by (apply Z.pow_le_mono_r; lia).
  lia.
Qed.

Lemma retryDelay_at_cap n :
  MAX_RETRY_ATTEMPTS ≤ n → retryDelay n = 30000%Z.
Proof.
  unfold MAX_RETRY_ATTEMPTS, retryDelay, INITIAL_RETRY_DELAY, MAX_RETRY_DELAY.
  intros Hn. apply Z.min_r.
  assert (2 ^ 5 ≤ 2 ^ Z.of_nat n)%Z by (apply Z.pow_le_mono_r; lia).
  lia.
Qed.

(** X3.  The backoff delay lies between 1000 and 30000 ms, never decreases
    with the counter and doubles from one attempt to the next up to the cap.
    For a counter below 5, the only ones a reconnection is scheduled with,
    it is [1000 * 2^n], at most 16000 ms: the cap is reached from 5 on. *)
Theorem X3_backoff_schedule (n m : nat) :
  (1000 ≤ retryDelay n ≤ 30000)%Z ∧
  (n ≤ m → (retryDelay n ≤ retryDelay m)%Z) ∧
  retryDelay (S n) = Z.min (2 * retryDelay n) 30000 ∧
  (n < 5 → retryDelay n = (1000 * 2 ^ Z.of_nat n)%Z ∧ (retryDelay n ≤ 16000)%Z) ∧
  (5 ≤ n → retryDelay n = 30000%Z).
Proof.
  assert (∀ k, (1 ≤ 2 ^ Z.of_nat k)%Z) as Hpos
    by (intros k; apply (Z.pow_le_mono_r 2 0); lia).
  split; [|split; [|split; [|split]]].
  - unfold retryDelay, INITIAL_RETRY_DELAY, MAX_RETRY_DELAY.
    specialize (Hpos n). lia.
  - intros Hnm. unfold retryDelay, INITIAL_RETRY_DELAY, MAX_RETRY_DELAY.
    assert (2 ^ Z.of_nat n ≤ 2 ^ Z.of_nat m)%Z by (apply Z.pow_le_mono_r; lia).
    lia.
  - unfold retryDelay, INITIAL_RETRY_DELAY, MAX_RETRY_DELAY.
    rewrite Nat2Z.inj_succ, Z.pow_succ_r by lia.
    specialize (Hpos n). lia.
  - intros Hn. rewrite retryDelay_below_cap by done. split; [done|].
    assert (2 ^ Z.of_nat n ≤ 2 ^ 4)%Z by (apply Z.pow_le_mono_r; lia).
    lia.
  - intros Hn. by apply retryDelay_at_cap.
Qed.

(** The hypotheses of X3 hold at counters 1, 2, 4 and 7. *)
Lemma X3_witness :
  1 ≤ 2 ∧ (retryDelay 1 ≤ retryDelay 2)%Z ∧
  4 < 5 ∧ retryDelay 4 = 16000%Z ∧
  5 ≤ 7 ∧ retryDelay 7 = 30000%Z.
Proof.
  pose proof (X3_backoff_schedule 1 2) as (_ & Hmono & _).
  pose proof (X3_backoff_schedule 4 7) as (_ & _ & _ & Hlow & _).
  pose proof (X3_backoff_schedule 7 7) as (_ & _ & _ & _ & Hcap).
  split; [lia|]. split; [apply Hmono; lia|].
  split; [lia|]. split; [exact (proj1 (Hlow ltac:(lia)))|].
  split; [lia|]. apply Hcap. lia.
Defined.

(** ** Pending reconnections, heartbeats and channels *)

Lemma truthy_Some sid x : truthy sid = Some x → sid = Some x ∧ x ≠ "".
Proof. destruct sid as [[|a r]|]; simpl; intros [= <-]; done. Qed.

(** X4.  A reconnection pending in a reachable state was scheduled by a
    handler with a non-empty session identifier and a counter below 5; its
    delay is [1000 * 2^counter], between 1000 and 16000 ms, and it is the
    timer [timeoutRef] names. *)
Theorem X4_pending_reconnection_shape
    (evs : list Event) (id : positive) (cl : Closure) (sid : string) (d : Z) :
  timers (window (run init evs)) !! id = Some (Timeout cl sid d) →
  cl_sessionId cl = Some sid ∧ sid ≠ "" ∧
  cl_retryCount cl < 5 ∧
  d = (1000 * 2 ^ Z.of_nat (cl_retryCount cl))%Z ∧
  (1000 ≤ d ≤ 16000)%Z ∧
  timeoutRef (hook (run init evs)) = Some id.
Proof.
  intros Hl.
  destruct (wf_timers _ (WF_reachable evs) id _ Hl) as (Hsid & Hlt & ->).
  apply truthy_Some in Hsid as [Hsid Hne].
  rewrite retryDelay_below_cap by done.
  assert (1 ≤ 2 ^ Z.of_nat (cl_retryCount cl) ≤ 2 ^ 4)%Z.
  { split; [apply (Z.pow_le_mono_r 2 0)|apply Z.pow_le_mono_r];
      unfold MAX_RETRY_ATTEMPTS in Hlt; lia. }
  repeat split; try done; try lia.
  by apply (inv_timeout _ (Inv_reachable evs) id _ Hl).
Qed.

(** The hypothesis of X4 holds after one failure at counter 2. *)
Lemma X4_witness :
  let cl := {| cl_sessionId := Some "s1"; cl_retryCount := 2 |} in
  let evs := [CallSetup cl "s1"; StatusChange 1 CHANNEL_ERROR] in
  timers (window (run init evs)) !! 1%positive = Some (Timeout cl "s1" 4000) ∧
  (1000 ≤ 4000 ≤ 16000)%Z ∧
  timeoutRef (hook (run init evs)) = Some 1%positive.
Proof.
  intros cl evs.
  assert (timers (window (run init evs)) !! 1%positive = Some (Timeout cl "s1" 4000))
    as Hl by reflexivity.
  pose proof (X4_pending_reconnection_shape evs 1 cl "s1" 4000 Hl)
    as (_ & _ & _ & _ & H5 & H6).
  split; [exact Hl|]. split; [exact H5|exact H6].
Defined.

(** X5.  In every reachable state an active heartbeat interval has period
    30000 ms, is the one [heartbeatIntervalRef] names, and targets a channel
    this hook opened, whose listeners share its render; and every heartbeat
    broadcast so far went to a channel this hook opened. *)
Theorem X5_heartbeat_targets_own_channel (evs : list Event) :
  let s := run init evs in
  (∀ id cl ch p,
     timers (window s) !! id = Some (Interval cl ch p) →
     p = 30000%Z ∧
     heartbeatIntervalRef (hook s) = Some id ∧
     ∃ c, channels (supabase s) !! ch = Some c ∧ ch_closure c = cl) ∧
  (∀ ch, ch ∈ sent (supabase s) → is_Some (channels (supabase s) !! ch)).
Proof.
  intros s. pose proof (WF_reachable evs) as HW. fold s in HW. split.
  - intros id cl ch p Hl.
    destruct (wf_timers _ HW id _ Hl) as (-> & c & Hc & Hcl).
    split; [done|]. split; [|by exists c].
    by apply (inv_interval _ (Inv_reachable evs) id _ Hl).
  - apply (wf_sent _ HW).
Qed.

(** The hypotheses of X5 hold after one heartbeat on a subscribed channel. *)
Lemma X5_witness :
  let cl := {| cl_sessionId := Some "s1"; cl_retryCount := 0 |} in
  let evs := [CallSetup cl "s1"; StatusChange 1 SUBSCRIBED; IntervalTicks 1 false] in
  timers (window (run init evs)) !! 1%positive = Some (Interval cl 1 30000) ∧
  heartbeatIntervalRef (hook (run init evs)) = Some 1%positive ∧
  1%positive ∈ sent (supabase (run init evs)) ∧
  is_Some (channels (supabase (run init evs)) !! 1%positive).
Proof.
  intros cl evs.
  assert (timers (window (run init evs)) !! 1%positive = Some (Interval cl 1 30000))
    as Hl by reflexivity.
  assert (1%positive ∈ sent (supabase (run init evs))) as Hin
    by (vm_compute; apply list_elem_of_here).
  pose proof (X5_heartbeat_targets_own_channel evs) as (H1 & H2).
  destruct (H1 1%positive cl 1%positive 30000%Z Hl) as (_ & Href & _).
  split; [exact Hl|]. split; [exact Href|]. split; [exact Hin|exact (H2 _ Hin)].
Defined.

Lemma step_channels s e :
  (channels (supabase (step s e)) = channels (supabase s) ∧
   next_channel (supabase (step s e)) = next_channel (supabase s)) ∨
  (∃ cl sid,
     channels (supabase (step s e)) =
       <[next_channel (supabase s) :=
           {| ch_topic := "chat_messages_" +:+ sid;
              ch_filter := "session_id=eq." +:+ sid;
              ch_closure := cl |}]> (channels (supabase s)) ∧
     next_channel (supabase (step s e)) = Pos.succ (next_channel (supabase s))).
Proof.
  destruct e as [cl sid|cl| |c p|c|c st|id|id closed|c].
  - right. exists cl, sid.
    by destruct (setupSubscription_client cl sid s) as (Hch & Hn & _).
  - destruct (reconnect_client cl s) as [Heq|(_ & _ & Hch & Hn)].
    + left. simpl. by rewrite Heq.
    + right. by eexists cl, _.
  - left. by destruct (cleanup_client s) as (_ & Hch & Hn & _).
  - left. unfold step; crush_hook; done.
  - left. unfold step; crush_hook; done.
  - left. unfold step; crush_hook; done.
  - simpl. destruct (timers (window s) !! id) as [[cl sid d|]|]; try by left.
    right. exists cl, sid.
    by destruct (reconnectionTimeout_client cl sid (clearTimer id s)) as (Hch & Hn & _).
  - left. unfold step; crush_hook; done.
  - left. unfold step; crush_hook; done.
Qed.

Lemma channels_kept_step s e ch c :
  WellFormed s → channels (supabase s) !! ch = Some c →
  channels (supabase (step s e)) !! ch = Some c.
Proof.
  intros HW Hch. destruct (step_channels s e) as [[-> _]|(cl & sid & -> & _)]; [done|].
  rewrite lookup_insert_ne; [done|].
  intros <-. destruct (wf_channels s HW _ _ Hch) as [_ Hlt]. lia.
Qed.

Lemma channels_kept_run evs : ∀ s ch c,
  WellFormed s → channels (supabase s) !! ch = Some c →
  channels (supabase (run s evs)) !! ch = Some c.
Proof.
  induction evs as [|e evs IH]; intros s ch c HW Hch; [done|].
  apply IH; [by apply WF_step|by apply channels_kept_step].
Qed.

(** X6.  Every channel the hook has opened is named [chat_messages_<sid>]
    and filters on [session_id=eq.<sid>] for the same [sid]; its handle was
    allocated earlier, and no later event replaces or alters it. *)
Theorem X6_channels_named_and_kept
    (evs evs' : list Event) (ch : positive) (c : Channel) :
  channels (supabase (run init evs)) !! ch = Some c →
  (∃ sid, ch_topic c = "chat_messages_" +:+ sid ∧
          ch_filter c = "session_id=eq." +:+ sid) ∧
  (ch < next_channel (supabase (run init evs)))%positive ∧
  channels (supabase (run init (evs ++ evs'))) !! ch = Some c.
Proof.
  intros Hch. pose proof (WF_reachable evs) as HW.
  destruct (wf_channels _ HW _ _ Hch) as [Hwf Hlt].
  split; [done|]. split; [done|].
  unfold run. rewrite foldl_app. by apply channels_kept_run.
Qed.

(** The hypothesis of X6 holds for the first channel of a session. *)
Lemma X6_witness :
  let cl := {| cl_sessionId := Some "s1"; cl_retryCount := 0 |} in
  let c := {| ch_topic := "chat_messages_s1"; ch_filter := "session_id=eq.s1";
              ch_closure := cl |} in
  let evs := [CallSetup cl "s1"; StatusChange 1 CLOSED] in
  let evs' := [TimeoutFires 1; Unmount] in
  channels (supabase (run init evs)) !! 1%positive = Some c ∧
  channels (supabase (run init (evs ++ evs'))) !! 1%positive = Some c.
Proof.
  intros cl c evs evs'.
  assert (channels (supabase (run init evs)) !! 1%positive = Some c) as Hch
    by reflexivity.
  pose proof (X6_channels_named_and_kept evs evs' 1 c Hch) as (_ & _ & H3).
  split; [exact Hch|exact H3].
Defined.

Lemma fired_timer_was_pending s id cl sid d :
  Inv s → timers (window s) !! id = Some (Timeout cl sid d) →
  reconnect_timers (clearTimer id s) = ∅ ∧
  heartbeat_timers (clearTimer id s) = heartbeat_timers s.
Proof.
  intros HI Hl. unfold reconnect_timers, heartbeat_timers. simpl.
  rewrite !map_filter_delete. split.
  - apply map_eq; intros i. rewrite lookup_empty.
    destruct (decide (i = id)) as [->|Hne]; [apply lookup_delete_eq|].
    rewrite lookup_delete_ne by done.
    destruct (filter _ (timers (window s)) !! i) as [t|] eqn:Hi; [|done].
    apply map_lookup_filter_Some in Hi as [Hi Hto]. simpl in Hto.
    pose proof (inv_timeout s HI i t Hi Hto) as H1.
    pose proof (inv_timeout s HI id _ Hl eq_refl) as H2. congruence.
  - apply delete_id. apply map_lookup_filter_None. right. intros t Ht'.
    rewrite Hl in Ht'. by injection Ht' as <-.
Qed.

(** X7.  When a pending reconnection fires, the retry counter grows by one
    and the client holds exactly one channel: a new one for the session of
    the scheduling handler, with that handler's render.  The fired timer is
    gone; the heartbeat interval and its ref are left as they were.  With no
    channel held before, no reconnection is pending afterwards and the flag
    and the toasts are untouched.  With a channel held, its removal runs
    that channel's CLOSED callback inside the timer callback: the connected
    flag is cleared and either that channel's handler schedules the next
    reconnection at once, which is then the only one pending, or it gives up
    and emits the page-refresh toast. *)
Theorem X7_reconnection_timer_fires
    (evs : list Event) (id : positive) (cl : Closure) (sid : string) (d : Z) :
  timers (window (run init evs)) !! id = Some (Timeout cl sid d) →
  let s := run init evs in
  let s' := step s (TimeoutFires id) in
  let new := next_channel (supabase s) in
  retryCount (hook s') = retryCount (hook s) + 1 ∧
  registry (supabase s') = {[ new ]} ∧
  channelRef (hook s') = Some new ∧
  channels (supabase s') !! new =
    Some {| ch_topic := "chat_messages_" +:+ sid;
            ch_filter := "session_id=eq." +:+ sid;
            ch_closure := cl |} ∧
  reconnect_timers s' !! id = None ∧
  heartbeat_timers s' = heartbeat_timers s ∧
  heartbeatIntervalRef (hook s') = heartbeatIntervalRef (hook s) ∧
  (channelRef (hook s) = None →
     reconnect_timers s' = ∅ ∧
     isConnected (hook s') = isConnected (hook s) ∧
     toasts s' = toasts s) ∧
  (∀ old, channelRef (hook s) = Some old →
     ∃ c, channels (supabase s) !! old = Some c ∧
          isConnected (hook s') = false ∧
          (∀ sid0, truthy (cl_sessionId (ch_closure c)) = Some sid0 →
                   cl_retryCount (ch_closure c) < MAX_RETRY_ATTEMPTS →
                   reconnect_timers s' =
                     {[ next_timer (window s) :=
                          Timeout (ch_closure c) sid0
                            (retryDelay (cl_retryCount (ch_closure c))) ]} ∧
                   timeoutRef (hook s') = Some (next_timer (window s)) ∧
                   toasts s' = toasts s) ∧
          (gives_up (ch_closure c) →
             reconnect_timers s' = ∅ ∧
             toasts s' = (toasts s ++ [refresh_toast])%list)).
Proof.
  intros Hl s s' new. pose proof (Inv_reachable evs) as HI. fold s in HI, Hl.
  assert (s' = reconnectionTimeout cl sid (clearTimer id s)) as ->
    by (unfold s'; simpl; by rewrite Hl).
  set (s0 := clearTimer id s).
  assert (Inv s0) as HI0 by by apply Inv_clearTimer.
  destruct (fired_timer_was_pending s id cl sid d HI Hl) as [Hrt0 Hht0]. fold s0 in Hrt0, Hht0.
  destruct (reconnectionTimeout_channel cl sid s0 HI0) as (Hreg & Href & Hch).
  destruct (reconnectionTimeout_after_teardown cl sid s0) as (Hw & Hto & Hc & Hh & Hts).
  destruct (timeout_teardown_frame s0) as (_ & _ & Hhb). destruct (Hhb HI0) as [_ Hht].
  pose proof (inv_timers_fresh s HI id _ Hl) as Hfresh.
  assert (channelRef (hook s) = None →
          reconnect_timers (reconnectionTimeout cl sid s0) = ∅ ∧
          isConnected (hook (reconnectionTimeout cl sid s0)) = isConnected (hook s) ∧
          toasts (reconnectionTimeout cl sid s0) = toasts s) as Hidle.
  { intros Hnone. destruct (timeout_teardown_idle s0 Hnone) as (Hw' & _ & Hc' & Hts').
    rewrite (reconnect_timers_window _ _ Hw), (reconnect_timers_window _ _ Hw').
    by rewrite Hc, Hc', Hts, Hts'. }
  assert (∀ old c, channelRef (hook s) = Some old → channels (supabase s) !! old = Some c →
            isConnected (hook (reconnectionTimeout cl sid s0)) = false ∧
            (∀ sid0, truthy (cl_sessionId (ch_closure c)) = Some sid0 →
                     cl_retryCount (ch_closure c) < MAX_RETRY_ATTEMPTS →
                     reconnect_timers (reconnectionTimeout cl sid s0) =
                       {[ next_timer (window s) :=
                            Timeout (ch_closure c) sid0
                              (retryDelay (cl_retryCount (ch_closure c))) ]} ∧
                     timeoutRef (hook (reconnectionTimeout cl sid s0)) =
                       Some (next_timer (window s)) ∧
                     toasts (reconnectionTimeout cl sid s0) = toasts s) ∧
            (gives_up (ch_closure c) →
               reconnect_timers (reconnectionTimeout cl sid s0) = ∅ ∧
               toasts (reconnectionTimeout cl sid s0) = (toasts s ++ [refresh_toast])%list))
    as Hheld.
  { intros old c Hold Hc0.
    assert (isConnected (hook (timeout_teardown s0)) = false) as Hflag.
    { destruct (gives_up_cases (ch_closure c)) as [Hg|(sid0 & Hs0 & Hlt)].
      - by destruct (timeout_teardown_gives_up s0 old c Hold Hc0 Hg) as (_ & _ & -> & _).
      - by destruct (timeout_teardown_rearms s0 old c HI0 Hold Hc0 sid0 Hs0 Hlt)
          as (_ & _ & -> & _). }
    split; [by rewrite Hc|]. split.
    - intros sid0 Hs0 Hlt.
      destruct (timeout_teardown_rearms s0 old c HI0 Hold Hc0 sid0 Hs0 Hlt)
        as (Hrt & Href' & _ & Hts').
      rewrite (reconnect_timers_window _ _ Hw). by rewrite Hto, Hts.
    - intros Hg.
      destruct (timeout_teardown_gives_up s0 old c Hold Hc0 Hg) as (Hw' & _ & _ & Hts').
      rewrite (reconnect_timers_window _ _ Hw), (reconnect_timers_window _ _ Hw').
      by rewrite Hts. }
  rewrite reconnectionTimeout_retryCount.
  rewrite (heartbeat_timers_window _ _ Hw), Hht, Hht0, Hh.
  split; [done|]. split; [done|]. split; [done|]. split; [done|].
  split; [|split; [done|split; [done|split; [done|]]]].
  - destruct (channelRef (hook s)) as [old|] eqn:Hold.
    + destruct (held_channel_known evs old Hold) as [c Hc0]. fold s in Hc0.
      destruct (Hheld old c eq_refl Hc0) as (_ & Hrearm & Hgive).
      destruct (gives_up_cases (ch_closure c)) as [Hg|(sid0 & Hs0 & Hlt)].
      * destruct (Hgive Hg) as [-> _]. apply lookup_empty.
      * destruct (Hrearm sid0 Hs0 Hlt) as (-> & _). apply lookup_singleton_ne. lia.
    + destruct (Hidle eq_refl) as [-> _]. apply lookup_empty.
  - intros old Hold. destruct (held_channel_known evs old Hold) as [c Hc0].
    fold s in Hc0. exists c. split; [done|]. by apply (Hheld old c).
Qed.

(** The hypothesis of X7 holds after SUBSCRIBED then CLOSED: when timer 2
    fires, channel 1 is removed, its CLOSED callback schedules timer 3, and
    the heartbeat of the removed channel is still active. *)
Lemma X7_witness :
  let cl := {| cl_sessionId := Some "s1"; cl_retryCount := 0 |} in
  let evs := [CallSetup cl "s1"; StatusChange 1 SUBSCRIBED; StatusChange 1 CLOSED] in
  timers (window (run init evs)) !! 2%positive = Some (Timeout cl "s1" 1000) ∧
  channelRef (hook (run init evs)) = Some 1%positive ∧
  retryCount (hook (step (run init evs) (TimeoutFires 2))) = 1 ∧
  registry (supabase (step (run init evs) (TimeoutFires 2))) = {[ 2%positive ]} ∧
  heartbeat_timers (step (run init evs) (TimeoutFires 2)) =
    {[ 1%positive := Interval cl 1 30000 ]} ∧
  reconnect_timers (step (run init evs) (TimeoutFires 2)) =
    {[ 3%positive := Timeout cl "s1" 1000 ]}.
Proof.
  intros cl evs.
  assert (timers (window (run init evs)) !! 2%positive = Some (Timeout cl "s1" 1000))
    as Hl by reflexivity.
  pose proof (X7_reconnection_timer_fires evs 2 cl "s1" 1000 Hl)
    as (H1 & H2 & _ & _ & _ & H6 & _ & _ & H9).
  destruct (H9 1%positive eq_refl) as (c & Hc & _ & Hrearm & _).
  assert (c = {| ch_topic := "chat_messages_s1"; ch_filter := "session_id=eq.s1";
                 ch_closure := cl |}) as ->
    by (vm_compute in Hc; by injection Hc as <-).
  destruct (Hrearm "s1" eq_refl ltac:(unfold MAX_RETRY_ATTEMPTS; simpl; lia))
    as (Hrt & _).
  split; [exact Hl|]. split; [reflexivity|]. split; [exact H1|]. split; [exact H2|].
  split; [rewrite H6; by vm_compute|]. rewrite Hrt. by vm_compute.
Defined.

(** ** External calls, transparent events, the flag and the counter *)

(** X8.  Removing the channel [channelRef] names re-arms the
    reconnection.  In every reachable state in which a channel is held whose
    handler does not give up, [setupSubscription], [reconnect] (with a
    session identifier) and the unmount [cleanup] each leave exactly one
    reconnection pending: the one the removed channel's CLOSED callback
    schedules, with that channel's session and the backoff delay of its
    captured counter, whatever was pending before; [timeoutRef] names it.
    After [cleanup] it is the only timer left.  When the handler gives up,
    or when no channel is held, [setupSubscription] and [reconnect] leave
    the pending reconnections as they are and [cleanup] leaves no timer at
    all. *)
Theorem X8_removing_the_channel_rearms_reconnection
    (evs : list Event) (cl : Closure) (sid : string) :
  let s := run init evs in
  (channelRef (hook s) = None →
     reconnect_timers (setupSubscription cl sid s).2 = reconnect_timers s ∧
     timeoutRef (hook (setupSubscription cl sid s).2) = timeoutRef (hook s) ∧
     reconnect_timers (reconnect cl s) = reconnect_timers s ∧
     timeoutRef (hook (reconnect cl s)) = timeoutRef (hook s) ∧
     timers (window (cleanup s)) = ∅) ∧
  (∀ old, channelRef (hook s) = Some old →
     ∃ c, channels (supabase s) !! old = Some c ∧
          (∀ sid0, truthy (cl_sessionId (ch_closure c)) = Some sid0 →
                   cl_retryCount (ch_closure c) < MAX_RETRY_ATTEMPTS →
                   let rearmed : gmap positive Timer :=
                     {[ next_timer (window s) :=
                          Timeout (ch_closure c) sid0
                            (retryDelay (cl_retryCount (ch_closure c))) ]} in
                   reconnect_timers (setupSubscription cl sid s).2 = rearmed ∧
                   timeoutRef (hook (setupSubscription cl sid s).2) =
                     Some (next_timer (window s)) ∧
                   (is_Some (truthy (cl_sessionId cl)) →
                      reconnect_timers (reconnect cl s) = rearmed ∧
                      timeoutRef (hook (reconnect cl s)) = Some (next_timer (window s))) ∧
                   timers (window (cleanup s)) = rearmed ∧
                   timeoutRef (hook (cleanup s)) = Some (next_timer (window s))) ∧
          (gives_up (ch_closure c) →
             reconnect_timers (setupSubscription cl sid s).2 = reconnect_timers s ∧
             reconnect_timers (reconnect cl s) = reconnect_timers s ∧
             timers (window (cleanup s)) = ∅)).
Proof.
  intros s. pose proof (Inv_reachable evs) as HI. fold s in HI.
  destruct (setupSubscription_after_teardown cl sid s HI) as (Hsrt & Hsto & _ & _).
  assert (∀ sid', truthy (cl_sessionId cl) = Some sid' →
            reconnect_timers (reconnect cl s) = reconnect_timers (reconnect_teardown s) ∧
            timeoutRef (hook (reconnect cl s)) = timeoutRef (hook (reconnect_teardown s)))
    as Hrec.
  { intros sid' Hsid'.
    by destruct (reconnect_after_teardown cl sid' s HI Hsid')
      as (_ & _ & _ & _ & -> & -> & _). }
  split.
  - intros Hnone. rewrite Hsrt, Hsto, (setup_teardown_idle s Hnone).
    split; [done|]. split; [done|].
    split; [|split; [|by apply cleanup_idle]].
    + destruct (truthy (cl_sessionId cl)) as [sid'|] eqn:Hsid'.
      * destruct (Hrec sid' eq_refl) as [-> _].
        by destruct (reconnect_teardown_idle s HI Hnone) as (-> & _).
      * unfold reconnect. by rewrite Hsid'.
    + destruct (truthy (cl_sessionId cl)) as [sid'|] eqn:Hsid'.
      * destruct (Hrec sid' eq_refl) as [_ ->].
        by destruct (reconnect_teardown_idle s HI Hnone) as (_ & -> & _).
      * unfold reconnect. by rewrite Hsid'.
  - intros old Hold. destruct (held_channel_known evs old Hold) as [c Hch].
    fold s in Hch. exists c. split; [done|]. split.
    + intros sid0 Hs0 Hlt rearmed. rewrite Hsrt, Hsto.
      destruct (setup_teardown_rearms s old c HI Hold Hch sid0 Hs0 Hlt) as (-> & -> & _).
      destruct (cleanup_rearms s old c HI Hold Hch sid0 Hs0 Hlt) as (-> & -> & _).
      split; [done|]. split; [done|]. split; [|done].
      intros [sid' Hsid']. destruct (Hrec sid' Hsid') as [-> ->].
      by destruct (reconnect_teardown_rearms s old c HI Hold Hch sid0 Hs0 Hlt)
        as (-> & -> & _).
    + intros Hg. rewrite Hsrt.
      destruct (setup_teardown_gives_up s old c HI Hold Hch Hg) as (-> & _).
      destruct (cleanup_gives_up s old c HI Hold Hch Hg) as (-> & _).
      split; [done|]. split; [|done].
      destruct (truthy (cl_sessionId cl)) as [sid'|] eqn:Hsid'.
      * destruct (Hrec sid' eq_refl) as [-> _].
        by destruct (reconnect_teardown_gives_up s old c HI Hold Hch Hg) as (-> & _).
      * unfold reconnect. by rewrite Hsid'.
Qed.

(** The hypotheses of X8 hold on a subscribed channel with a reconnection
    pending: a manual reconnect replaces timer 2 by timer 3, and so does the
    cleanup, which leaves timer 3 as the only timer. *)
Lemma X8_witness :
  let cl := {| cl_sessionId := Some "s1"; cl_retryCount := 0 |} in
  let evs := [CallSetup cl "s1"; StatusChange 1 SUBSCRIBED; SystemError 1] in
  let s := run init evs in
  channelRef (hook s) = Some 1%positive ∧
  reconnect_timers s = {[ 2%positive := Timeout cl "s1" 1000 ]} ∧
  reconnect_timers (reconnect cl s) = {[ 3%positive := Timeout cl "s1" 1000 ]} ∧
  reconnect_timers (setupSubscription cl "s1" s).2 = {[ 3%positive := Timeout cl "s1" 1000 ]} ∧
  timers (window (cleanup s)) = {[ 3%positive := Timeout cl "s1" 1000 ]} ∧
  timers (window (cleanup init)) = ∅.
Proof.
  intros cl evs s.
  pose proof (X8_removing_the_channel_rearms_reconnection evs cl "s1") as (_ & H).
  pose proof (X8_removing_the_channel_rearms_reconnection [] cl "s1") as (H0 & _).
  destruct (H 1%positive eq_refl) as (c & Hc & Hrearm & _).
  assert (c = {| ch_topic := "chat_messages_s1"; ch_filter := "session_id=eq.s1";
                 ch_closure := cl |}) as ->
    by (vm_compute in Hc; by injection Hc as <-).
  destruct (Hrearm "s1" eq_refl ltac:(unfold MAX_RETRY_ATTEMPTS; simpl; lia))
    as (H1 & _ & H3 & H4 & _).
  split; [reflexivity|]. split; [by vm_compute|].
  split; [exact (proj1 (H3 (mk_is_Some _ _ eq_refl)))|].
  split; [exact H1|]. split; [exact H4|].
  exact (proj2 (proj2 (proj2 (proj2 (H0 eq_refl))))).
Defined.

Lemma step_silence s1 s2 e :
  silence s1 = silence s2 → silence (step s1 e) = silence (step s2 e).
Proof.
  intros Heq.
  assert (window s1 = window s2 ∧ supabase s1 = supabase s2) as [Hw Hs]
    by (apply silence_eq in Heq; tauto).
  destruct e as [cl sid|cl| |c p|c|c st|id|id closed|c]; simpl; rewrite ?Hw, ?Hs.
  - by apply silenced_setupSubscription.
  - by apply silenced_reconnect.
  - by apply silenced_cleanup.
  - destruct (channels (supabase s2) !! c); [|done].
    unfold onInsert. destruct (negb _); by repeat apply silenced_emit.
  - destruct (channels (supabase s2) !! c); [|done].
    by apply silenced_handleReconnection, silenced_toast, silenced_on_hook,
      silenced_emit.
  - destruct (channels (supabase s2) !! c); [|done]. by apply silenced_onStatus.
  - destruct (timers (window s2) !! id) as [[cl sid d|]|]; try done.
    by apply silenced_reconnectionTimeout, silenced_on_window.
  - destruct (timers (window s2) !! id) as [[|cl ch p]|]; try done.
    unfold heartbeatTick. destruct closed;
      [by apply silenced_clearHeartbeat|by apply silenced_on_supabase].
  - destruct (channels (supabase s2) !! c); [|done].
    by apply silenced_handleReconnection, silenced_on_hook, silenced_clearHeartbeat,
      silenced_emit.
Qed.

Lemma step_transparent s e :
  transparent e = true → silence (step s e) = silence s.
Proof.
  destruct e as [| | |ch p| |ch st| | |]; try done.
  - intros _. simpl. destruct (channels (supabase s) !! ch); [|done].
    unfold onInsert. by destruct (negb _).
  - destruct st; try done. intros _. simpl.
    by destruct (channels (supabase s) !! ch).
Qed.

Lemma run_transparent evs : ∀ s1 s2,
  silence s1 = silence s2 →
  silence (run s1 evs) =
  silence (run s2 (filter (λ e, transparent e = false) evs)).
Proof.
  induction evs as [|e evs IH]; intros s1 s2 Heq; [done|].
  rewrite filter_cons. destruct (transparent e) eqn:He; case_decide; try done.
  - simpl. apply IH. rewrite step_transparent by done. done.
  - simpl. apply IH. by apply step_silence.
Qed.

(** X9.  INSERT events, whatever their role, and TIMED_OUT statuses only
    write to the console: dropping them from any sequence of events, from
    any state, gives the same hook state, timers, client and toasts. *)
Theorem X9_inserts_and_timeouts_are_invisible (evs : list Event) (s : State) :
  silence (run s evs) =
  silence (run s (filter (λ e, transparent e = false) evs)).
Proof. by apply run_transparent. Qed.

(** X10.  The connected flag is raised by one event only: if it is [true]
    after a step and was not before, the step delivered SUBSCRIBED to the
    status listener of a channel this hook opened. *)
Theorem X10_connected_only_after_subscribed (s : State) (e : Event) :
  isConnected (hook (step s e)) = true →
  isConnected (hook s) = true ∨
  ∃ ch c, e = StatusChange ch SUBSCRIBED ∧ channels (supabase s) !! ch = Some c.
Proof.
  destruct e as [cl sid|cl| |c p|c|c st|id|id closed|c].
  - intros Hc. left. by apply (setupSubscription_client cl sid s).
  - destruct (reconnect_client cl s) as [Heq|(_ & Hflag & _)]; simpl.
    + rewrite Heq. by left.
    + by rewrite Hflag.
  - intros Hc. left. by apply (cleanup_client s).
  - unfold step; crush_hook; simplify_eq/=; intros Hc; try discriminate; eauto.
  - unfold step; crush_hook; simplify_eq/=; intros Hc; try discriminate; eauto.
  - unfold step; crush_hook; simplify_eq/=; intros Hc; try discriminate; eauto.
  - simpl. destruct (timers (window s) !! id) as [[cl sid d|]|]; try by left.
    intros Hc. left. by apply (reconnectionTimeout_client cl sid (clearTimer id s)).
  - unfold step; crush_hook; simplify_eq/=; intros Hc; try discriminate; eauto.
  - unfold step; crush_hook; simplify_eq/=; intros Hc; try discriminate; eauto.
Qed.

(** The hypothesis of X10 holds when a fresh channel reports SUBSCRIBED. *)
Lemma X10_witness :
  let cl := {| cl_sessionId := Some "s1"; cl_retryCount := 0 |} in
  let s := run init [CallSetup cl "s1"] in
  isConnected (hook s) = false ∧
  isConnected (hook (step s (StatusChange 1 SUBSCRIBED))) = true ∧
  is_Some (channels (supabase s) !! 1%positive).
Proof.
  intros cl s.
  assert (isConnected (hook (step s (StatusChange 1 SUBSCRIBED))) = true) as Hc
    by reflexivity.
  destruct (X10_connected_only_after_subscribed s (StatusChange 1 SUBSCRIBED) Hc)
    as [Hold|(ch & c & He & Hch)].
  - discriminate Hold.
  - split; [reflexivity|]. split; [exact Hc|].
    injection He as <-. by exists c.
Defined.

Lemma step_retryCount s e :
  retryCount (hook (step s e)) ≤ retryCount (hook s) +
    match e with TimeoutFires _ => 1 | _ => 0 end.
Proof.
  destruct e as [cl sid|cl| |c p|c|c st|id|id closed|c].
  - change (step s (CallSetup cl sid)) with (setupSubscription cl sid s).2.
    destruct (setupSubscription_frame cl sid s) as (-> & _). lia.
  - change (step s (CallReconnect cl)) with (reconnect cl s).
    destruct (reconnect_client cl s) as [Heq|(Hr & _)].
    + rewrite Heq. lia.
    + rewrite Hr. lia.
  - change (step s Unmount) with (cleanup s).
    destruct (cleanup_client s) as (-> & _). lia.
  - unfold step; crush_hook; simplify_eq/=; lia.
  - unfold step; crush_hook; simplify_eq/=; lia.
  - unfold step; crush_hook; simplify_eq/=; lia.
  - simpl. destruct (timers (window s) !! id) as [[cl sid d|]|]; try lia.
    rewrite reconnectionTimeout_retryCount. simpl. lia.
  - unfold step; crush_hook; simplify_eq/=; lia.
  - unfold step; crush_hook; simplify_eq/=; lia.
Qed.

Lemma run_retryCount evs : ∀ s,
  retryCount (hook (run s evs)) ≤ retryCount (hook s) + fired evs.
Proof.
  induction evs as [|e evs IH]; intros s; [simpl; lia|].
  simpl. etrans; [apply IH|]. pose proof (step_retryCount s e) as Hstep.
  unfold fired. rewrite filter_cons.
  destruct e; case_decide; simpl in *; try done; lia.
Qed.

(** X11.  The retry counter never exceeds the number of timeout firings in
    the history: only the timer callback increments it. *)
Theorem X11_counter_bounded_by_fired_timers (evs : list Event) :
  retryCount (hook (run init evs)) ≤ fired evs.
Proof. apply (run_retryCount evs init). Qed.

(** ** The session check *)

Ltac crush_auth :=
  unfold checkSession, signOut_and_leave, checkSession_catch, prepend;
  repeat (simpl; case_match); simplify_eq/=.

Ltac in_list H :=
  repeat (apply elem_of_cons in H as [H|H];
          [try discriminate H; try (injection H as ->)|]);
  try (by apply elem_of_nil in H).

(** X12.  One run of [checkSession] navigates at most once, only to
    [/login], and shows exactly as many toasts as it navigates; when it
    navigates, the destructive toast and the navigation are its last two
    actions. *)
Theorem X12_leaving_is_announced (env : AuthEnv) :
  let acts := (checkSession env).1 in
  count_actions is_navigation acts = count_actions is_toast acts ∧
  count_actions is_navigation acts ≤ 1 ∧
  (count_actions is_navigation acts = 1 → announces_leaving acts = true) ∧
  (∀ path, NavigateTo path ∈ acts → path = "/login").
Proof.
  crush_auth; (split; [done|]); (split; [unfold count_actions; simpl; lia|]);
    (split; [done|]); intros path Hin; in_list Hin; done.
Qed.

Lemma about_to_expire_spec cur now :
  about_to_expire cur now = true ↔
  ∃ e, expires_at cur = Some e ∧ e ≠ 0%Z ∧ (e - now / 1000 < 300)%Z.
Proof.
  unfold about_to_expire. destruct (expires_at cur) as [e|].
  - rewrite andb_true_iff, negb_true_iff, Z.eqb_neq, Z.ltb_lt. split.
    + intros [Hne Hlt]. exists e. by repeat split; [|lia].
    + intros (e' & [= <-] & Hne & Hlt). split; [done|lia].
  - split; [done|]. by intros (e & He & _).
Qed.

(** X13.  [checkSession] calls [refreshSession], at most once, exactly when
    [getSession] returned a session without error whose [expires_at] is set,
    non-zero and less than 300 s after the current second.  A session that
    is not about to expire causes no action beyond the [getSession] call; a
    refresh that returns a session causes no sign-out and no toast. *)
Theorem X13_refresh_only_when_about_to_expire (env : AuthEnv) :
  let acts := (checkSession env).1 in
  (CallRefreshSession ∈ acts ↔
   ∃ r cur e, getSession env = Resolves r ∧ resp_error r = false ∧
              resp_session r = Some cur ∧ expires_at cur = Some e ∧
              e ≠ 0%Z ∧ (e - date_now env / 1000 < 300)%Z) ∧
  count_actions is_refresh acts ≤ 1 ∧
  (∀ r cur, getSession env = Resolves r → resp_error r = false →
            resp_session r = Some cur →
            (∀ e, expires_at cur = Some e → e = 0%Z ∨ (300 ≤ e - date_now env / 1000)%Z) →
            checkSession env = ([CallGetSession], Fulfilled)) ∧
  (∀ rr new, CallRefreshSession ∈ acts → refreshSession env = Resolves rr →
             resp_error rr = false → resp_session rr = Some new →
             count_actions is_toast acts = 0 ∧ count_actions is_signOut acts = 0 ∧
             (checkSession env).2 = Fulfilled).
Proof.
  intros acts. unfold acts. split; [|split; [|split]].
  - split.
    + intros Hin. revert Hin. unfold checkSession.
      destruct (getSession env) as [r|m] eqn:Hg.
      * destruct (resp_error r) eqn:He.
        { crush_auth; intros Hin; in_list Hin. }
        destruct (resp_session r) as [cur|] eqn:Hs; [|intros Hin; in_list Hin].
        destruct (about_to_expire cur (date_now env)) eqn:Ha;
          [|intros Hin; in_list Hin].
        intros _. apply about_to_expire_spec in Ha as (e & He' & Hne & Hlt).
        by exists r, cur, e.
      * crush_auth; intros Hin; in_list Hin.
    + intros (r & cur & e & Hg & He & Hs & Hex & Hne & Hlt).
      assert (about_to_expire cur (date_now env) = true) as Ha
        by (apply about_to_expire_spec; by exists e).
      unfold checkSession. rewrite Hg, He, Hs, Ha.
      crush_auth; rewrite !elem_of_cons; tauto.
  - crush_auth; unfold count_actions; simpl; lia.
  - intros r cur Hg He Hs Hexp.
    assert (about_to_expire cur (date_now env) = false) as Ha.
    { destruct (about_to_expire cur (date_now env)) eqn:Ha; [|done].
      apply about_to_expire_spec in Ha as (e & He' & Hne & Hlt).
      destruct (Hexp e He'); [done|lia]. }
    unfold checkSession. by rewrite Hg, He, Hs, Ha.
  - intros rr new Hin Hr Her Hsr. revert Hin. unfold checkSession.
    destruct (getSession env) as [r|m] eqn:Hg.
    + destruct (resp_error r) eqn:He.
      { crush_auth; intros Hin; in_list Hin. }
      destruct (resp_session r) as [cur|] eqn:Hs; [|intros Hin; in_list Hin].
      destruct (about_to_expire cur (date_now env)) eqn:Ha;
        [|intros Hin; in_list Hin].
      intros _. by rewrite Hr, Her, Hsr.
    + crush_auth; intros Hin; in_list Hin.
Qed.

(** The hypotheses of X13 hold for a session expiring in 100 s (refreshed)
    and for one expiring in 300 s (left alone). *)
Lemma X13_witness :
  let env := {| getSession := Resolves {| resp_session := Some {| expires_at := Some 1000%Z |};
                                          resp_error := false |};
                refreshSession := Resolves {| resp_session := Some {| expires_at := Some 4600%Z |};
                                              resp_error := false |};
                signOut := λ _, Resolves tt;
                date_now := 900500%Z |} in
  let healthy := {| getSession := Resolves {| resp_session := Some {| expires_at := Some 1200%Z |};
                                              resp_error := false |};
                    refreshSession := Throws Nullish;
                    signOut := λ _, Throws Nullish;
                    date_now := 900500%Z |} in
  (1000 - 900500 / 1000 < 300)%Z ∧
  CallRefreshSession ∈ (checkSession env).1 ∧
  (checkSession env).2 = Fulfilled ∧
  (300 ≤ 1200 - 900500 / 1000)%Z ∧
  checkSession healthy = ([CallGetSession], Fulfilled).
Proof.
  intros env healthy.
  pose proof (X13_refresh_only_when_about_to_expire env) as (H1 & _ & _ & H4).
  pose proof (X13_refresh_only_when_about_to_expire healthy) as (_ & _ & H3 & _).
  assert (CallRefreshSession ∈ (checkSession env).1) as Hin.
  { apply H1. eexists _, _, 1000%Z. repeat split; try reflexivity; done. }
  split; [done|]. split; [exact Hin|].
  split; [exact (proj2 (proj2 (H4 _ _ Hin eq_refl eq_refl eq_refl)))|].
  split; [done|].
  apply (H3 _ _ eq_refl eq_refl eq_refl).
  intros e [= <-]. right. done.
Defined.

(** X14.  [checkSession] fulfils whenever no [signOut] call throws and
    neither [getSession] nor [refreshSession] rejects with [undefined] or
    [null].  When it does not fulfil, the user was neither told nor
    redirected and a [signOut] call was the last action: either that call
    threw, and the promise rejects with what it threw, or it resolved inside
    the [catch] block and reading [error.message] off a caught [undefined] or
    [null] raised a [TypeError].  It signs out at most twice; a missing
    session without error leads to [/login] without any sign-out, an error
    response signs out at least once. *)
Theorem X14_sign_out_discipline (env : AuthEnv) :
  let acts := (checkSession env).1 in
  ((∀ n, n < 2 → ∃ u, signOut env n = Resolves u) →
   getSession env ≠ Throws Nullish → refreshSession env ≠ Throws Nullish →
   (checkSession env).2 = Fulfilled) ∧
  ((checkSession env).2 ≠ Fulfilled →
   count_actions is_toast acts = 0 ∧ count_actions is_navigation acts = 0 ∧
   last acts = Some CallSignOut) ∧
  (∀ e, (checkSession env).2 = RejectedWith e →
        ∃ n, n < 2 ∧ signOut env n = Throws e) ∧
  ((checkSession env).2 = RejectedWithTypeError →
   (getSession env = Throws Nullish ∨ refreshSession env = Throws Nullish ∨
    signOut env 0 = Throws Nullish) ∧
   ∃ n u, n < 2 ∧ signOut env n = Resolves u) ∧
  count_actions is_signOut acts ≤ 2 ∧
  (∀ r, getSession env = Resolves r → resp_error r = false →
        resp_session r = None →
        count_actions is_signOut acts = 0 ∧ announces_leaving acts = true) ∧
  (∀ r, getSession env = Resolves r → resp_error r = true →
        1 ≤ count_actions is_signOut acts).
Proof.
  intros acts. unfold acts. split; [|split; [|split; [|split; [|split; [|split]]]]].
  - intros Hok Hget Href.
    destruct (Hok 0 ltac:(lia)) as [u0 H0]. destruct (Hok 1 ltac:(lia)) as [u1 H1].
    crush_auth; congruence.
  - crush_auth; intros Hr; simplify_eq/=; done.
  - intros e. crush_auth; intros Hr; simplify_eq/=;
      first [by exists 0; split; [lia|] | by exists 1; split; [lia|]].
  - crush_auth; intros Hr; simplify_eq/=;
      (split; [tauto|]);
      first [by eexists 0, _; split; [lia|] | by eexists 1, _; split; [lia|]].
  - crush_auth; unfold count_actions; simpl; lia.
  - intros r Hg He Hs. unfold checkSession. by rewrite Hg, He, Hs.
  - intros r Hg He. unfold checkSession. rewrite Hg, He.
    crush_auth; unfold count_actions; simpl; lia.
Qed.

(** The hypotheses of X14 hold with a failing [signOut] (rejection after two
    attempts), with a [getSession] that rejects with [undefined] while
    [signOut] works ([TypeError], no toast), and with a missing session (no
    sign-out). *)
Lemma X14_witness :
  let env := {| getSession := Resolves {| resp_session := None; resp_error := true |};
                refreshSession := Throws Nullish;
                signOut := λ _, Throws (WithMessage (Some "network down"));
                date_now := 0%Z |} in
  let void := {| getSession := Throws Nullish;
                 refreshSession := Throws Nullish;
                 signOut := λ _, Resolves tt;
                 date_now := 0%Z |} in
  let calm := {| getSession := Resolves {| resp_session := None; resp_error := false |};
                 refreshSession := Resolves {| resp_session := None; resp_error := false |};
                 signOut := λ _, Resolves tt;
                 date_now := 0%Z |} in
  (checkSession env).2 = RejectedWith (WithMessage (Some "network down")) ∧
  count_actions is_toast (checkSession env).1 = 0 ∧
  count_actions is_signOut (checkSession env).1 = 2 ∧
  (checkSession void).2 = RejectedWithTypeError ∧
  count_actions is_toast (checkSession void).1 = 0 ∧
  last (checkSession void).1 = Some CallSignOut ∧
  (checkSession calm).2 = Fulfilled ∧
  count_actions is_signOut (checkSession calm).1 = 0.
Proof.
  intros env void calm.
  pose proof (X14_sign_out_discipline env) as (_ & H2 & _).
  pose proof (X14_sign_out_discipline void) as (_ & H2' & _).
  pose proof (X14_sign_out_discipline calm) as (H1 & _ & _ & _ & _ & H6 & _).
  destruct (H2 ltac:(discriminate)) as (Ht & _).
  destruct (H2' ltac:(discriminate)) as (Ht' & _ & Hl').
  split; [reflexivity|]. split; [exact Ht|]. split; [reflexivity|].
  split; [reflexivity|]. split; [exact Ht'|]. split; [exact Hl'|].
  split; [apply H1; [intros n _; by exists tt|discriminate|discriminate]|].
  exact (proj1 (H6 _ eq_refl eq_refl eq_refl)).
Defined.

(** The hypotheses of X12 hold when [getSession] throws an error with an
    empty message: the fallback description is shown. *)
Lemma X12_witness :
  let env := {| getSession := Throws (WithMessage (Some ""));
                refreshSession := Throws Nullish;
                signOut := λ _, Resolves tt;
                date_now := 0%Z |} in
  count_actions is_navigation (checkSession env).1 = 1 ∧
  NavigateTo "/login" ∈ (checkSession env).1 ∧
  announces_leaving (checkSession env).1 = true ∧
  DestructiveToast "Authentication Error" "Please try logging in again"
    ∈ (checkSession env).1.
Proof.
  intros env.
  pose proof (X12_leaving_is_announced env) as (_ & _ & H3 & H4).
  assert (NavigateTo "/login" ∈ (checkSession env).1) as Hin
    by (vm_compute; do 4 apply list_elem_of_further; apply list_elem_of_here).
  split; [reflexivity|]. split; [exact Hin|]. split; [exact (H3 eq_refl)|].
  vm_compute. do 3 apply list_elem_of_further. apply list_elem_of_here.
Defined.

(** ** Trimming and the two forms *)

Lemma trimStart_blank s : trimStart s = [] ↔ forallb is_js_space s = true.
Proof.
  induction s as [|c r IH]; [done|]. simpl.
  destruct (is_js_space c); [done|]. split; done.
Qed.

Lemma trimEnd_blank s : trimEnd s = [] ↔ forallb is_js_space s = true.
Proof.
  induction s as [|c r IH]; [done|]. simpl.
  destruct (trimEnd r) as [|c' r'] eqn:Hr.
  - destruct (is_js_space c); simpl; [by rewrite <- IH|]. split; done.
  - split; [done|]. rewrite andb_true_iff. intros [_ Hall].
    by apply IH in Hall.
Qed.

Lemma trimStart_head s c : head (trimStart s) = Some c → is_js_space c = false.
Proof.
  induction s as [|c' r IH]; [done|]. simpl.
  destruct (is_js_space c') eqn:Hc; [done|]. by intros [= <-].
Qed.

Lemma trimStart_suffix_blank s :
  forallb is_js_space (trimStart s) = true → forallb is_js_space s = true.
Proof.
  induction s as [|c r IH]; [done|]. simpl.
  destruct (is_js_space c) eqn:Hc; [done|]. simpl. by rewrite Hc.
Qed.

Lemma trimEnd_head s c : head (trimEnd s) = Some c → head s = Some c.
Proof.
  destruct s as [|c' r]; [done|]. simpl.
  destruct (trimEnd r); [destruct (is_js_space c')|]; done.
Qed.

Lemma trimEnd_last s c : last (trimEnd s) = Some c → is_js_space c = false.
Proof.
  induction s as [|c' r IH]; [done|]. simpl.
  destruct (trimEnd r) as [|c'' r'] eqn:Hr.
  - destruct (is_js_space c') eqn:Hc; [done|]. by intros [= <-].
  - intros Hl. apply IH. by rewrite <- Hl.
Qed.

Lemma trimStart_fixed s :
  (∀ c, head s = Some c → is_js_space c = false) → trimStart s = s.
Proof.
  destruct s as [|c r]; [done|]. intros Hh. simpl. by rewrite (Hh c).
Qed.

Lemma trimEnd_idemp s : trimEnd (trimEnd s) = trimEnd s.
Proof.
  induction s as [|c r IH]; [done|]. simpl.
  destruct (trimEnd r) as [|c' r'] eqn:Hr.
  - destruct (is_js_space c) eqn:Hc; [done|]. simpl. by rewrite Hc.
  - simpl. simpl in IH. rewrite IH. done.
Qed.

Lemma trim_head s c : head (trim s) = Some c → is_js_space c = false.
Proof. intros Hh. by apply trimEnd_head, trimStart_head in Hh. Qed.

Lemma trim_idemp s : trim (trim s) = trim s.
Proof.
  unfold trim. rewrite (trimStart_fixed (trimEnd (trimStart s))).
  - apply trimEnd_idemp.
  - intros c. apply trim_head.
Qed.

Lemma trim_blank s : trim s = [] ↔ forallb is_js_space s = true.
Proof.
  unfold trim. rewrite trimEnd_blank. split.
  - apply trimStart_suffix_blank.
  - intros Hall. apply trimStart_blank in Hall. by rewrite Hall.
Qed.

Lemma nonempty_trim s : nonempty (trim s) = negb (forallb is_js_space s).
Proof.
  destruct (forallb is_js_space s) eqn:Hall.
  - apply trim_blank in Hall. by rewrite Hall.
  - destruct (trim s) eqn:Ht; [|done]. apply trim_blank in Ht. congruence.
Qed.

Lemma forallb_false {A} (f : A → bool) (l : list A) :
  forallb f l = false ↔ ∃ x, x ∈ l ∧ f x = false.
Proof.
  induction l as [|a l IH]; simpl.
  - split; [done|]. intros (x & Hx & _). by apply elem_of_nil in Hx.
  - rewrite andb_false_iff, IH. split.
    + intros [Ha|(x & Hx & Hf)].
      * exists a. split; [apply list_elem_of_here|done].
      * exists x. split; [by apply list_elem_of_further|done].
    + intros (x & Hx & Hf). apply elem_of_cons in Hx as [->|Hx]; [by left|].
      right. by exists x.
Qed.

(** X15.  Whenever [handleSubmit] starts the update mutation, its argument is
    the trimmed input: it is not empty, trimming it again changes nothing,
    and it neither starts nor ends with a white space character. *)
Theorem X15_submit_sends_trimmed_domain (customDomain x : JsString) :
  Mutate x ∈ handleSubmit customDomain →
  x = trim customDomain ∧ x ≠ [] ∧ trim x = x ∧
  (∀ c, head x = Some c → is_js_space c = false) ∧
  (∀ c, last x = Some c → is_js_space c = false) ∧
  handleSubmit customDomain = [PreventDefault; Mutate x].
Proof.
  unfold handleSubmit. rewrite elem_of_cons. intros [Hin|Hin]; [done|].
  destruct (nonempty (trim customDomain)) eqn:Hne; [|by apply elem_of_nil in Hin].
  apply list_elem_of_singleton in Hin as [= ->].
  split; [done|]. split; [by destruct (trim customDomain)|].
  split; [apply trim_idemp|]. split; [apply trim_head|].
  split; [apply trimEnd_last|done].
Qed.

(** The hypothesis of X15 holds for a padded domain. *)
Lemma X15_witness :
  let padded : JsString := [0x20; 0x9; 0x6D; 0x79; 0x20; 0x62; 0x6F; 0x74; 0xA0; 0xA]%N in
  let bare : JsString := [0x6D; 0x79; 0x20; 0x62; 0x6F; 0x74]%N in
  Mutate bare ∈ handleSubmit padded ∧
  bare = trim padded ∧
  handleSubmit padded = [PreventDefault; Mutate bare].
Proof.
  intros padded bare.
  assert (Mutate bare ∈ handleSubmit padded) as Hin
    by (vm_compute; apply list_elem_of_further, list_elem_of_here).
  pose proof (X15_submit_sends_trimmed_domain padded bare Hin) as (H1 & _ & _ & _ & _ & H6).
  split; [exact Hin|]. split; [exact H1|exact H6].
Defined.

(** X16.  [handleSubmit] only prevents the default action, starting no
    mutation, exactly when the input consists of white space (or is empty);
    the send button of [ChatInput] is enabled exactly when nothing is
    loading and the message has a character that is not white space. *)
Theorem X16_blank_input_is_never_submitted (isLoading : bool) (input : JsString) :
  (handleSubmit input = [PreventDefault] ↔ forallb is_js_space input = true) ∧
  (send_disabled isLoading input = false ↔
   isLoading = false ∧ ∃ c, c ∈ input ∧ is_js_space c = false).
Proof.
  split.
  - unfold handleSubmit. rewrite nonempty_trim.
    destruct (forallb is_js_space input); simpl; split; done.
  - unfold send_disabled.
    rewrite nonempty_trim, negb_involutive, orb_false_iff, forallb_false. done.
Qed.

(** Both directions of X16 at a blank and at a non-blank input. *)
Lemma X16_witness :
  let blank : JsString := [0x20; 0x3000; 0xD; 0xA]%N in
  let hello : JsString := [0x20; 0x68; 0x69]%N in
  forallb is_js_space blank = true ∧
  handleSubmit blank = [PreventDefault] ∧
  send_disabled false blank = true ∧
  send_disabled false hello = false ∧
  send_disabled true hello = true.
Proof.
  intros blank hello.
  pose proof (X16_blank_input_is_never_submitted false blank) as (H1 & _).
  pose proof (X16_blank_input_is_never_submitted false hello) as (_ & H2).
  split; [reflexivity|]. split; [apply H1; reflexivity|]. split; [reflexivity|].
  split; [|reflexivity].
  apply H2. split; [reflexivity|]. exists 0x68%N. split; [|reflexivity].
  apply list_elem_of_further, list_elem_of_here.
Defined.
